(** * network_scanner: the monitor's sampler, detector, probes and loop

    A shallow embedding of [NetworkMonitor] and [MainWindow] from
    [network_monitor_v1.5.py], of [NetworkMonitor] from
    [network_monitor_v1.0.py] and from [network_monitor_v1.2.py], and the
    properties of the specification proved about them, followed by
    properties of the code beyond those the specification states.

    Python values are modelled as the interpreter has them: [int] is [Z],
    [float] is IEEE binary64 ([PrimFloat.float]), [str] is [string], a
    [deque(maxlen=n)] is a list with its bound.  Methods of the monitor run
    in a monad that threads the object's fields, collects what is emitted
    or logged, and carries a raised exception. *)

From Stdlib Require Import ZArith List Bool Ascii String Floats Lia.
Import ListNotations.

Set Implicit Arguments.

(** ** Exceptions and results *)

(** The exception classes the monitor's code names or can meet.  The text of
    an exception's message is not modelled. *)
Inductive exn : Type :=
| ZeroDivisionError
| ValueError
| IndexError
| OSError
| gaierror              (* socket.gaierror *)
| TimeoutExpired        (* subprocess.TimeoutExpired *)
| CalledProcessError    (* subprocess.CalledProcessError *)
| RequestException      (* requests.RequestException *)
| SpeedtestException
| KeyboardInterrupt.

(** [isinstance(e, Exception)]: every class above but [KeyboardInterrupt],
    which derives from [BaseException] only. *)
Definition is_Exception (e : exn) : bool :=
  match e with
  | KeyboardInterrupt => false
  | _ => true
  end.

Definition exn_eqb (a b : exn) : bool :=
  match a, b with
  | ZeroDivisionError, ZeroDivisionError
  | ValueError, ValueError
  | IndexError, IndexError
  | OSError, OSError
  | gaierror, gaierror
  | TimeoutExpired, TimeoutExpired
  | CalledProcessError, CalledProcessError
  | RequestException, RequestException
  | SpeedtestException, SpeedtestException
  | KeyboardInterrupt, KeyboardInterrupt => true
  | _, _ => false
  end.

(** What evaluating a Python expression gives: a value, or a raised
    exception. *)
Inductive res (A : Type) : Type :=
| Ret (a : A)
| Raise (e : exn).
Arguments Ret {A} a.
Arguments Raise {A} e.

Definition is_Ret {A} (r : res A) : bool :=
  match r with Ret _ => true | Raise _ => false end.

(** ** Numbers *)

Module Py.

Local Open Scope float_scope.

(** An [int] as an (unrounded) binary float of exponent 0. *)
Definition Z2SF (z : Z) : spec_float :=
  match z with
  | Z0 => S754_zero false
  | Zpos p => S754_finite false p 0
  | Zneg p => S754_finite true p 0
  end.

(** [float(z)] for an [int]: the nearest binary64, ties to even.  (CPython
    raises [OverflowError] beyond the binary64 range, about 1.8e308; a
    byte counter never gets there, and the model rounds to infinity.) *)
Definition float_of_int (z : Z) : float :=
  SF2Prim (binary_normalize prec emax z 0 false).

(** [a / b] on two [int]s: the correctly rounded quotient, as a [float];
    [ZeroDivisionError] when [b] is 0. *)
Definition true_quotient (a b : Z) : float :=
  SF2Prim (SFdiv prec emax (Z2SF a) (Z2SF b)).

Definition int_truediv (a b : Z) : res float :=
  if (b =? 0)%Z then Raise ZeroDivisionError
  else Ret (true_quotient a b).

(** [x / n] for a [float] and an [int]: the [int] is converted first. *)
Definition float_truediv_int (x : float) (n : Z) : res float :=
  if (n =? 0)%Z then Raise ZeroDivisionError
  else Ret (x / float_of_int n).

(** A value that is an [int] on one path and a [float] on another. *)
Inductive num : Type :=
| Int (z : Z)
| Float (f : float).

(** [sum] over a list of [int]s. *)
Definition sum_int (l : list Z) : Z := fold_left Z.add l 0%Z.

(** [len]. *)
Definition len {A} (l : list A) : Z := Z.of_nat (List.length l).

(** ** Strings *)

Local Open Scope char_scope.

Definition ascii_in (c : ascii) (l : list ascii) : bool :=
  existsb (Ascii.eqb c) l.

(** The line boundaries of [str.splitlines] below U+0100, apart from
    [\r\n], which is handled as a pair. *)
Definition is_linebreak (c : ascii) : bool :=
  ascii_in c ["010"; "011"; "012"; "013"; "028"; "029"; "030"; "133"].

(** The characters [str.split()] treats as white space, below U+0100. *)
Definition is_space (c : ascii) : bool :=
  ascii_in c [" "; "009"; "010"; "011"; "012"; "013";
              "028"; "029"; "030"; "031"; "133"; "160"].

Local Open Scope string_scope.

Definition snoc (s : string) (c : ascii) : string := s ++ String c "".

Definition is_empty (s : string) : bool :=
  match s with EmptyString => true | _ => false end.

Fixpoint splitlines_from (cur s : string) : list string :=
  match s with
  | EmptyString => if is_empty cur then [] else [cur]
  | String c rest =>
      if Ascii.eqb c "013" then
        match rest with
        | String "010" rest' => cur :: splitlines_from "" rest'
        | _ => cur :: splitlines_from "" rest
        end
      else if is_linebreak c then cur :: splitlines_from "" rest
      else splitlines_from (snoc cur c) rest
  end.

(** [s.splitlines()]. *)
Definition splitlines (s : string) : list string := splitlines_from "" s.

Fixpoint split_ws_from (cur s : string) : list string :=
  match s with
  | EmptyString => if is_empty cur then [] else [cur]
  | String c rest =>
      if is_space c then
        if is_empty cur then split_ws_from "" rest
        else cur :: split_ws_from "" rest
      else split_ws_from (snoc cur c) rest
  end.

(** [s.split()]: the maximal runs of characters that are not white space. *)
Definition split_ws (s : string) : list string := split_ws_from "" s.

Fixpoint split_on_from (sep : ascii) (cur s : string) : list string :=
  match s with
  | EmptyString => [cur]
  | String c rest =>
      if Ascii.eqb c sep then cur :: split_on_from sep "" rest
      else split_on_from sep (snoc cur c) rest
  end.

(** [s.split(sep)] for a separator of one character. *)
Definition split_on (sep : ascii) (s : string) : list string :=
  split_on_from sep "" s.

(** [needle in s]. *)
Fixpoint contains (needle s : string) : bool :=
  String.prefix needle s
  || match s with
     | EmptyString => false
     | String _ rest => contains needle rest
     end.

(** [l[-k]] for [k >= 1]: [IndexError] when the list has fewer than [k]
    elements. *)
Definition index_from_end {A} (l : list A) (k : nat) : res A :=
  if (List.length l <? k)%nat then Raise IndexError
  else match nth_error l (List.length l - k) with
       | Some a => Ret a
       | None => Raise IndexError
       end.

(** [l[0:3:2]]: the elements at positions 0 and 2 that exist. *)
Definition slice_0_3_2 {A} (l : list A) : list A :=
  match l with
  | a :: _ :: c :: _ => [a; c]
  | a :: _ => [a]
  | [] => []
  end.

(** ** Bounded deques *)

(** [collections.deque(maxlen=n)]: the items, oldest first, and the bound. *)
Record deque (A : Type) : Type := mkdeque {
  items : list A;
  maxlen : nat
}.
Arguments mkdeque {A} items maxlen.

(** [deque([], maxlen=n)]. *)
Definition deque_new {A} (n : nat) : deque A := mkdeque [] n.

(** [d.append(x)]: the item goes in on the right; a deque that then holds
    more than [maxlen] items drops its leftmost one. *)
Definition append {A} (d : deque A) (x : A) : deque A :=
  let l := (items d ++ [x])%list in
  mkdeque (if (maxlen d <? List.length l)%nat then tl l else l) (maxlen d).

End Py.

(** ** What the interpreter computes behind the code

    Four operations of the interpreter whose result on a given input depends
    on the platform or the Python version: [x ** y] on floats calls the C
    library's [pow]; [sum] over floats is a plain left-to-right sum up to
    Python 3.11 and a compensated one from 3.12 on; [float(s)] and [int(s)]
    parse text.  The monitor's code is modelled over any implementation of
    them; [None] from a parser is its [ValueError].  ([**] and [/] raise
    [OverflowError] on a result beyond the binary64 range; the squares and
    quotients of byte counts stay far below it, and the model has no such
    case.) *)
Class Builtins : Type := {
  float_pow : float -> float -> float;
  sum_float : list float -> float;
  float_of_str : string -> option float;
  int_of_str : string -> option Z
}.

(** [float(s)] and [int(s)] as expressions that may raise. *)
Definition py_float `{Builtins} (s : string) : res float :=
  match float_of_str s with
  | Some x => Ret x
  | None => Raise ValueError
  end.

Definition py_int `{Builtins} (s : string) : res Z :=
  match int_of_str s with
  | Some z => Ret z
  | None => Raise ValueError
  end.

(** ** What the monitor emits

    The monitor reports through Qt signals (v1.3 on) or the [logging] module
    (v1.0 to v1.2).  A message is the f-string of the source with the values
    it interpolates; the rendering of a number into text is left out. *)
Inductive message : Type :=
| Network_activity (total_bytes : Z)
| Anomaly_detected
| DNS_resolution_OK
| DNS_resolution_FAILED
| Latency_to (target_ip : string) (latency : float)
| Ping_failed (target_ip : string)
| Ping_timed_out (target_ip : string)
| Error_checking_latency (e : exn)
| Packet_loss_to (target_ip : string) (loss : Py.num)
| Packet_loss_test_failed (target_ip : string)
| Packet_loss_test_timed_out (target_ip : string)
| Error_checking_packet_loss (e : exn)
| HTTP_response_from (url : string) (status_code : Z)
| Error_checking_HTTP_response (e : exn)
| Download_speed (mbps : float)
| Upload_speed (mbps : float)
| Error_checking_internet_speed (e : exn)
| Connection_stability (stability : string)
| Error_getting_network_speed (e : exn)
| Internet_connectivity_OK
| Internet_connectivity_FAILED
| Monitoring_stopped_by_user
| Unexpected_error (e : exn).

Inductive event : Type :=
| update_signal (msg : message)
| speed_update_signal (bytes_sent bytes_recv : Z)
| graph_update_signal (bytes_sent bytes_recv : Z)
| logging_info (msg : message)
| logging_warning (msg : message)
| logging_error (msg : message)
| time_sleep (seconds : float).

(** ** The monad of a method body

    A method runs from the object's fields to a result (or a raised
    exception), the fields as it leaves them, and the events it produced, in
    order.  Fields written and events produced before an exception stay. *)
Definition M (S A : Type) : Type := S -> res A * S * list event.

Definition ret {S A} (a : A) : M S A := fun s => (Ret a, s, []).

Definition raise {S A} (e : exn) : M S A := fun s => (Raise e, s, []).

Definition bind {S A B} (c : M S A) (k : A -> M S B) : M S B :=
  fun s =>
    match c s with
    | (Ret a, s1, out1) =>
        match k a s1 with
        | (r, s2, out2) => (r, s2, out1 ++ out2)
        end
    | (Raise e, s1, out1) => (Raise e, s1, out1)
    end.

(** An expression that may raise, evaluated in a method. *)
Definition lift {S A} (r : res A) : M S A := fun s => (r, s, []).

(** Reading [self]. *)
Definition gets {S A} (f : S -> A) : M S A := fun s => (Ret (f s), s, []).

(** Writing to [self]. *)
Definition modify {S} (f : S -> S) : M S unit := fun s => (Ret tt, f s, []).

Definition emit {S} (ev : event) : M S unit := fun s => (Ret tt, s, [ev]).

(** [try: body  except ...:]: [clauses e] is the body of the first [except]
    clause that matches [e], if one does. *)
Definition try_except {S A} (body : M S A) (clauses : exn -> option (M S A))
  : M S A :=
  fun s =>
    match body s with
    | (Raise e, s1, out1) =>
        match clauses e with
        | Some handler =>
            match handler s1 with
            | (r, s2, out2) => (r, s2, out1 ++ out2)
            end
        | None => (Raise e, s1, out1)
        end
    | done => done
    end.

(** [except cls:], [except cls as e:] and [except Exception as e:]. *)
Definition except {S A} (cls : exn) (handler : M S A) (e : exn)
  : option (M S A) :=
  if exn_eqb e cls then Some handler else None.

Definition except_as {S A} (cls : exn) (handler : exn -> M S A) (e : exn)
  : option (M S A) :=
  if exn_eqb e cls then Some (handler e) else None.

Definition except_Exception {S A} (handler : exn -> M S A) (e : exn)
  : option (M S A) :=
  if is_Exception e then Some (handler e) else None.

(** Clauses in the order they are written. *)
Definition orelse {S A} (c1 c2 : exn -> option (M S A)) (e : exn)
  : option (M S A) :=
  match c1 e with
  | Some h => Some h
  | None => c2 e
  end.

Declare Scope py_scope.
Delimit Scope py_scope with py.
Notation "x <- c ;; k" := (bind c (fun x => k))
  (at level 61, c at next level, right associativity) : py_scope.
Notation "' pat <- c ;; k" :=
  (bind c (fun x => match x with pat => k end))
  (at level 61, pat pattern, c at next level, right associativity) : py_scope.
Notation "c ;; k" := (bind c (fun _ => k))
  (at level 61, right associativity) : py_scope.

(** The projections of a run. *)
Definition result_of {S A} (o : res A * S * list event) : res A := fst (fst o).
Definition state_of {S A} (o : res A * S * list event) : S := snd (fst o).
Definition events_of {S A} (o : res A * S * list event) : list event := snd o.

(** [res] as a monad of its own, for expressions. *)
Definition res_bind {A B} (r : res A) (k : A -> res B) : res B :=
  match r with
  | Ret a => k a
  | Raise e => Raise e
  end.

(** A list comprehension whose element expression may raise. *)
Fixpoint res_map {A B} (f : A -> res B) (l : list A) : res (list B) :=
  match l with
  | [] => Ret []
  | a :: rest =>
      res_bind (f a) (fun b =>
      res_bind (res_map f rest) (fun bs => Ret (b :: bs)))
  end.

(** [d[i]] for [i >= 0]. *)
Definition getitem {A} (l : list A) (i : nat) : res A :=
  match nth_error l i with
  | Some a => Ret a
  | None => Raise IndexError
  end.

(** ** The world outside the process

    What the operating system and the network answer during one tick of the
    loop.  Every call can raise. *)
Record snetio : Type := mksnetio {
  bytes_sent : Z;
  bytes_recv : Z
}.

Record CompletedProcess : Type := mkCompletedProcess {
  returncode : Z;
  stdout : string
}.

Record world : Type := mkworld {
  (* psutil.net_io_counters(), first and second call of a sample *)
  net_io_counters_1 : res snetio;
  net_io_counters_2 : res snetio;
  (* socket.gethostbyname(host) *)
  gethostbyname : string -> res string;
  (* subprocess.run(argv, capture_output=True, text=True, timeout=t) *)
  subprocess_run : list string -> Z -> res CompletedProcess;
  (* subprocess.check_call(argv, ...) *)
  subprocess_check_call : list string -> res unit;
  (* requests.get(url, timeout=t).status_code *)
  requests_get : string -> Z -> res Z;
  (* speedtest.Speedtest(), st.download(), st.upload() *)
  Speedtest : res unit;
  st_download : res float;
  st_upload : res float
}.

(** ** network_monitor_v1.5.py: [class NetworkMonitor(QThread)] *)

Module V1_5.

Local Open Scope py_scope.
Local Open Scope string_scope.

(** The fields [__init__] sets. *)
Record NetworkMonitor : Type := mkNetworkMonitor {
  target_ip : string;
  anomaly_threshold : float;
  check_interval : float;
  previous_bytes_sent : Z;
  previous_bytes_recv : Z;
  speed_history : Py.deque Z;
  connection_history : Py.deque float;
  running : bool
}.

Definition set_previous_bytes_sent (v : Z) (m : NetworkMonitor)
  : NetworkMonitor :=
  mkNetworkMonitor (target_ip m) (anomaly_threshold m) (check_interval m)
    v (previous_bytes_recv m) (speed_history m) (connection_history m)
    (running m).

Definition set_previous_bytes_recv (v : Z) (m : NetworkMonitor)
  : NetworkMonitor :=
  mkNetworkMonitor (target_ip m) (anomaly_threshold m) (check_interval m)
    (previous_bytes_sent m) v (speed_history m) (connection_history m)
    (running m).

Definition set_speed_history (v : Py.deque Z) (m : NetworkMonitor)
  : NetworkMonitor :=
  mkNetworkMonitor (target_ip m) (anomaly_threshold m) (check_interval m)
    (previous_bytes_sent m) (previous_bytes_recv m) v (connection_history m)
    (running m).

Definition set_connection_history (v : Py.deque float) (m : NetworkMonitor)
  : NetworkMonitor :=
  mkNetworkMonitor (target_ip m) (anomaly_threshold m) (check_interval m)
    (previous_bytes_sent m) (previous_bytes_recv m) (speed_history m) v
    (running m).

Definition set_running (v : bool) (m : NetworkMonitor) : NetworkMonitor :=
  mkNetworkMonitor (target_ip m) (anomaly_threshold m) (check_interval m)
    (previous_bytes_sent m) (previous_bytes_recv m) (speed_history m)
    (connection_history m) v.

(** The defaults of [__init__]'s keyword arguments. *)
Definition default_anomaly_threshold : float := 2%float.
Definition default_check_interval : float := 1%float.
Definition default_history_size : nat := 60.

(** [__init__(self, target_ip, anomaly_threshold=2, check_interval=1,
    history_size=60)]: two counter reads, two empty deques, [running] set. *)
Definition init (w : world) (ip : string) (threshold interval : float)
  (history_size : nat) : res NetworkMonitor :=
  res_bind (net_io_counters_1 w) (fun c1 =>
  res_bind (net_io_counters_2 w) (fun c2 =>
  Ret (mkNetworkMonitor ip threshold interval (bytes_sent c1) (bytes_recv c2)
         (Py.deque_new history_size) (Py.deque_new 10) true))).

(** [stop]. *)
Definition stop : M NetworkMonitor unit := modify (set_running false).

(** [get_network_speed]: no [try] around the counter reads in this version. *)
Definition get_network_speed (w : world) : M NetworkMonitor (Z * Z) :=
  c1 <- lift (net_io_counters_1 w) ;;
  let current_bytes_sent := bytes_sent c1 in
  c2 <- lift (net_io_counters_2 w) ;;
  let current_bytes_recv := bytes_recv c2 in
  prev_sent <- gets previous_bytes_sent ;;
  let sent := (current_bytes_sent - prev_sent)%Z in
  prev_recv <- gets previous_bytes_recv ;;
  let recv := (current_bytes_recv - prev_recv)%Z in
  modify (set_previous_bytes_sent current_bytes_sent) ;;
  modify (set_previous_bytes_recv current_bytes_recv) ;;
  ret (sent, recv).

(** [detect_anomalies(current_speed)]. *)
Definition detect_anomalies `{Builtins} (current_speed : Z)
  : M NetworkMonitor bool :=
  modify (fun m =>
            set_speed_history (Py.append (speed_history m) current_speed) m) ;;
  h <- gets (fun m => Py.items (speed_history m)) ;;
  if (Py.len h <? 10)%Z then ret false
  else
    mean <- lift (Py.int_truediv (Py.sum_int h) (Py.len h)) ;;
    variance <- lift (Py.float_truediv_int
                        (sum_float
                           (map (fun x =>
                                   float_pow (Py.float_of_int x - mean) 2)
                              h))
                        (Py.len h)) ;;
    let std_dev := float_pow variance 0.5 in
    threshold <- gets anomaly_threshold ;;
    ret (threshold * std_dev
         <? abs (Py.float_of_int current_speed - mean))%float.

(** [check_dns_resolution]: only [socket.gaierror] is caught. *)
Definition check_dns_resolution (w : world) : M NetworkMonitor unit :=
  try_except
    (_ <- lift (gethostbyname w "www.google.com") ;;
     emit (update_signal DNS_resolution_OK))
    (except gaierror (emit (update_signal DNS_resolution_FAILED))).

(** [check_latency]. *)
Definition check_latency `{Builtins} (w : world) : M NetworkMonitor unit :=
  ip <- gets target_ip ;;
  try_except
    (result <- lift (subprocess_run w ["ping"; "-c"; "4"; ip] 10) ;;
     if (returncode result =? 0)%Z then
       field <- lift (Py.index_from_end (Py.split_on "/" (stdout result)) 3) ;;
       latency <- lift (py_float field) ;;
       modify (fun m =>
                 set_connection_history
                   (Py.append (connection_history m) latency) m) ;;
       emit (update_signal (Latency_to ip latency))
     else
       emit (update_signal (Ping_failed ip)))
    (orelse
       (except TimeoutExpired (emit (update_signal (Ping_timed_out ip))))
       (except_Exception
          (fun e => emit (update_signal (Error_checking_latency e))))).

(** [sent, received = map(int, line.split()[0:3:2])]: the values are
    produced one by one as the unpacking asks for them. *)
Definition unpack_counts `{Builtins} (fields : list string) : res (Z * Z) :=
  match fields with
  | [] => Raise ValueError
  | a :: rest =>
      res_bind (py_int a) (fun sent =>
      match rest with
      | [] => Raise ValueError
      | b :: rest' =>
          res_bind (py_int b) (fun received =>
          match rest' with
          | [] => Ret (sent, received)
          | _ :: _ => Raise ValueError
          end)
      end)
  end.

(** The [for line in result.stdout.splitlines()] loop, from
    [sent = received = 0]: the first line that contains the marker sets both
    and ends the loop. *)
Fixpoint scan_lines `{Builtins} (lines : list string) : res (Z * Z) :=
  match lines with
  | [] => Ret (0, 0)%Z
  | line :: rest =>
      if Py.contains "packets transmitted" line then
        unpack_counts (Py.slice_0_3_2 (Py.split_ws line))
      else scan_lines rest
  end.

(** [loss = (sent - received) / sent * 100 if sent > 0 else 0]. *)
Definition packet_loss (sent received : Z) : res Py.num :=
  if (0 <? sent)%Z then
    res_bind (Py.int_truediv (sent - received) sent) (fun q =>
    Ret (Py.Float (q * Py.float_of_int 100)))
  else Ret (Py.Int 0).

(** [check_packet_loss]. *)
Definition check_packet_loss `{Builtins} (w : world) : M NetworkMonitor unit :=
  ip <- gets target_ip ;;
  try_except
    (result <- lift (subprocess_run w ["ping"; "-c"; "10"; ip] 15) ;;
     if (returncode result =? 0)%Z then
       ' (sent, received) <-
         lift (scan_lines (Py.splitlines (stdout result))) ;;
       loss <- lift (packet_loss sent received) ;;
       emit (update_signal (Packet_loss_to ip loss))
     else
       emit (update_signal (Packet_loss_test_failed ip)))
    (orelse
       (except TimeoutExpired
          (emit (update_signal (Packet_loss_test_timed_out ip))))
       (except_Exception
          (fun e => emit (update_signal (Error_checking_packet_loss e))))).

(** [check_http_response(url="http://www.google.com")]: only
    [requests.RequestException] is caught. *)
Definition check_http_response (w : world) : M NetworkMonitor unit :=
  let url := "http://www.google.com" in
  try_except
    (status_code <- lift (requests_get w url 5) ;;
     emit (update_signal (HTTP_response_from url status_code)))
    (except_as RequestException
       (fun e => emit (update_signal (Error_checking_HTTP_response e)))).

(** [check_internet_speed]: the pair of speeds, or [(None, None)]. *)
Definition check_internet_speed (w : world)
  : M NetworkMonitor (option float * option float) :=
  try_except
    (_ <- lift (Speedtest w) ;;
     down <- lift (st_download w) ;;
     download_speed <- lift (Py.float_truediv_int down 1000000) ;;
     up <- lift (st_upload w) ;;
     upload_speed <- lift (Py.float_truediv_int up 1000000) ;;
     emit (update_signal (Download_speed download_speed)) ;;
     emit (update_signal (Upload_speed upload_speed)) ;;
     ret (Some download_speed, Some upload_speed))
    (except_Exception
       (fun e =>
          emit (update_signal (Error_checking_internet_speed e)) ;;
          ret (None, None))).

(** [[abs(h[i] - h[i-1]) for i in range(1, len(h))]]. *)
Definition variations_of (h : list float) : res (list float) :=
  res_map
    (fun i =>
       res_bind (getitem h i) (fun a =>
       res_bind (getitem h (i - 1)) (fun b =>
       Ret (abs (a - b))%float)))
    (seq 1 (List.length h - 1)).

(** [analyze_connection_stability]. *)
Definition analyze_connection_stability `{Builtins} : M NetworkMonitor string :=
  h <- gets (fun m => Py.items (connection_history m)) ;;
  if (Py.len h <? 5)%Z then ret "Not enough data for stability analysis"
  else
    variations <- lift (variations_of h) ;;
    avg_variation <- lift (Py.float_truediv_int (sum_float variations)
                             (Py.len variations)) ;;
    if (avg_variation <? 5)%float then ret "Stable connection"
    else if (avg_variation <? 20)%float then ret "Moderate fluctuations"
    else ret "Unstable connection".

(** [troubleshoot]. *)
Definition troubleshoot `{Builtins} (w : world) : M NetworkMonitor unit :=
  check_dns_resolution w ;;
  check_latency w ;;
  check_packet_loss w ;;
  check_http_response w ;;
  _ <- check_internet_speed w ;;
  stability <- analyze_connection_stability ;;
  emit (update_signal (Connection_stability stability)).

(** The body of [run]'s loop, in the three stretches a [stop] from the
    controlling thread can fall between: the sample and its three signals,
    the detector with the troubleshooting it may start, and the sleep. *)
Definition run_sample (w : world) : M NetworkMonitor Z :=
  ' (sent, recv) <- get_network_speed w ;;
  let total_bytes := (sent + recv)%Z in
  emit (speed_update_signal sent recv) ;;
  emit (graph_update_signal sent recv) ;;
  emit (update_signal (Network_activity total_bytes)) ;;
  ret total_bytes.

Definition run_detect `{Builtins} (w : world) (total_bytes : Z)
  : M NetworkMonitor unit :=
  anomaly <- detect_anomalies total_bytes ;;
  if anomaly then
    emit (update_signal Anomaly_detected) ;;
    troubleshoot w
  else ret tt.

Definition run_sleep : M NetworkMonitor unit :=
  interval <- gets check_interval ;;
  emit (time_sleep interval).

Definition run_body `{Builtins} (w : world) : M NetworkMonitor unit :=
  total_bytes <- run_sample w ;;
  run_detect w total_bytes ;;
  run_sleep.

(** [run]: [while self.running: ...], one world per iteration; the list
    bounds how many iterations are observed. *)
Fixpoint run `{Builtins} (ws : list world) : M NetworkMonitor unit :=
  match ws with
  | [] => ret tt
  | w :: rest =>
      go_on <- gets running ;;
      if go_on then run_body w ;; run rest else ret tt
  end.

(** *** The thread of [run] beside its controller

    [run] executes on the monitor's own thread while the window's thread
    may call [stop] at any moment.  The thread is at one of the points
    below; [controller_stops] is the other thread's [stop()]. *)
Inductive pc : Type :=
| at_while                      (* about to test [self.running] *)
| at_sample                     (* about to sample and emit *)
| at_detect (total_bytes : Z)   (* about to call [detect_anomalies] *)
| at_sleep                      (* about to [time.sleep] *)
| returned                      (* [run] has returned *)
| died (e : exn).               (* an exception left [run] *)

Record thread : Type := mkthread {
  self : NetworkMonitor;
  at_pc : pc
}.

Definition advance {A} (o : res A * NetworkMonitor * list event)
  (next : A -> pc)
  : thread * list event :=
  match o with
  | (Ret a, m, out) => (mkthread m (next a), out)
  | (Raise e, m, out) => (mkthread m (died e), out)
  end.

Definition thread_step `{Builtins} (w : world) (t : thread)
  : thread * list event :=
  match at_pc t with
  | at_while =>
      if running (self t) then (mkthread (self t) at_sample, [])
      else (mkthread (self t) returned, [])
  | at_sample => advance (run_sample w (self t)) at_detect
  | at_detect total_bytes =>
      advance (run_detect w total_bytes (self t)) (fun _ => at_sleep)
  | at_sleep => advance (run_sleep (self t)) (fun _ => at_while)
  | returned => (t, [])
  | died _ => (t, [])
  end.

Inductive action : Type :=
| thread_runs (w : world)
| controller_stops.

Definition step `{Builtins} (a : action) (t : thread) : thread * list event :=
  match a with
  | thread_runs w => thread_step w t
  | controller_stops =>
      (mkthread (state_of (stop (self t))) (at_pc t),
       events_of (stop (self t)))
  end.

(** A schedule, run from a thread state: where it ends and what was
    emitted on the way. *)
Fixpoint exec `{Builtins} (sched : list action) (t : thread)
  : thread * list event :=
  match sched with
  | [] => (t, [])
  | a :: rest =>
      let (t1, out1) := step a t in
      let (t2, out2) := exec rest t1 in
      (t2, (out1 ++ out2)%list)
  end.

(** [QThread.start()] on a monitor: [run] begins at its loop test. *)
Definition start (m : NetworkMonitor) : thread := mkthread m at_while.

End V1_5.

(** ** network_monitor_v1.0.py: [class NetworkMonitor]

    The first version: the sampler guards its counter reads, the loop is
    [monitor], and everything is reported through [logging]. *)

Module V1_0.

Local Open Scope py_scope.
Local Open Scope string_scope.

Record NetworkMonitor : Type := mkNetworkMonitor {
  previous_bytes_sent : Z;
  previous_bytes_recv : Z;
  speed_history : Py.deque Z;
  anomaly_threshold : Z
}.

Definition set_previous_bytes_sent (v : Z) (m : NetworkMonitor)
  : NetworkMonitor :=
  mkNetworkMonitor v (previous_bytes_recv m) (speed_history m)
    (anomaly_threshold m).

Definition set_previous_bytes_recv (v : Z) (m : NetworkMonitor)
  : NetworkMonitor :=
  mkNetworkMonitor (previous_bytes_sent m) v (speed_history m)
    (anomaly_threshold m).

Definition set_speed_history (v : Py.deque Z) (m : NetworkMonitor)
  : NetworkMonitor :=
  mkNetworkMonitor (previous_bytes_sent m) (previous_bytes_recv m) v
    (anomaly_threshold m).

(** [__init__]: [deque(maxlen=60)] and a threshold of [2]. *)
Definition init (w : world) : res NetworkMonitor :=
  res_bind (net_io_counters_1 w) (fun c1 =>
  res_bind (net_io_counters_2 w) (fun c2 =>
  Ret (mkNetworkMonitor (bytes_sent c1) (bytes_recv c2) (Py.deque_new 60) 2))).

(** [get_network_speed]: the whole body is in a [try]; on any [Exception]
    the error is logged and [(0, 0)] returned. *)
Definition get_network_speed (w : world) : M NetworkMonitor (Z * Z) :=
  try_except
    (c1 <- lift (net_io_counters_1 w) ;;
     let current_bytes_sent := bytes_sent c1 in
     c2 <- lift (net_io_counters_2 w) ;;
     let current_bytes_recv := bytes_recv c2 in
     prev_sent <- gets previous_bytes_sent ;;
     let sent := (current_bytes_sent - prev_sent)%Z in
     prev_recv <- gets previous_bytes_recv ;;
     let recv := (current_bytes_recv - prev_recv)%Z in
     modify (set_previous_bytes_sent current_bytes_sent) ;;
     modify (set_previous_bytes_recv current_bytes_recv) ;;
     ret (sent, recv))
    (except_Exception
       (fun e =>
          emit (logging_error (Error_getting_network_speed e)) ;;
          ret (0, 0)%Z)).

(** [detect_anomalies(current_speed)]: as in every later version, with the
    [int] threshold converted for the product. *)
Definition detect_anomalies `{Builtins} (current_speed : Z)
  : M NetworkMonitor bool :=
  modify (fun m =>
            set_speed_history (Py.append (speed_history m) current_speed) m) ;;
  h <- gets (fun m => Py.items (speed_history m)) ;;
  if (Py.len h <? 10)%Z then ret false
  else
    mean <- lift (Py.int_truediv (Py.sum_int h) (Py.len h)) ;;
    variance <- lift (Py.float_truediv_int
                        (sum_float
                           (map (fun x =>
                                   float_pow (Py.float_of_int x - mean) 2)
                              h))
                        (Py.len h)) ;;
    let std_dev := float_pow variance 0.5 in
    threshold <- gets anomaly_threshold ;;
    ret (Py.float_of_int threshold * std_dev
         <? abs (Py.float_of_int current_speed - mean))%float.

(** [troubleshoot]: a DNS lookup and one ping, each in its own [try]. *)
Definition troubleshoot (w : world) : M NetworkMonitor unit :=
  try_except
    (_ <- lift (gethostbyname w "www.google.com") ;;
     emit (logging_info DNS_resolution_OK))
    (except gaierror (emit (logging_warning DNS_resolution_FAILED))) ;;
  try_except
    (lift (subprocess_check_call w ["ping"; "-c"; "1"; "8.8.8.8"]) ;;
     emit (logging_info Internet_connectivity_OK))
    (except CalledProcessError
       (emit (logging_warning Internet_connectivity_FAILED))).

(** One iteration of [monitor]'s [while True]. *)
Definition monitor_body `{Builtins} (w : world) : M NetworkMonitor unit :=
  ' (sent, recv) <- get_network_speed w ;;
  let total_bytes := (sent + recv)%Z in
  emit (logging_info (Network_activity total_bytes)) ;;
  anomaly <- detect_anomalies total_bytes ;;
  (if anomaly then
     emit (logging_warning Anomaly_detected) ;;
     troubleshoot w
   else ret tt) ;;
  emit (time_sleep 1).

Fixpoint monitor_loop `{Builtins} (ws : list world) : M NetworkMonitor unit :=
  match ws with
  | [] => ret tt
  | w :: rest => monitor_body w ;; monitor_loop rest
  end.

(** [monitor]: the loop inside its [try]; one world per iteration, the list
    bounding how many are observed. *)
Definition monitor `{Builtins} (ws : list world) : M NetworkMonitor unit :=
  try_except (monitor_loop ws)
    (orelse
       (except KeyboardInterrupt
          (emit (logging_info Monitoring_stopped_by_user)))
       (except_Exception
          (fun e => emit (logging_error (Unexpected_error e))))).

End V1_0.

(** ** network_monitor_v1.2.py: [NetworkMonitor.check_packet_loss]

    The same lines as in v1.5, reporting through [logging] and returning
    the loss, or [None]. *)

Module V1_2.

Local Open Scope py_scope.
Local Open Scope string_scope.

Definition check_packet_loss `{Builtins} {S : Type} (target_ip : S -> string)
  (w : world) : M S (option Py.num) :=
  ip <- gets target_ip ;;
  try_except
    (result <- lift (subprocess_run w ["ping"; "-c"; "10"; ip] 15) ;;
     if (returncode result =? 0)%Z then
       ' (sent, received) <-
         lift (V1_5.scan_lines (Py.splitlines (stdout result))) ;;
       loss <- lift (V1_5.packet_loss sent received) ;;
       emit (logging_info (Packet_loss_to ip loss)) ;;
       ret (Some loss)
     else
       emit (logging_warning (Packet_loss_test_failed ip)) ;;
       ret None)
    (orelse
       (except TimeoutExpired
          (emit (logging_warning (Packet_loss_test_timed_out ip)) ;;
           ret None))
       (except_Exception
          (fun e =>
             emit (logging_error (Error_checking_packet_loss e)) ;;
             ret None))).

End V1_2.

(** ** network_monitor_v1.2.py: the rest of [class NetworkMonitor]

    The command-line version with all five probes: every method reports
    through [logging] and returns its measurement, or [None]. *)

Module V1_2_class.

Local Open Scope py_scope.
Local Open Scope string_scope.

Record NetworkMonitor : Type := mkNetworkMonitor {
  previous_bytes_sent : Z;
  previous_bytes_recv : Z;
  speed_history : Py.deque Z;
  anomaly_threshold : Z;
  target_ip : string;
  connection_history : Py.deque float
}.

Definition set_previous_bytes_sent (v : Z) (m : NetworkMonitor)
  : NetworkMonitor :=
  mkNetworkMonitor v (previous_bytes_recv m) (speed_history m)
    (anomaly_threshold m) (target_ip m) (connection_history m).

Definition set_previous_bytes_recv (v : Z) (m : NetworkMonitor)
  : NetworkMonitor :=
  mkNetworkMonitor (previous_bytes_sent m) v (speed_history m)
    (anomaly_threshold m) (target_ip m) (connection_history m).

Definition set_speed_history (v : Py.deque Z) (m : NetworkMonitor)
  : NetworkMonitor :=
  mkNetworkMonitor (previous_bytes_sent m) (previous_bytes_recv m) v
    (anomaly_threshold m) (target_ip m) (connection_history m).

Definition set_connection_history (v : Py.deque float) (m : NetworkMonitor)
  : NetworkMonitor :=
  mkNetworkMonitor (previous_bytes_sent m) (previous_bytes_recv m)
    (speed_history m) (anomaly_threshold m) (target_ip m) v.

(** [__init__(self, target_ip)]. *)
Definition init (w : world) (ip : string) : res NetworkMonitor :=
  res_bind (net_io_counters_1 w) (fun c1 =>
  res_bind (net_io_counters_2 w) (fun c2 =>
  Ret (mkNetworkMonitor (bytes_sent c1) (bytes_recv c2) (Py.deque_new 60) 2
         ip (Py.deque_new 10)))).

(** [get_network_speed]: as in v1.0. *)
Definition get_network_speed (w : world) : M NetworkMonitor (Z * Z) :=
  try_except
    (c1 <- lift (net_io_counters_1 w) ;;
     let current_bytes_sent := bytes_sent c1 in
     c2 <- lift (net_io_counters_2 w) ;;
     let current_bytes_recv := bytes_recv c2 in
     prev_sent <- gets previous_bytes_sent ;;
     let sent := (current_bytes_sent - prev_sent)%Z in
     prev_recv <- gets previous_bytes_recv ;;
     let recv := (current_bytes_recv - prev_recv)%Z in
     modify (set_previous_bytes_sent current_bytes_sent) ;;
     modify (set_previous_bytes_recv current_bytes_recv) ;;
     ret (sent, recv))
    (except_Exception
       (fun e =>
          emit (logging_error (Error_getting_network_speed e)) ;;
          ret (0, 0)%Z)).

(** [detect_anomalies(current_speed)]. *)
Definition detect_anomalies `{Builtins} (current_speed : Z)
  : M NetworkMonitor bool :=
  modify (fun m =>
            set_speed_history (Py.append (speed_history m) current_speed) m) ;;
  h <- gets (fun m => Py.items (speed_history m)) ;;
  if (Py.len h <? 10)%Z then ret false
  else
    mean <- lift (Py.int_truediv (Py.sum_int h) (Py.len h)) ;;
    variance <- lift (Py.float_truediv_int
                        (sum_float
                           (map (fun x =>
                                   float_pow (Py.float_of_int x - mean) 2)
                              h))
                        (Py.len h)) ;;
    let std_dev := float_pow variance 0.5 in
    threshold <- gets anomaly_threshold ;;
    ret (Py.float_of_int threshold * std_dev
         <? abs (Py.float_of_int current_speed - mean))%float.

(** [check_latency]: the latency, or [None]. *)
Definition check_latency `{Builtins} (w : world)
  : M NetworkMonitor (option float) :=
  ip <- gets target_ip ;;
  try_except
    (result <- lift (subprocess_run w ["ping"; "-c"; "4"; ip] 10) ;;
     if (returncode result =? 0)%Z then
       field <- lift (Py.index_from_end (Py.split_on "/" (stdout result)) 3) ;;
       latency <- lift (py_float field) ;;
       modify (fun m =>
                 set_connection_history
                   (Py.append (connection_history m) latency) m) ;;
       emit (logging_info (Latency_to ip latency)) ;;
       ret (Some latency)
     else
       emit (logging_warning (Ping_failed ip)) ;;
       ret None)
    (orelse
       (except TimeoutExpired
          (emit (logging_warning (Ping_timed_out ip)) ;; ret None))
       (except_Exception
          (fun e =>
             emit (logging_error (Error_checking_latency e)) ;; ret None))).

(** [analyze_connection_stability]. *)
Definition analyze_connection_stability `{Builtins}
  : M NetworkMonitor string :=
  h <- gets (fun m => Py.items (connection_history m)) ;;
  if (Py.len h <? 5)%Z then ret "Not enough data for stability analysis"
  else
    variations <- lift (V1_5.variations_of h) ;;
    avg_variation <- lift (Py.float_truediv_int (sum_float variations)
                             (Py.len variations)) ;;
    if (avg_variation <? 5)%float then ret "Stable connection"
    else if (avg_variation <? 20)%float then ret "Moderate fluctuations"
    else ret "Unstable connection".

(** [check_dns_resolution]: [True] or [False]. *)
Definition check_dns_resolution (w : world) : M NetworkMonitor bool :=
  try_except
    (_ <- lift (gethostbyname w "www.google.com") ;;
     emit (logging_info DNS_resolution_OK) ;;
     ret true)
    (except gaierror
       (emit (logging_warning DNS_resolution_FAILED) ;; ret false)).

(** [check_internet_speed]. *)
Definition check_internet_speed (w : world)
  : M NetworkMonitor (option float * option float) :=
  try_except
    (_ <- lift (Speedtest w) ;;
     down <- lift (st_download w) ;;
     download_speed <- lift (Py.float_truediv_int down 1000000) ;;
     up <- lift (st_upload w) ;;
     upload_speed <- lift (Py.float_truediv_int up 1000000) ;;
     emit (logging_info (Download_speed download_speed)) ;;
     emit (logging_info (Upload_speed upload_speed)) ;;
     ret (Some download_speed, Some upload_speed))
    (except_Exception
       (fun e =>
          emit (logging_error (Error_checking_internet_speed e)) ;;
          ret (None, None))).

(** [check_packet_loss]. *)
Definition check_packet_loss `{Builtins} (w : world)
  : M NetworkMonitor (option Py.num) :=
  V1_2.check_packet_loss target_ip w.

(** [check_http_response(url="http://www.google.com")]: the status code,
    or [None]. *)
Definition check_http_response (w : world) : M NetworkMonitor (option Z) :=
  let url := "http://www.google.com" in
  try_except
    (status_code <- lift (requests_get w url 5) ;;
     emit (logging_info (HTTP_response_from url status_code)) ;;
     ret (Some status_code))
    (except_as RequestException
       (fun e =>
          emit (logging_error (Error_checking_HTTP_response e)) ;;
          ret None)).

(** [troubleshoot]. *)
Definition troubleshoot `{Builtins} (w : world) : M NetworkMonitor unit :=
  _ <- check_dns_resolution w ;;
  _ <- check_latency w ;;
  _ <- check_packet_loss w ;;
  _ <- check_http_response w ;;
  _ <- check_internet_speed w ;;
  stability <- analyze_connection_stability ;;
  emit (logging_info (Connection_stability stability)).

(** One iteration of [monitor]'s [while True]. *)
Definition monitor_body `{Builtins} (w : world) : M NetworkMonitor unit :=
  ' (sent, recv) <- get_network_speed w ;;
  let total_bytes := (sent + recv)%Z in
  emit (logging_info (Network_activity total_bytes)) ;;
  anomaly <- detect_anomalies total_bytes ;;
  (if anomaly then
     emit (logging_warning Anomaly_detected) ;;
     troubleshoot w
   else ret tt) ;;
  emit (time_sleep 1).

Fixpoint monitor_loop `{Builtins} (ws : list world) : M NetworkMonitor unit :=
  match ws with
  | [] => ret tt
  | w :: rest => monitor_body w ;; monitor_loop rest
  end.

(** [monitor]. *)
Definition monitor `{Builtins} (ws : list world) : M NetworkMonitor unit :=
  try_except (monitor_loop ws)
    (orelse
       (except KeyboardInterrupt
          (emit (logging_info Monitoring_stopped_by_user)))
       (except_Exception
          (fun e => emit (logging_error (Unexpected_error e))))).

End V1_2_class.

(** ** network_monitor_v1.5.py: [class MainWindow(QMainWindow)]

    The window's widgets are modelled by what the code reads and writes of
    them: the text or value of an input, whether a widget is enabled, the
    value last passed to a progress bar's [setValue], the lines appended
    to the log display, the data last passed to a curve's [setData].
    Layout and titles are left out. *)

Module V1_5_gui.

Local Open Scope py_scope.
Local Open Scope string_scope.

Record QLineEdit : Type := mkQLineEdit {
  text : string;
  line_enabled : bool
}.

Record QDoubleSpinBox : Type := mkQDoubleSpinBox {
  double_value : float;
  double_enabled : bool
}.

Record QSpinBox : Type := mkQSpinBox {
  value : nat;
  spin_enabled : bool
}.

Record QPushButton : Type := mkQPushButton {
  button_enabled : bool
}.

(** The argument of the last [setValue], if there was one. *)
Record QProgressBar : Type := mkQProgressBar {
  bar_value : option Z
}.

(** A line of the log display: a message of the monitor, or the window's
    own request for a target. *)
Inductive log_line : Type :=
| monitor_message (msg : message)
| Please_enter_a_target_IP_address.

Record MainWindow : Type := mkMainWindow {
  ip_input : QLineEdit;
  anomaly_threshold_input : QDoubleSpinBox;
  check_interval_input : QDoubleSpinBox;
  history_size_input : QSpinBox;
  start_button : QPushButton;
  stop_button : QPushButton;
  upload_bar : QProgressBar;
  download_bar : QProgressBar;
  log_display : list log_line;
  upload_curve : list float * list Z;
  download_curve : list float * list Z;
  times : list float;
  upload_speeds : list Z;
  download_speeds : list Z;
  start_time : float;
  monitor_thread : option V1_5.thread
}.

Definition set_ip_input (v : QLineEdit) (win : MainWindow)
  : MainWindow :=
  mkMainWindow v (anomaly_threshold_input win) (check_interval_input win)
    (history_size_input win) (start_button win) (stop_button win)
    (upload_bar win) (download_bar win) (log_display win) (upload_curve win)
    (download_curve win) (times win) (upload_speeds win) (download_speeds
    win) (start_time win) (monitor_thread win).

Definition set_anomaly_threshold_input (v : QDoubleSpinBox) (win : MainWindow)
  : MainWindow :=
  mkMainWindow (ip_input win) v (check_interval_input win)
    (history_size_input win) (start_button win) (stop_button win)
    (upload_bar win) (download_bar win) (log_display win) (upload_curve win)
    (download_curve win) (times win) (upload_speeds win) (download_speeds
    win) (start_time win) (monitor_thread win).

Definition set_check_interval_input (v : QDoubleSpinBox) (win : MainWindow)
  : MainWindow :=
  mkMainWindow (ip_input win) (anomaly_threshold_input win) v
    (history_size_input win) (start_button win) (stop_button win)
    (upload_bar win) (download_bar win) (log_display win) (upload_curve win)
    (download_curve win) (times win) (upload_speeds win) (download_speeds
    win) (start_time win) (monitor_thread win).

Definition set_history_size_input (v : QSpinBox) (win : MainWindow)
  : MainWindow :=
  mkMainWindow (ip_input win) (anomaly_threshold_input win)
    (check_interval_input win) v (start_button win) (stop_button win)
    (upload_bar win) (download_bar win) (log_display win) (upload_curve win)
    (download_curve win) (times win) (upload_speeds win) (download_speeds
    win) (start_time win) (monitor_thread win).

Definition set_start_button (v : QPushButton) (win : MainWindow)
  : MainWindow :=
  mkMainWindow (ip_input win) (anomaly_threshold_input win)
    (check_interval_input win) (history_size_input win) v (stop_button win)
    (upload_bar win) (download_bar win) (log_display win) (upload_curve win)
    (download_curve win) (times win) (upload_speeds win) (download_speeds
    win) (start_time win) (monitor_thread win).

Definition set_stop_button (v : QPushButton) (win : MainWindow)
  : MainWindow :=
  mkMainWindow (ip_input win) (anomaly_threshold_input win)
    (check_interval_input win) (history_size_input win) (start_button win) v
    (upload_bar win) (download_bar win) (log_display win) (upload_curve win)
    (download_curve win) (times win) (upload_speeds win) (download_speeds
    win) (start_time win) (monitor_thread win).

Definition set_upload_bar (v : QProgressBar) (win : MainWindow)
  : MainWindow :=
  mkMainWindow (ip_input win) (anomaly_threshold_input win)
    (check_interval_input win) (history_size_input win) (start_button win)
    (stop_button win) v (download_bar win) (log_display win) (upload_curve
    win) (download_curve win) (times win) (upload_speeds win)
    (download_speeds win) (start_time win) (monitor_thread win).

Definition set_download_bar (v : QProgressBar) (win : MainWindow)
  : MainWindow :=
  mkMainWindow (ip_input win) (anomaly_threshold_input win)
    (check_interval_input win) (history_size_input win) (start_button win)
    (stop_button win) (upload_bar win) v (log_display win) (upload_curve
    win) (download_curve win) (times win) (upload_speeds win)
    (download_speeds win) (start_time win) (monitor_thread win).

Definition set_log_display (v : list log_line) (win : MainWindow)
  : MainWindow :=
  mkMainWindow (ip_input win) (anomaly_threshold_input win)
    (check_interval_input win) (history_size_input win) (start_button win)
    (stop_button win) (upload_bar win) (download_bar win) v (upload_curve
    win) (download_curve win) (times win) (upload_speeds win)
    (download_speeds win) (start_time win) (monitor_thread win).

Definition set_upload_curve (v : list float * list Z) (win : MainWindow)
  : MainWindow :=
  mkMainWindow (ip_input win) (anomaly_threshold_input win)
    (check_interval_input win) (history_size_input win) (start_button win)
    (stop_button win) (upload_bar win) (download_bar win) (log_display win)
    v (download_curve win) (times win) (upload_speeds win) (download_speeds
    win) (start_time win) (monitor_thread win).

Definition set_download_curve (v : list float * list Z) (win : MainWindow)
  : MainWindow :=
  mkMainWindow (ip_input win) (anomaly_threshold_input win)
    (check_interval_input win) (history_size_input win) (start_button win)
    (stop_button win) (upload_bar win) (download_bar win) (log_display win)
    (upload_curve win) v (times win) (upload_speeds win) (download_speeds
    win) (start_time win) (monitor_thread win).

Definition set_times (v : list float) (win : MainWindow)
  : MainWindow :=
  mkMainWindow (ip_input win) (anomaly_threshold_input win)
    (check_interval_input win) (history_size_input win) (start_button win)
    (stop_button win) (upload_bar win) (download_bar win) (log_display win)
    (upload_curve win) (download_curve win) v (upload_speeds win)
    (download_speeds win) (start_time win) (monitor_thread win).

Definition set_upload_speeds (v : list Z) (win : MainWindow)
  : MainWindow :=
  mkMainWindow (ip_input win) (anomaly_threshold_input win)
    (check_interval_input win) (history_size_input win) (start_button win)
    (stop_button win) (upload_bar win) (download_bar win) (log_display win)
    (upload_curve win) (download_curve win) (times win) v (download_speeds
    win) (start_time win) (monitor_thread win).

Definition set_download_speeds (v : list Z) (win : MainWindow)
  : MainWindow :=
  mkMainWindow (ip_input win) (anomaly_threshold_input win)
    (check_interval_input win) (history_size_input win) (start_button win)
    (stop_button win) (upload_bar win) (download_bar win) (log_display win)
    (upload_curve win) (download_curve win) (times win) (upload_speeds win)
    v (start_time win) (monitor_thread win).

Definition set_start_time (v : float) (win : MainWindow)
  : MainWindow :=
  mkMainWindow (ip_input win) (anomaly_threshold_input win)
    (check_interval_input win) (history_size_input win) (start_button win)
    (stop_button win) (upload_bar win) (download_bar win) (log_display win)
    (upload_curve win) (download_curve win) (times win) (upload_speeds win)
    (download_speeds win) v (monitor_thread win).

Definition set_monitor_thread (v : option V1_5.thread) (win : MainWindow)
  : MainWindow :=
  mkMainWindow (ip_input win) (anomaly_threshold_input win)
    (check_interval_input win) (history_size_input win) (start_button win)
    (stop_button win) (upload_bar win) (download_bar win) (log_display win)
    (upload_curve win) (download_curve win) (times win) (upload_speeds win)
    (download_speeds win) (start_time win) v.

(** [w.setEnabled(b)] on each kind of widget. *)
Definition line_setEnabled (b : bool) (e : QLineEdit) : QLineEdit :=
  mkQLineEdit (text e) b.

Definition double_setEnabled (b : bool) (e : QDoubleSpinBox)
  : QDoubleSpinBox :=
  mkQDoubleSpinBox (double_value e) b.

Definition spin_setEnabled (b : bool) (e : QSpinBox) : QSpinBox :=
  mkQSpinBox (value e) b.

(** [__init__]: an empty target, the spin boxes at 2, 1 and 60, the start
    button enabled and the stop button disabled, no data and no thread;
    [now] is what [time.time()] answers. *)
Definition init (now : float) : MainWindow :=
  mkMainWindow
    (mkQLineEdit "" true)
    (mkQDoubleSpinBox 2 true)
    (mkQDoubleSpinBox 1 true)
    (mkQSpinBox 60 true)
    (mkQPushButton true)
    (mkQPushButton false)
    (mkQProgressBar None)
    (mkQProgressBar None)
    []
    ([], [])
    ([], [])
    [] [] []
    now
    None.

(** [l[-n:]]: the last [n] elements, and for [n = 0] the whole list, since
    [-0] is [0]. *)
Definition slice_from_minus {A} (n : nat) (l : list A) : list A :=
  match n with
  | O => l
  | S _ => skipn (List.length l - n) l
  end.

(** [update_log(message)]. *)
Definition update_log (msg : message) : M MainWindow unit :=
  modify (fun win =>
            set_log_display (log_display win ++ [monitor_message msg])%list
              win).

(** [update_speed_bars(upload, download)]: each bar gets
    [min(x // 1024, 100)]. *)
Definition update_speed_bars (upload download : Z) : M MainWindow unit :=
  modify (set_upload_bar
            (mkQProgressBar (Some (Z.min (upload / 1024) 100)))) ;;
  modify (set_download_bar
            (mkQProgressBar (Some (Z.min (download / 1024) 100)))).

(** [update_graph(upload, download)]; [now] is what [time.time()]
    answers. *)
Definition update_graph (now : float) (upload download : Z)
  : M MainWindow unit :=
  start <- gets start_time ;;
  let current_time := (now - start)%float in
  modify (fun win => set_times (times win ++ [current_time])%list win) ;;
  modify (fun win =>
            set_upload_speeds (upload_speeds win ++ [upload])%list win) ;;
  modify (fun win =>
            set_download_speeds (download_speeds win ++ [download])%list
              win) ;;
  history_size <- gets (fun win => value (history_size_input win)) ;;
  len_times <- gets (fun win => List.length (times win)) ;;
  (if (history_size <? len_times)%nat then
     modify (fun win =>
               set_times (slice_from_minus history_size (times win)) win) ;;
     modify (fun win =>
               set_upload_speeds
                 (slice_from_minus history_size (upload_speeds win)) win) ;;
     modify (fun win =>
               set_download_speeds
                 (slice_from_minus history_size (download_speeds win)) win)
   else ret tt) ;;
  modify (fun win =>
            set_upload_curve (times win, upload_speeds win) win) ;;
  modify (fun win =>
            set_download_curve (times win, download_speeds win) win).

(** [start_monitoring]: nothing but a log line without a target;
    otherwise a new monitor from the inputs, started, the inputs and the
    start button disabled, the stop button enabled, the graph data
    reset. *)
Definition start_monitoring (w : world) (now : float) : M MainWindow unit :=
  target_ip <- gets (fun win => text (ip_input win)) ;;
  if Py.is_empty target_ip then
    modify (fun win =>
              set_log_display
                (log_display win ++ [Please_enter_a_target_IP_address])%list
                win)
  else
    anomaly_threshold <-
      gets (fun win => double_value (anomaly_threshold_input win)) ;;
    check_interval <-
      gets (fun win => double_value (check_interval_input win)) ;;
    history_size <- gets (fun win => value (history_size_input win)) ;;
    monitor <- lift (V1_5.init w target_ip anomaly_threshold check_interval
                       history_size) ;;
    modify (set_monitor_thread (Some (V1_5.start monitor))) ;;
    modify (set_start_button (mkQPushButton false)) ;;
    modify (set_stop_button (mkQPushButton true)) ;;
    modify (fun win =>
              set_ip_input (line_setEnabled false (ip_input win)) win) ;;
    modify (fun win =>
              set_anomaly_threshold_input
                (double_setEnabled false (anomaly_threshold_input win)) win) ;;
    modify (fun win =>
              set_check_interval_input
                (double_setEnabled false (check_interval_input win)) win) ;;
    modify (fun win =>
              set_history_size_input
                (spin_setEnabled false (history_size_input win)) win) ;;
    modify (set_times []) ;;
    modify (set_upload_speeds []) ;;
    modify (set_download_speeds []) ;;
    modify (set_start_time now).

(** [self.monitor_thread.stop()] followed by [self.monitor_thread.wait()]:
    the flag goes off and the thread runs on until [run] is over, in the
    worlds it meets; steps after that change nothing. *)
Definition stop_and_wait `{Builtins} (ws : list world) (t : V1_5.thread)
  : V1_5.thread * list event :=
  V1_5.exec (V1_5.controller_stops :: map V1_5.thread_runs ws) t.

(** [stop_monitoring]: the thread, if there is one, is stopped, waited
    for and let go; the start button and the inputs are enabled again,
    the stop button disabled.  The events are the signals the thread
    emitted while the window waited. *)
Definition stop_monitoring `{Builtins} (ws : list world)
  : M MainWindow unit :=
  thread <- gets monitor_thread ;;
  match thread with
  | Some t =>
      (fun win => (Ret tt, win, snd (stop_and_wait ws t))) ;;
      modify (set_monitor_thread None)
  | None => ret tt
  end ;;
  modify (set_start_button (mkQPushButton true)) ;;
  modify (set_stop_button (mkQPushButton false)) ;;
  modify (fun win => set_ip_input (line_setEnabled true (ip_input win)) win) ;;
  modify (fun win =>
            set_anomaly_threshold_input
              (double_setEnabled true (anomaly_threshold_input win)) win) ;;
  modify (fun win =>
            set_check_interval_input
              (double_setEnabled true (check_interval_input win)) win) ;;
  modify (fun win =>
            set_history_size_input
              (spin_setEnabled true (history_size_input win)) win).

(** *** The window in use

    What can happen to the window: a click on a button, which Qt passes
    on only while the button is enabled; an edit of an input, which Qt
    accepts only while the input is enabled, the history size being held
    in the range 10..300 the box was given (the ranges of the two
    floating-point boxes are not modelled: they may hold any value); a
    step of the monitor's thread, whose signals reach the slots they are
    connected to, in order; and the arrival of a signal that was queued
    earlier, as those the thread emits while the window waits for it in
    [stop_monitoring], whatever the signal and whenever it arrives.  The
    signals carry the deltas as they are; their conversion to the C
    [int] of the signal's signature is not modelled. *)
Inductive happening : Type :=
| click_start (w : world) (now : float)
| click_stop (w1 w2 w3 w4 : world)
| type_target (s : string)
| edit_anomaly_threshold (v : float)
| edit_check_interval (v : float)
| edit_history_size (n : nat)
| thread_turn (w : world) (now : float)
| signal_arrives (now : float) (ev : event).

(** The slot a signal is connected to. *)
Definition deliver (now : float) (ev : event) : M MainWindow unit :=
  match ev with
  | update_signal msg => update_log msg
  | speed_update_signal sent recv => update_speed_bars sent recv
  | graph_update_signal sent recv => update_graph now sent recv
  | _ => ret tt
  end.

Fixpoint deliver_all (now : float) (out : list event) : M MainWindow unit :=
  match out with
  | [] => ret tt
  | ev :: rest => deliver now ev ;; deliver_all now rest
  end.

Definition happen `{Builtins} (h : happening) : M MainWindow unit :=
  match h with
  | click_start w now =>
      enabled <- gets (fun win => button_enabled (start_button win)) ;;
      if enabled then start_monitoring w now else ret tt
  | click_stop w1 w2 w3 w4 =>
      enabled <- gets (fun win => button_enabled (stop_button win)) ;;
      if enabled then stop_monitoring [w1; w2; w3; w4] else ret tt
  | type_target s =>
      enabled <- gets (fun win => line_enabled (ip_input win)) ;;
      if enabled then modify (set_ip_input (mkQLineEdit s true))
      else ret tt
  | edit_anomaly_threshold v =>
      enabled <-
        gets (fun win => double_enabled (anomaly_threshold_input win)) ;;
      if enabled then
        modify (set_anomaly_threshold_input (mkQDoubleSpinBox v true))
      else ret tt
  | edit_check_interval v =>
      enabled <- gets (fun win => double_enabled (check_interval_input win)) ;;
      if enabled then
        modify (set_check_interval_input (mkQDoubleSpinBox v true))
      else ret tt
  | edit_history_size n =>
      enabled <- gets (fun win => spin_enabled (history_size_input win)) ;;
      if enabled then
        modify (set_history_size_input
                  (mkQSpinBox (Nat.max 10 (Nat.min 300 n)) true))
      else ret tt
  | thread_turn w now =>
      thread <- gets monitor_thread ;;
      match thread with
      | Some t =>
          modify (set_monitor_thread (Some (fst (V1_5.thread_step w t)))) ;;
          deliver_all now (snd (V1_5.thread_step w t))
      | None => ret tt
      end
  | signal_arrives now ev => deliver now ev
  end.

(** A session: one happening after the other, until one of them raises
    (a monitor that could not be built), which ends it. *)
Fixpoint session `{Builtins} (hs : list happening) : M MainWindow unit :=
  match hs with
  | [] => ret tt
  | h :: rest => happen h ;; session rest
  end.

End V1_5_gui.

(** ** A reference interpreter

    One implementation of [Builtins], used to run the model on concrete
    inputs: [pow] correctly rounded at the two exponents the monitor uses,
    the left-to-right [sum] of Python up to 3.11, and decimal parsers for
    plain literals (an optional sign, digits, and for [float] an optional
    fraction). *)

Module Reference.

Local Open Scope string_scope.

Definition correctly_rounded_pow (x y : float) : float :=
  if (y =? 2)%float then (x * x)%float
  else if (y =? 0.5)%float then sqrt x
  else nan.

Definition left_to_right_sum (l : list float) : float :=
  fold_left PrimFloat.add l 0%float.

Definition digit_of (c : ascii) : option Z :=
  let n := nat_of_ascii c in
  if ((48 <=? n) && (n <=? 57))%nat then Some (Z.of_nat (n - 48)) else None.

Fixpoint digits_from (acc : Z) (s : string) : option Z :=
  match s with
  | EmptyString => Some acc
  | String c rest =>
      match digit_of c with
      | Some d => digits_from (10 * acc + d) rest
      | None => None
      end
  end.

Definition digits (s : string) : option Z :=
  match s with
  | EmptyString => None
  | _ => digits_from 0 s
  end.

Definition signed (s : string) : bool * string :=
  match s with
  | String "-" rest => (true, rest)
  | String "+" rest => (false, rest)
  | _ => (false, s)
  end.

Definition decimal_int (s : string) : option Z :=
  let (neg, body) := signed s in
  option_map (fun z => if neg then (- z)%Z else z) (digits body).

Definition decimal_float (s : string) : option float :=
  let (neg, body) := signed s in
  let sign z := if neg then (- z)%Z else z in
  match Py.split_on "." body with
  | [whole] => option_map (fun z => Py.float_of_int (sign z)) (digits whole)
  | [whole; frac] =>
      option_map
        (fun z =>
           Py.true_quotient (sign z) (10 ^ Z.of_nat (String.length frac)))
        (digits (whole ++ frac))
  | _ => None
  end.

#[export] Instance builtins : Builtins := {
  float_pow := correctly_rounded_pow;
  sum_float := left_to_right_sum;
  float_of_str := decimal_float;
  int_of_str := decimal_int
}.

End Reference.

(** ** The specification's vocabulary *)

(** The last [n] elements of a list, in order. *)
Definition lastn {A} (n : nat) (l : list A) : list A :=
  skipn (List.length l - n) l.

(** The mean of a window of samples: their sum over their number. *)
Definition population_mean (window : list Z) : float :=
  Py.true_quotient (Py.sum_int window) (Py.len window).

(** The population standard deviation of a window: the square root of the
    mean squared deviation from the mean, over all [n] samples. *)
Definition population_std_dev `{Builtins} (window : list Z) : float :=
  float_pow
    (sum_float
       (map (fun x =>
               float_pow (Py.float_of_int x - population_mean window) 2)
          window)
     / Py.float_of_int (Py.len window))
    0.5.

(** The absolute differences of consecutive entries, oldest pair first. *)
Fixpoint consecutive_abs_diffs (l : list float) : list float :=
  match l with
  | a :: (b :: _) as rest => abs (b - a)%float :: consecutive_abs_diffs rest
  | _ => []
  end.

(** Their mean. *)
Definition mean_variation `{Builtins} (l : list float) : float :=
  (sum_float (consecutive_abs_diffs l)
   / Py.float_of_int (Py.len (consecutive_abs_diffs l)))%float.

(** The verdicts of the stability analyzer, as the strings it returns. *)
Definition InsufficientData : string :=
  "Not enough data for stability analysis".
Definition Stable : string := "Stable connection".
Definition Moderate : string := "Moderate fluctuations".
Definition Unstable : string := "Unstable connection".

(** ** Sequences of calls *)

(** A method called once per element of a list, in order, on the same
    object: the result of each call, the object after the last one, and
    everything emitted. *)
Fixpoint call_each {S A B} (method : A -> M S B) (args : list A) (s : S)
  : list (res B) * S * list event :=
  match args with
  | [] => ([], s, [])
  | a :: rest =>
      match method a s with
      | (r, s1, out1) =>
          match call_each method rest s1 with
          | (rs, s2, out2) => (r :: rs, s2, out1 ++ out2)
          end
      end
  end.

(** The latencies a run reported, in order. *)
Definition latencies_reported (out : list event) : list float :=
  flat_map (fun ev =>
              match ev with
              | update_signal (Latency_to _ latency) => [latency]
              | _ => []
              end) out.

(** A monitor as [__init__] leaves it. *)
Definition fresh_monitor (ip : string) (threshold interval : float)
  (history_size : nat) (sent recv : Z) : V1_5.NetworkMonitor :=
  V1_5.mkNetworkMonitor ip threshold interval sent recv
    (Py.deque_new history_size) (Py.deque_new 10) true.

(** ** Worlds for concrete runs *)

Module Scenario.

Local Open Scope string_scope.

Definition newline : string := String "010" "".

(** What [ping -c 4] prints on Linux for four replies averaging 20 ms. *)
Definition ping_output : string :=
  "PING 10.0.0.1 (10.0.0.1) 56(84) bytes of data." ++ newline
  ++ "64 bytes from 10.0.0.1: icmp_seq=1 ttl=64 time=19.1 ms" ++ newline
  ++ newline
  ++ "--- 10.0.0.1 ping statistics ---" ++ newline
  ++ "4 packets transmitted, 4 received, 0% packet loss, time 3004ms"
  ++ newline
  ++ "rtt min/avg/max/mdev = 19.1/20.0/21.5/0.9 ms" ++ newline.

(** Everything answers: the counters stand at 1000 and 2000 bytes, names
    resolve, [ping] succeeds, the web answers 200, the speed test measures
    100 and 20 Mbit/s. *)
Definition healthy : world :=
  mkworld (Ret (mksnetio 1000 2000)) (Ret (mksnetio 1000 2000))
    (fun _ => Ret "142.250.74.36")
    (fun _ _ => Ret (mkCompletedProcess 0 ping_output))
    (fun _ => Ret tt)
    (fun _ _ => Ret 200%Z)
    (Ret tt) (Ret 100000000%float) (Ret 20000000%float).

(** The resolver fails with a system error: [getaddrinfo] returns
    [EAI_SYSTEM], which [socket] raises as a plain [OSError]. *)
Definition dns_system_error : world :=
  mkworld (net_io_counters_1 healthy) (net_io_counters_2 healthy)
    (fun _ => Raise OSError)
    (subprocess_run healthy) (subprocess_check_call healthy)
    (requests_get healthy)
    (Speedtest healthy) (st_download healthy) (st_upload healthy).

(** The latency probe's [ping -c 4] succeeds; the packet-loss probe's
    [ping -c 10] runs into its timeout. *)
Definition packet_loss_times_out : world :=
  mkworld (net_io_counters_1 healthy) (net_io_counters_2 healthy)
    (gethostbyname healthy)
    (fun argv timeout =>
       if (timeout =? 15)%Z then Raise TimeoutExpired
       else subprocess_run healthy argv timeout)
    (subprocess_check_call healthy)
    (requests_get healthy)
    (Speedtest healthy) (st_download healthy) (st_upload healthy).

(** [ping] exits with status 0 and prints nothing. *)
Definition ping_prints_nothing : world :=
  mkworld (net_io_counters_1 healthy) (net_io_counters_2 healthy)
    (gethostbyname healthy)
    (fun _ _ => Ret (mkCompletedProcess 0 ""))
    (subprocess_check_call healthy)
    (requests_get healthy)
    (Speedtest healthy) (st_download healthy) (st_upload healthy).

(** The first counter read of the tick fails. *)
Definition counters_unreadable : world :=
  mkworld (Raise OSError) (net_io_counters_2 healthy)
    (gethostbyname healthy)
    (subprocess_run healthy) (subprocess_check_call healthy)
    (requests_get healthy)
    (Speedtest healthy) (st_download healthy) (st_upload healthy).

(** A monitor of 10.0.0.1 with the default settings, just constructed. *)
Definition monitor : V1_5.NetworkMonitor :=
  fresh_monitor "10.0.0.1" V1_5.default_anomaly_threshold
    V1_5.default_check_interval V1_5.default_history_size 1000 2000.

(** The same monitor after nine ticks of 100 bytes each. *)
Definition warm_monitor : V1_5.NetworkMonitor :=
  V1_5.set_speed_history (Py.mkdeque (repeat 100%Z 9) 60) monitor.

(** The same monitor with a given latency window. *)
Definition with_latencies (h : list float) : V1_5.NetworkMonitor :=
  V1_5.set_connection_history (Py.mkdeque h 10) monitor.


(** The v1.0 monitor, just constructed. *)
Definition monitor_v1_0 : V1_0.NetworkMonitor :=
  V1_0.mkNetworkMonitor 1000 2000 (Py.deque_new 60) 2.

(** The v1.2 monitor of 10.0.0.1, just constructed. *)
Definition monitor_v1_2 : V1_2_class.NetworkMonitor :=
  V1_2_class.mkNetworkMonitor 1000 2000 (Py.deque_new 60) 2 "10.0.0.1"
    (Py.deque_new 10).

(** The user presses Ctrl-C while the counters are read. *)
Definition user_interrupts : world :=
  mkworld (Raise KeyboardInterrupt) (net_io_counters_2 healthy)
    (gethostbyname healthy)
    (subprocess_run healthy) (subprocess_check_call healthy)
    (requests_get healthy)
    (Speedtest healthy) (st_download healthy) (st_upload healthy).

(** A [ping] whose summary has the two counts as its first and third
    field. *)
Definition ping_counts_first_and_third : world :=
  mkworld (net_io_counters_1 healthy) (net_io_counters_2 healthy)
    (gethostbyname healthy)
    (fun _ _ => Ret (mkCompletedProcess 0 "10 / 7 packets transmitted"))
    (subprocess_check_call healthy)
    (requests_get healthy)
    (Speedtest healthy) (st_download healthy) (st_upload healthy).

(** The speed test measures the download and fails on the upload. *)
Definition upload_fails : world :=
  mkworld (net_io_counters_1 healthy) (net_io_counters_2 healthy)
    (gethostbyname healthy)
    (subprocess_run healthy) (subprocess_check_call healthy)
    (requests_get healthy)
    (Speedtest healthy) (st_download healthy) (Raise SpeedtestException).

(** The v1.0 monitor after nine ticks of 100 bytes each. *)
Definition warm_monitor_v1_0 : V1_0.NetworkMonitor :=
  V1_0.mkNetworkMonitor 1000 2000 (Py.mkdeque (repeat 100%Z 9) 60) 2.

(** A tick in which 100000 bytes have moved and the resolver fails with a
    system error. *)
Definition spike_with_dns_system_error : world :=
  mkworld (Ret (mksnetio 51000 2000)) (Ret (mksnetio 51000 52000))
    (fun _ => Raise OSError)
    (subprocess_run healthy) (subprocess_check_call healthy)
    (requests_get healthy)
    (Speedtest healthy) (st_download healthy) (st_upload healthy).

(** The window after the target was typed, Start was clicked and the
    monitor's thread has passed its loop test. *)
Definition window_monitoring : V1_5_gui.MainWindow :=
  state_of
    (V1_5_gui.session (H := Reference.builtins)
       [V1_5_gui.type_target "10.0.0.1";
        V1_5_gui.click_start healthy 0;
        V1_5_gui.thread_turn healthy 1]
       (V1_5_gui.init 0)).

(** The thread that window holds. *)
Definition thread_monitoring : V1_5.thread :=
  match V1_5_gui.monitor_thread window_monitoring with
  | Some t => t
  | None => V1_5.start monitor
  end.





End Scenario.

(** ** Reading a run *)

(** The probe an event reports on, with [StabilityReport] for the verdict
    that closes a troubleshooting step. *)
Inductive probe_kind : Type :=
| DNS
| Latency
| PacketLoss
| HTTP
| Bandwidth
| StabilityReport.

Definition probe_of (ev : event) : option probe_kind :=
  match ev with
  | update_signal msg =>
      match msg with
      | DNS_resolution_OK | DNS_resolution_FAILED => Some DNS
      | Latency_to _ _ | Ping_failed _ | Ping_timed_out _
      | Error_checking_latency _ => Some Latency
      | Packet_loss_to _ _ | Packet_loss_test_failed _
      | Packet_loss_test_timed_out _ | Error_checking_packet_loss _ =>
          Some PacketLoss
      | HTTP_response_from _ _ | Error_checking_HTTP_response _ => Some HTTP
      | Download_speed _ | Upload_speed _
      | Error_checking_internet_speed _ => Some Bandwidth
      | Connection_stability _ => Some StabilityReport
      | _ => None
      end
  | _ => None
  end.

(** The per-tick throughput report, and the loop's sleep. *)
Definition is_activity (ev : event) : bool :=
  match ev with
  | update_signal (Network_activity _) => true
  | _ => false
  end.

Definition is_sleep (ev : event) : bool :=
  match ev with
  | time_sleep _ => true
  | _ => false
  end.

Definition activity_count (out : list event) : nat :=
  List.length (filter is_activity out).

(** Is there an activity event later than the end of a sleep? *)
Fixpoint activity_after_sleep (out : list event) : bool :=
  match out with
  | [] => false
  | ev :: rest =>
      if is_sleep ev then existsb is_activity rest
      else activity_after_sleep rest
  end.

(** Neither of the two. *)
Definition off_tick (ev : event) : bool :=
  negb (is_activity ev) && negb (is_sleep ev).

(** How many steps of its own a thread whose [running] flag is off can
    still take before [run] is over, and how many activity events it can
    still emit. *)
Definition steps_to_exit (p : V1_5.pc) : nat :=
  match p with
  | V1_5.at_sample => 4
  | V1_5.at_detect _ => 3
  | V1_5.at_sleep => 2
  | V1_5.at_while => 1
  | V1_5.returned => 0
  | V1_5.died _ => 0
  end.

Definition activity_budget (p : V1_5.pc) : nat :=
  match p with
  | V1_5.at_sample => 1
  | _ => 0
  end.

Definition is_over (p : V1_5.pc) : bool :=
  match p with
  | V1_5.returned => true
  | V1_5.died _ => true
  | _ => false
  end.

(** What no method of the monitor changes: the settings, the [running]
    flag (only [stop] writes it), the bounds of the two windows, and that a
    window within its bound stays within it. *)
Definition frame (m m' : V1_5.NetworkMonitor) : Prop :=
  V1_5.running m' = V1_5.running m
  /\ V1_5.target_ip m' = V1_5.target_ip m
  /\ V1_5.anomaly_threshold m' = V1_5.anomaly_threshold m
  /\ V1_5.check_interval m' = V1_5.check_interval m
  /\ Py.maxlen (V1_5.speed_history m') = Py.maxlen (V1_5.speed_history m)
  /\ Py.maxlen (V1_5.connection_history m')
     = Py.maxlen (V1_5.connection_history m)
  /\ (List.length (Py.items (V1_5.speed_history m))
      <= Py.maxlen (V1_5.speed_history m) ->
      List.length (Py.items (V1_5.speed_history m'))
      <= Py.maxlen (V1_5.speed_history m'))
  /\ (List.length (Py.items (V1_5.connection_history m))
      <= Py.maxlen (V1_5.connection_history m) ->
      List.length (Py.items (V1_5.connection_history m'))
      <= Py.maxlen (V1_5.connection_history m')).

(** Both windows within their bounds; and what a step of the machine
    keeps of the windows: the bounds, and being within them. *)
Definition within_capacity (m : V1_5.NetworkMonitor) : Prop :=
  List.length (Py.items (V1_5.speed_history m))
  <= Py.maxlen (V1_5.speed_history m)
  /\ List.length (Py.items (V1_5.connection_history m))
     <= Py.maxlen (V1_5.connection_history m).

Definition windows_kept (m m' : V1_5.NetworkMonitor) : Prop :=
  Py.maxlen (V1_5.speed_history m') = Py.maxlen (V1_5.speed_history m)
  /\ Py.maxlen (V1_5.connection_history m')
     = Py.maxlen (V1_5.connection_history m)
  /\ (within_capacity m -> within_capacity m').

(** A method body that keeps the frame and emits only events of a kind. *)
Definition respects {A} (P : event -> bool) (c : M V1_5.NetworkMonitor A)
  : Prop :=
  forall m,
    frame m (state_of (c m)) /\ forallb P (events_of (c m)) = true.

Definition clauses_respect {A} (P : event -> bool)
  (clauses : exn -> option (M V1_5.NetworkMonitor A)) : Prop :=
  forall e h, clauses e = Some h -> respects P h.

(** A world whose failures are those the probes of v1.5 are written for:
    the resolver fails with [gaierror], the HTTP client with
    [RequestException], and [ping] and the speed test with any
    [Exception]. *)
Definition anticipated (w : world) (ip : string) : Prop :=
  (forall e, gethostbyname w "www.google.com" = Raise e -> e = gaierror)
  /\ (forall e, subprocess_run w ["ping"; "-c"; "4"; ip]%string 10 = Raise e ->
                is_Exception e = true)
  /\ (forall e, subprocess_run w ["ping"; "-c"; "10"; ip]%string 15 = Raise e ->
                is_Exception e = true)
  /\ (forall e, requests_get w "http://www.google.com" 5 = Raise e ->
                e = RequestException)
  /\ (forall e, Speedtest w = Raise e -> is_Exception e = true)
  /\ (forall e, st_download w = Raise e -> is_Exception e = true)
  /\ (forall e, st_upload w = Raise e -> is_Exception e = true).

(** ** Reading a sequence of samples and a loop *)

(** What a sequence of sampler calls reported in all: the sums of the sent
    and of the received deltas; a call that raised reported nothing. *)
Definition deltas_total (results : list (res (Z * Z))) : Z * Z :=
  fold_right
    (fun r acc =>
       match r with
       | Ret (sent, recv) => (sent + fst acc, recv + snd acc)%Z
       | Raise _ => acc
       end)
    (0, 0)%Z results.

(** The steps the thread takes for one iteration of [run]'s loop in one
    world: the loop test, the sample, the detector, the sleep. *)
Definition tick_schedule (w : world) : list V1_5.action :=
  repeat (V1_5.thread_runs w) 4.

(** Where the thread stands once its schedule is used up, for a result of
    the loop of [run]. *)
Definition pc_after (r : res unit) : V1_5.pc :=
  match r with
  | Ret _ => V1_5.at_while
  | Raise e => V1_5.died e
  end.

(** The record that ends [monitor] of v1.0 when [e] leaves its loop. *)
Definition last_record (e : exn) : event :=
  match e with
  | KeyboardInterrupt => logging_info Monitoring_stopped_by_user
  | _ => logging_error (Unexpected_error e)
  end.

(** ** Comparing the versions *)

(** A log record read as the signal that carries the same message. *)
Definition as_signal (ev : event) : event :=
  match ev with
  | logging_info msg => update_signal msg
  | logging_warning msg => update_signal msg
  | logging_error msg => update_signal msg
  | _ => ev
  end.

(** A v1.2 monitor and a v1.5 monitor with the same target and the same
    latency window. *)
Definition probes_agree (m2 : V1_2_class.NetworkMonitor)
  (m5 : V1_5.NetworkMonitor) : Prop :=
  V1_2_class.target_ip m2 = V1_5.target_ip m5
  /\ V1_2_class.connection_history m2 = V1_5.connection_history m5.

(** Two results that are both values, related by [Rv], or the same
    exception. *)
Definition alike {A B} (Rv : A -> B -> Prop) (r2 : res A) (r5 : res B)
  : Prop :=
  match r2, r5 with
  | Ret a, Ret b => Rv a b
  | Raise e, Raise e' => e = e'
  | _, _ => False
  end.

(** A method of v1.2 and one of v1.5 that, from monitors that agree, end
    alike, in monitors that agree, the v1.5 one emitting as signals what
    the v1.2 one logs; the v1.2 one touches nothing but its latency
    window. *)
Definition ported {A B} (Rv : A -> B -> Prop)
  (c2 : M V1_2_class.NetworkMonitor A) (c5 : M V1_5.NetworkMonitor B)
  : Prop :=
  forall m2 m5,
    probes_agree m2 m5 ->
    alike Rv (result_of (c2 m2)) (result_of (c5 m5))
    /\ probes_agree (state_of (c2 m2)) (state_of (c5 m5))
    /\ map as_signal (events_of (c2 m2)) = events_of (c5 m5).

Definition any_value {A B} (a : A) (b : B) : Prop := True.

(** ** The specification's reading of a run without statistics *)










(** ** Reading v1.0's troubleshooting *)

(** What v1.0's [troubleshoot] records of its DNS lookup, when the lookup
    does not end it. *)
Definition dns_record (r : res string) : option event :=
  match r with
  | Ret _ => Some (logging_info DNS_resolution_OK)
  | Raise gaierror => Some (logging_warning DNS_resolution_FAILED)
  | Raise _ => None
  end.

(** What it records of its [ping], when the [ping] does not end it. *)
Definition connectivity_record (r : res unit) : option event :=
  match r with
  | Ret _ => Some (logging_info Internet_connectivity_OK)
  | Raise CalledProcessError =>
      Some (logging_warning Internet_connectivity_FAILED)
  | Raise _ => None
  end.

(** ** Reading the window *)

(** The buttons and the inputs go together: exactly one of the two
    buttons is enabled, the inputs are enabled with the start button, and
    the start button is enabled exactly when the window holds no monitor
    thread. *)
Definition controls_agree (win : V1_5_gui.MainWindow) : Prop :=
  let idle := V1_5_gui.button_enabled (V1_5_gui.start_button win) in
  V1_5_gui.button_enabled (V1_5_gui.stop_button win) = negb idle
  /\ V1_5_gui.line_enabled (V1_5_gui.ip_input win) = idle
  /\ V1_5_gui.double_enabled (V1_5_gui.anomaly_threshold_input win) = idle
  /\ V1_5_gui.double_enabled (V1_5_gui.check_interval_input win) = idle
  /\ V1_5_gui.spin_enabled (V1_5_gui.history_size_input win) = idle
  /\ (idle = true <-> V1_5_gui.monitor_thread win = None).

(** The monitor the window holds was built from what the inputs show, and
    its target is not empty. *)
Definition settings_shown (win : V1_5_gui.MainWindow) : Prop :=
  forall t,
    V1_5_gui.monitor_thread win = Some t ->
    V1_5.target_ip (V1_5.self t) = V1_5_gui.text (V1_5_gui.ip_input win)
    /\ V1_5.target_ip (V1_5.self t) <> EmptyString
    /\ V1_5.anomaly_threshold (V1_5.self t)
       = V1_5_gui.double_value (V1_5_gui.anomaly_threshold_input win)
    /\ V1_5.check_interval (V1_5.self t)
       = V1_5_gui.double_value (V1_5_gui.check_interval_input win)
    /\ Py.maxlen (V1_5.speed_history (V1_5.self t))
       = V1_5_gui.value (V1_5_gui.history_size_input win).

(** The three lists behind the graph have the same length, never more
    than 300, and while a monitor runs never more than the history size
    shown; the history size is within 10..300. *)
Definition graph_bounded (win : V1_5_gui.MainWindow) : Prop :=
  List.length (V1_5_gui.upload_speeds win)
  = List.length (V1_5_gui.times win)
  /\ List.length (V1_5_gui.download_speeds win)
     = List.length (V1_5_gui.times win)
  /\ List.length (V1_5_gui.times win) <= 300
  /\ 10 <= V1_5_gui.value (V1_5_gui.history_size_input win) <= 300
  /\ (V1_5_gui.monitor_thread win <> None ->
      List.length (V1_5_gui.times win)
      <= V1_5_gui.value (V1_5_gui.history_size_input win)).

(** A bar was never given more than 100. *)
Definition bar_capped (bar : V1_5_gui.QProgressBar) : Prop :=
  match V1_5_gui.bar_value bar with
  | Some v => (v <= 100)%Z
  | None => True
  end.

Definition consistent (win : V1_5_gui.MainWindow) : Prop :=
  controls_agree win
  /\ settings_shown win
  /\ graph_bounded win
  /\ bar_capped (V1_5_gui.upload_bar win)
  /\ bar_capped (V1_5_gui.download_bar win).

(** What a bar is given for a delta of [x] bytes: never more than 100;
    the whole kilobytes of [x] below 100 KiB; 100 from there on; a
    negative number for a negative delta. *)
Definition bar_shows (x v : Z) : Prop :=
  (v <= 100)%Z
  /\ (0 <= x < 102400 -> 1024 * v <= x < 1024 * (v + 1))%Z
  /\ (102400 <= x -> v = 100)%Z
  /\ (x < 0 -> v < 0)%Z.

(** The arguments of a sequence of [update_graph] calls: the time of the
    call, the upload and the download. *)
Definition graph_call (x : float * Z * Z) : M V1_5_gui.MainWindow unit :=
  V1_5_gui.update_graph (fst (fst x)) (snd (fst x)) (snd x).

(** * Properties *)

Unset Implicit Arguments.

Ltac run_monad :=
  unfold bind, ret, lift, gets, modify, emit, raise,
    result_of, state_of, events_of in *;
  cbn [fst snd] in *.

(** [__init__], when both counter reads succeed, gives [fresh_monitor]. *)
Lemma init_fresh_monitor (w : world) (ip : string) (threshold interval : float)
  (history_size : nat) (c1 c2 : snetio) :
  net_io_counters_1 w = Ret c1 -> net_io_counters_2 w = Ret c2 ->
  V1_5.init w ip threshold interval history_size
  = Ret (fresh_monitor ip threshold interval history_size
           (bytes_sent c1) (bytes_recv c2)).
Proof. intros E1 E2. unfold V1_5.init. now rewrite E1, E2. Qed.

(** ** Bounded deques *)

Lemma append_maxlen {A} (d : Py.deque A) (x : A) :
  Py.maxlen (Py.append d x) = Py.maxlen d.
Proof. reflexivity. Qed.

Lemma append_length_le {A} (d : Py.deque A) (x : A) :
  List.length (Py.items (Py.append d x)) <= S (List.length (Py.items d)).
Proof.
  unfold Py.append; cbn [Py.items].
  set (l := Py.items d ++ [x]).
  assert (Hl : List.length l = S (List.length (Py.items d))).
  { subst l. rewrite length_app. cbn. lia. }
  destruct (Py.maxlen d <? List.length l).
  - destruct l; cbn in *; lia.
  - lia.
Qed.

Lemma append_within_maxlen {A} (d : Py.deque A) (x : A) :
  List.length (Py.items d) <= Py.maxlen d ->
  List.length (Py.items (Py.append d x)) <= Py.maxlen d.
Proof.
  intros Hd. unfold Py.append; cbn [Py.items].
  set (l := Py.items d ++ [x]).
  assert (Hl : List.length l = S (List.length (Py.items d))).
  { subst l. rewrite length_app. cbn. lia. }
  destruct (Nat.ltb_spec (Py.maxlen d) (List.length l)) as [Hlt|Hge].
  - destruct l; cbn in *; lia.
  - exact Hge.
Qed.

Lemma tl_skipn {A} (k : nat) (l : list A) : tl (skipn k l) = skipn (S k) l.
Proof.
  change (tl (skipn k l)) with (skipn 1 (skipn k l)).
  now rewrite skipn_skipn.
Qed.

Lemma lastn_length {A} (n : nat) (l : list A) :
  List.length (lastn n l) = Nat.min n (List.length l).
Proof. unfold lastn. rewrite length_skipn. lia. Qed.

(** Appending to a deque that holds the last [maxlen] elements of [l] gives
    one that holds the last [maxlen] elements of [l ++ [x]]. *)
Lemma append_lastn {A} (d : Py.deque A) (l : list A) (x : A) :
  Py.items d = lastn (Py.maxlen d) l ->
  Py.items (Py.append d x) = lastn (Py.maxlen d) (l ++ [x]).
Proof.
  intros Hd. unfold Py.append; cbn [Py.items]. rewrite Hd.
  set (n := Py.maxlen d).
  assert (Hlen : List.length (lastn n l ++ [x])
                 = S (Nat.min n (List.length l))).
  { rewrite length_app, lastn_length. cbn. lia. }
  rewrite Hlen. unfold lastn. rewrite length_app. cbn [List.length].
  destruct (Nat.ltb_spec n (S (Nat.min n (List.length l)))) as [Hlt|Hge].
  - assert (Hn : n <= List.length l) by lia.
    destruct (Nat.eq_dec n 0) as [Hz|Hz].
    + rewrite Hz, Nat.sub_0_r, skipn_all. cbn [app tl].
      symmetry. apply skipn_all2. rewrite length_app. cbn. lia.
    + replace (List.length l + 1 - n) with (S (List.length l - n)) by lia.
      rewrite <- tl_skipn, skipn_app.
      replace (List.length l - n - List.length l) with 0 by lia.
      reflexivity.
  - assert (Hn : List.length l < n) by lia.
    replace (List.length l - n) with 0 by lia.
    replace (List.length l + 1 - n) with 0 by lia.
    reflexivity.
Qed.

(** ** Comparisons of binary64 values *)

Lemma SFcompare_antisym (x y : spec_float) :
  SFcompare y x = option_map CompOpp (SFcompare x y).
Proof.
  destruct x as [sx|sx| |sx mx ex], y as [sy|sy| |sy my ey]; cbn;
    try reflexivity;
    try (destruct sx; reflexivity);
    try (destruct sy; reflexivity);
    try (destruct sx, sy; reflexivity).
  destruct sx, sy; cbn; try reflexivity;
    rewrite (Z.compare_antisym ex ey);
    destruct (ex ?= ey)%Z; cbn; try reflexivity;
    try rewrite CompOpp_involutive; f_equal.
  - exact (Pos.compare_cont_antisym my mx Eq).
  - symmetry. exact (Pos.compare_cont_antisym mx my Eq).
Qed.

Lemma SFcompare_None (x y : spec_float) :
  SFcompare x y = None -> x = S754_nan \/ y = S754_nan.
Proof.
  destruct x, y; cbn; intros E; try discriminate E; auto.
Qed.

Lemma SFcompare_Eq_finite (x : spec_float) (s : bool) (m : positive) (e : Z) :
  SFcompare x (S754_finite s m e) = Some Eq -> x = S754_finite s m e.
Proof.
  destruct x as [sx|sx| |sx mx ex]; cbn; try discriminate.
  - destruct s; discriminate.
  - destruct sx; discriminate.
  - destruct sx, s; try discriminate;
      destruct (Z.compare_spec ex e) as [He|He|He]; try discriminate;
      intros E; injection E as E; subst.
    + apply (f_equal CompOpp) in E. rewrite CompOpp_involutive in E.
      cbn in E. change (Pos.compare_cont Eq mx m) with (Pos.compare mx m) in E.
      apply Pos.compare_eq in E. now subst.
    + change (Pos.compare_cont Eq mx m) with (Pos.compare mx m) in E.
      apply Pos.compare_eq in E. now subst.
Qed.

(** [x == y] leaves no room for [y < x]. *)
Lemma float_eqb_not_gt (x y : float) :
  (x =? y)%float = true -> (y <? x)%float = false.
Proof.
  rewrite eqb_spec, ltb_spec. unfold SFeqb, SFltb.
  rewrite (SFcompare_antisym (Prim2SF x) (Prim2SF y)).
  destruct (SFcompare (Prim2SF x) (Prim2SF y)) as [[]|]; cbn;
    intros E; try discriminate E; reflexivity.
Qed.

(** Nor does [x <= y]. *)
Lemma float_leb_not_gt (x y : float) :
  (x <=? y)%float = true -> (y <? x)%float = false.
Proof.
  rewrite leb_spec, ltb_spec. unfold SFleb, SFltb.
  rewrite (SFcompare_antisym (Prim2SF x) (Prim2SF y)).
  destruct (SFcompare (Prim2SF x) (Prim2SF y)) as [[]|]; cbn;
    intros E; try discriminate E; reflexivity.
Qed.

(** A value below some bound is a number, and a number that is not below
    [y] is at least [y]. *)
Lemma float_not_ltb_leb (x y z : float) :
  Prim2SF y <> S754_nan ->
  (x <? z)%float = true -> (x <? y)%float = false -> (y <=? x)%float = true.
Proof.
  intros Hy. rewrite leb_spec, !ltb_spec. unfold SFleb, SFltb.
  rewrite (SFcompare_antisym (Prim2SF x) (Prim2SF y)).
  intros Hz Hxy.
  destruct (SFcompare (Prim2SF x) (Prim2SF y)) as [[]|] eqn:E; cbn;
    try reflexivity; try discriminate Hxy.
  apply SFcompare_None in E. destruct E as [E|E]; [|contradiction].
  rewrite E in Hz. discriminate Hz.
Qed.

(** Equality with a non-zero finite value is identity. *)
Lemma float_eqb_finite (x y : float) (s : bool) (m : positive) (e : Z) :
  Prim2SF y = S754_finite s m e -> (x =? y)%float = true -> x = y.
Proof.
  intros Hy. rewrite eqb_spec. unfold SFeqb. rewrite Hy.
  destruct (SFcompare (Prim2SF x) (S754_finite s m e)) as [[]|] eqn:E;
    try discriminate.
  intros _. apply SFcompare_Eq_finite in E.
  rewrite <- (SF2Prim_Prim2SF x), <- (SF2Prim_Prim2SF y), E, Hy.
  reflexivity.
Qed.

(** ** The anomaly detector *)

Section Detector.

Context `{Builtins}.

Lemma len_lt_10 {A} (l : list A) :
  (Py.len l <? 10)%Z = true <-> List.length l < 10.
Proof. unfold Py.len. rewrite Z.ltb_lt. lia. Qed.

Lemma len_ge_10 {A} (l : list A) :
  (Py.len l <? 10)%Z = false <-> 10 <= List.length l.
Proof. unfold Py.len. rewrite Z.ltb_ge. lia. Qed.

Lemma int_truediv_nonzero (a b : Z) :
  b <> 0%Z -> Py.int_truediv a b = Ret (Py.true_quotient a b).
Proof.
  intros Hb. unfold Py.int_truediv.
  destruct (Z.eqb_spec b 0); [contradiction | reflexivity].
Qed.

Lemma float_truediv_int_nonzero (x : float) (n : Z) :
  n <> 0%Z -> Py.float_truediv_int x n = Ret (x / Py.float_of_int n)%float.
Proof.
  intros Hn. unfold Py.float_truediv_int.
  destruct (Z.eqb_spec n 0); [contradiction | reflexivity].
Qed.

(** Whatever it returns, [detect_anomalies] leaves the monitor with the
    sample appended to the speed window, nothing else changed, and emits
    nothing. *)
Lemma detect_anomalies_effect (m : V1_5.NetworkMonitor) (total : Z) :
  state_of (V1_5.detect_anomalies total m)
  = V1_5.set_speed_history (Py.append (V1_5.speed_history m) total) m
  /\ events_of (V1_5.detect_anomalies total m) = [].
Proof.
  unfold V1_5.detect_anomalies. run_monad.
  cbn [V1_5.speed_history V1_5.set_speed_history].
  destruct (Py.len _ <? 10)%Z; [split; reflexivity|].
  destruct (Py.int_truediv _ _); [|split; reflexivity].
  destruct (Py.float_truediv_int _ _); split; reflexivity.
Qed.

Lemma detect_anomalies_below_10 (m : V1_5.NetworkMonitor) (total : Z) :
  List.length (Py.items (Py.append (V1_5.speed_history m) total)) < 10 ->
  result_of (V1_5.detect_anomalies total m) = Ret false.
Proof.
  intros Hlen. apply len_lt_10 in Hlen.
  unfold V1_5.detect_anomalies. run_monad.
  cbn [V1_5.speed_history V1_5.set_speed_history].
  rewrite Hlen. reflexivity.
Qed.

Lemma cold_start_calls (totals : list Z) :
  forall (m : V1_5.NetworkMonitor) (i : nat),
    i + List.length (Py.items (V1_5.speed_history m)) < 9 ->
    i < List.length totals ->
    nth_error (fst (fst (call_each V1_5.detect_anomalies totals m))) i
    = Some (Ret false).
Proof.
  induction totals as [|x rest IH]; intros m i Hi Hlt; cbn in Hlt; [lia|].
  cbn [call_each].
  pose proof (detect_anomalies_below_10 m x) as Hres.
  pose proof (detect_anomalies_effect m x) as [Hst _].
  pose proof (append_length_le (V1_5.speed_history m) x) as Hle.
  destruct (V1_5.detect_anomalies x m) as [[r m1] out1].
  unfold result_of, state_of in *. cbn [fst snd] in *.
  specialize (IH m1).
  destruct (call_each V1_5.detect_anomalies rest m1) as [[rs m2] out2].
  cbn [fst snd] in *.
  destruct i as [|i]; cbn [nth_error].
  - rewrite Hres by lia. reflexivity.
  - apply IH; [|lia].
    subst m1. cbn [V1_5.speed_history V1_5.set_speed_history]. lia.
Qed.

(** C2. Cold start: a call after which the speed window holds fewer than
    10 samples returns [False], whatever the sample and the earlier ones
    are; so from an empty window the first 9 calls all return [False]. *)
Theorem detect_anomalies_cold_start
  (m : V1_5.NetworkMonitor) (total : Z) (totals : list Z) :
  (List.length (Py.items (Py.append (V1_5.speed_history m) total)) < 10 ->
   V1_5.detect_anomalies total m
   = (Ret false,
      V1_5.set_speed_history (Py.append (V1_5.speed_history m) total) m,
      []))
  /\ (Py.items (V1_5.speed_history m) = [] ->
      forall i : nat,
        i < 9 -> i < List.length totals ->
        nth_error (fst (fst (call_each V1_5.detect_anomalies totals m))) i
        = Some (Ret false)).
Proof.
  split.
  - intros Hlen.
    pose proof (detect_anomalies_below_10 m total Hlen) as Hres.
    pose proof (detect_anomalies_effect m total) as [Hst Hout].
    destruct (V1_5.detect_anomalies total m) as [[r m1] out].
    unfold result_of, state_of, events_of in *. cbn [fst snd] in *.
    now subst.
  - intros Hempty i Hi Hlt. apply cold_start_calls; [|exact Hlt].
    rewrite Hempty. cbn. lia.
Qed.

(** C1. Once the window, sample included, holds at least 10 samples,
    [detect_anomalies] returns [True] exactly when the sample's distance
    from the mean of that window is strictly greater than the threshold
    times the window's population standard deviation; a distance equal to
    that bound gives [False]. *)
Theorem detect_anomalies_threshold_test
  (m : V1_5.NetworkMonitor) (total : Z) :
  let window := Py.items (Py.append (V1_5.speed_history m) total) in
  let deviation := abs (Py.float_of_int total - population_mean window) in
  let bound :=
    (V1_5.anomaly_threshold m * population_std_dev window)%float in
  10 <= List.length window ->
  V1_5.detect_anomalies total m
  = (Ret (bound <? deviation)%float,
     V1_5.set_speed_history (Py.append (V1_5.speed_history m) total) m,
     [])
  /\ (result_of (V1_5.detect_anomalies total m) = Ret true
      <-> (bound <? deviation)%float = true)
  /\ ((deviation =? bound)%float = true ->
      result_of (V1_5.detect_anomalies total m) = Ret false).
Proof.
  intros window deviation bound Hlen.
  assert (Hres : result_of (V1_5.detect_anomalies total m)
                 = Ret (bound <? deviation)%float).
  { assert (Hnz : Py.len window <> 0%Z) by (unfold Py.len; lia).
    apply len_ge_10 in Hlen.
    unfold V1_5.detect_anomalies. run_monad.
    cbn [V1_5.speed_history V1_5.set_speed_history V1_5.anomaly_threshold].
    fold window. rewrite Hlen.
    rewrite (int_truediv_nonzero _ _ Hnz). cbn [fst snd].
    rewrite (float_truediv_int_nonzero _ _ Hnz). cbn [fst snd].
    reflexivity. }
  split; [|split].
  - pose proof (detect_anomalies_effect m total) as [Hst Hout].
    destruct (V1_5.detect_anomalies total m) as [[r m1] out].
    unfold result_of, state_of, events_of in *. cbn [fst snd] in *.
    now subst.
  - rewrite Hres. split; intros E; [now injection E | now rewrite E].
  - intros Htie. rewrite Hres. now rewrite (float_eqb_not_gt _ _ Htie).
Qed.

End Detector.

(** ** The two windows *)

Section Windows.

Context `{Builtins}.

(** What [check_latency] does to the monitor: nothing, or one latency
    appended to the latency window and reported. *)
Lemma check_latency_effect (w : world) (m : V1_5.NetworkMonitor) :
  (state_of (V1_5.check_latency w m) = m
   /\ latencies_reported (events_of (V1_5.check_latency w m)) = [])
  \/ (exists latency : float,
        state_of (V1_5.check_latency w m)
        = V1_5.set_connection_history
            (Py.append (V1_5.connection_history m) latency) m
        /\ latencies_reported (events_of (V1_5.check_latency w m))
           = [latency]).
Proof.
  unfold V1_5.check_latency, try_except, orelse, except, except_Exception,
    py_float.
  run_monad.
  destruct (subprocess_run w _ _) as [result|e]; cbn [fst snd].
  - destruct (returncode result =? 0)%Z; cbn [fst snd];
      [|left; split; reflexivity].
    destruct (Py.index_from_end _ _) as [field|e]; cbn [fst snd].
    + destruct (float_of_str field) as [latency|]; cbn [fst snd].
      * right. exists latency. split; reflexivity.
      * left. split; reflexivity.
    + destruct e; cbn; left; split; reflexivity.
  - destruct e; cbn; left; split; reflexivity.
Qed.

Lemma speed_window_fifo (totals : list Z) :
  forall (m : V1_5.NetworkMonitor) (seen : list Z),
    Py.items (V1_5.speed_history m)
    = lastn (Py.maxlen (V1_5.speed_history m)) seen ->
    Py.items (V1_5.speed_history
                (snd (fst (call_each V1_5.detect_anomalies totals m))))
    = lastn (Py.maxlen (V1_5.speed_history m)) (seen ++ totals).
Proof.
  induction totals as [|x rest IH]; intros m seen Hm; cbn [call_each].
  - cbn [fst snd]. now rewrite app_nil_r.
  - pose proof (detect_anomalies_effect m x) as [Hst _].
    destruct (V1_5.detect_anomalies x m) as [[r m1] out1].
    unfold state_of in Hst. cbn [fst snd] in Hst.
    specialize (IH m1 (seen ++ [x])).
    destruct (call_each V1_5.detect_anomalies rest m1) as [[rs m2] out2].
    cbn [fst snd] in *. subst m1.
    cbn [V1_5.speed_history V1_5.set_speed_history] in IH.
    rewrite append_maxlen, <- app_assoc in IH. apply IH.
    now apply append_lastn.
Qed.

Lemma latency_window_fifo (ws : list world) :
  forall (m : V1_5.NetworkMonitor) (seen : list float),
    Py.items (V1_5.connection_history m)
    = lastn (Py.maxlen (V1_5.connection_history m)) seen ->
    Py.items (V1_5.connection_history
                (snd (fst (call_each V1_5.check_latency ws m))))
    = lastn (Py.maxlen (V1_5.connection_history m))
        (seen ++ latencies_reported
                   (snd (call_each V1_5.check_latency ws m))).
Proof.
  induction ws as [|w rest IH]; intros m seen Hm; cbn [call_each].
  - cbn [fst snd latencies_reported flat_map]. now rewrite app_nil_r.
  - pose proof (check_latency_effect w m) as Heff.
    destruct (V1_5.check_latency w m) as [[r m1] out1].
    unfold state_of, events_of in Heff. cbn [fst snd] in Heff.
    specialize (IH m1).
    destruct (call_each V1_5.check_latency rest m1) as [[rs m2] out2].
    cbn [fst snd] in *.
    unfold latencies_reported in *. rewrite flat_map_app.
    destruct Heff as [[Hst Hrep]|[latency [Hst Hrep]]]; rewrite Hrep; subst m1.
    + cbn [app]. now apply IH.
    + specialize (IH (seen ++ [latency])).
      cbn [V1_5.connection_history V1_5.set_connection_history] in IH.
      rewrite append_maxlen, <- app_assoc in IH. apply IH.
      now apply append_lastn.
Qed.

End Windows.

(** ** The stability analyzer *)

Section Stability.

Context `{Builtins}.

Lemma res_map_map {A B C} (f : B -> res C) (g : A -> B) (l : list A) :
  res_map f (map g l) = res_map (fun a => f (g a)) l.
Proof.
  induction l as [|a rest IH]; cbn; [reflexivity|]. now rewrite IH.
Qed.

Lemma res_map_ext_in {A B} (f g : A -> res B) (l : list A) :
  (forall a, In a l -> f a = g a) -> res_map f l = res_map g l.
Proof.
  induction l as [|a rest IH]; intros Hfg; cbn; [reflexivity|].
  rewrite (Hfg a (or_introl eq_refl)), IH; [reflexivity|].
  intros b Hb. apply Hfg. now right.
Qed.

(** The comprehension over indices computes the consecutive absolute
    differences, oldest pair first, and no index is out of range. *)
Lemma variations_of_consecutive (h : list float) :
  V1_5.variations_of h = Ret (consecutive_abs_diffs h).
Proof.
  unfold V1_5.variations_of.
  destruct h as [|a t]; [reflexivity|].
  cbn [List.length].
  replace (S (List.length t) - 1) with (List.length t) by lia.
  revert a. induction t as [|b t' IH]; intros a; [reflexivity|].
  cbn [List.length seq res_map].
  cbn [getitem nth_error Nat.sub res_bind].
  rewrite <- (seq_shift (List.length t') 1), res_map_map.
  rewrite (res_map_ext_in _
             (fun i =>
                res_bind (getitem (b :: t') i) (fun x =>
                res_bind (getitem (b :: t') (i - 1)) (fun y =>
                Ret (abs (x - y))%float)))).
  - rewrite IH. reflexivity.
  - intros i Hi. apply in_seq in Hi.
    destruct i as [|j]; [lia|].
    unfold getitem. cbn [nth_error Nat.sub]. rewrite Nat.sub_0_r.
    reflexivity.
Qed.

Lemma consecutive_abs_diffs_length (h : list float) :
  List.length (consecutive_abs_diffs h) = List.length h - 1.
Proof.
  destruct h as [|a t]; [reflexivity|].
  revert a. induction t as [|b t' IH]; intros a; [reflexivity|].
  change (consecutive_abs_diffs (a :: b :: t'))
    with (abs (b - a)%float :: consecutive_abs_diffs (b :: t')).
  cbn [List.length]. rewrite IH. cbn. lia.
Qed.

(** What the analyzer returns, with the window left as it was and nothing
    emitted. *)
Lemma analyze_connection_stability_run (m : V1_5.NetworkMonitor) :
  let h := Py.items (V1_5.connection_history m) in
  V1_5.analyze_connection_stability m
  = (Ret (if (Py.len h <? 5)%Z then InsufficientData
          else if (mean_variation h <? 5)%float then Stable
          else if (mean_variation h <? 20)%float then Moderate
          else Unstable),
     m, []).
Proof.
  intros h. unfold V1_5.analyze_connection_stability. run_monad. fold h.
  destruct (Z.ltb_spec (Py.len h) 5) as [Hlt|Hge]; [reflexivity|].
  rewrite variations_of_consecutive. cbn [fst snd].
  rewrite float_truediv_int_nonzero.
  2:{ unfold Py.len in *. rewrite consecutive_abs_diffs_length. lia. }
  cbn [fst snd]. fold (mean_variation h).
  destruct (mean_variation h <? 5)%float; [reflexivity|].
  destruct (mean_variation h <? 20)%float; reflexivity.
Qed.

(** C4. With fewer than 5 latencies the analyzer answers
    [InsufficientData]; otherwise it takes the mean [v] of the absolute
    differences of consecutive latencies, oldest first, and answers
    [Stable] when [v < 5], [Moderate] when [5 <= v < 20], and [Unstable] in
    every other case; so [v = 5] is [Moderate] and [v = 20] is [Unstable]. *)
Theorem analyze_connection_stability_verdicts (m : V1_5.NetworkMonitor) :
  let h := Py.items (V1_5.connection_history m) in
  let v := mean_variation h in
  let verdict := result_of (V1_5.analyze_connection_stability m) in
  (List.length h < 5 -> verdict = Ret InsufficientData)
  /\ (5 <= List.length h ->
      ((v <? 5)%float = true -> verdict = Ret Stable)
      /\ ((5 <=? v)%float = true -> (v <? 20)%float = true ->
          verdict = Ret Moderate)
      /\ ((v <? 5)%float = false ->
          ((5 <=? v)%float && (v <? 20)%float)%bool = false ->
          verdict = Ret Unstable)
      /\ ((v =? 5)%float = true -> verdict = Ret Moderate)
      /\ ((v =? 20)%float = true -> verdict = Ret Unstable)).
Proof.
  intros h v verdict. subst verdict.
  rewrite analyze_connection_stability_run. fold h. fold v.
  unfold result_of. cbn [fst].
  split.
  - intros Hlt.
    destruct (Z.ltb_spec (Py.len h) 5) as [_|Hge]; [reflexivity|].
    unfold Py.len in Hge. lia.
  - intros Hge.
    destruct (Z.ltb_spec (Py.len h) 5) as [Hlt|_];
      [unfold Py.len in Hlt; lia|].
    repeat split.
    + intros E. now rewrite E.
    + intros E5 E20.
      rewrite (float_leb_not_gt _ _ E5), E20. reflexivity.
    + intros E5 Hmid. rewrite E5.
      destruct (v <? 20)%float eqn:E20; [|reflexivity].
      assert (Hnan : Prim2SF 5 <> S754_nan) by (vm_compute; discriminate).
      rewrite (float_not_ltb_leb v 5 20 Hnan E20 E5) in Hmid.
      discriminate Hmid.
    + intros E.
      assert (Hv : v = 5%float).
      { eapply float_eqb_finite; [vm_compute; reflexivity | exact E]. }
      rewrite Hv. reflexivity.
    + intros E.
      assert (Hv : v = 20%float).
      { eapply float_eqb_finite; [vm_compute; reflexivity | exact E]. }
      rewrite Hv. reflexivity.
Qed.

(** C10. The analyzer only reads: it returns a verdict, leaves every field
    of the monitor, the latency window among them, as it found it, and
    emits nothing; called again with no probe in between, it returns the
    same verdict. *)
Theorem analyze_connection_stability_reads_only (m : V1_5.NetworkMonitor) :
  state_of (V1_5.analyze_connection_stability m) = m
  /\ events_of (V1_5.analyze_connection_stability m) = []
  /\ (exists verdict : string,
        result_of (V1_5.analyze_connection_stability m) = Ret verdict)
  /\ V1_5.analyze_connection_stability
       (state_of (V1_5.analyze_connection_stability m))
     = V1_5.analyze_connection_stability m.
Proof.
  pose proof (analyze_connection_stability_run m) as Hrun.
  cbv zeta in Hrun.
  assert (Hst : state_of (V1_5.analyze_connection_stability m) = m)
    by now rewrite Hrun.
  repeat split.
  - exact Hst.
  - now rewrite Hrun.
  - rewrite Hrun. eexists. reflexivity.
  - now rewrite Hst.
Qed.

End Stability.

(** ** The packet-loss probe *)

Section PacketLoss.

Context `{Builtins}.

Local Open Scope string_scope.

(** C5. From the two parsed counts the probe computes
    [(sent - received) / sent * 100] when [sent > 0] and [0] when
    [sent = 0]; the division is only reached with [sent > 0], so the
    computation never raises [ZeroDivisionError] (nor anything else). *)
Theorem packet_loss_guarded (sent received : Z) :
  ((0 < sent)%Z ->
   V1_5.packet_loss sent received
   = Ret (Py.Float (Py.true_quotient (sent - received) sent * 100)))
  /\ (sent = 0%Z -> V1_5.packet_loss sent received = Ret (Py.Int 0))
  /\ V1_5.packet_loss sent received <> Raise ZeroDivisionError
  /\ is_Ret (V1_5.packet_loss sent received) = true.
Proof.
  unfold V1_5.packet_loss.
  destruct (Z.ltb_spec 0 sent) as [Hpos|Hle].
  - rewrite int_truediv_nonzero by lia. cbn [res_bind is_Ret].
    repeat split; try discriminate; intros; try lia; reflexivity.
  - cbn [is_Ret]. repeat split; try discriminate; intros; try lia; reflexivity.
Qed.


End PacketLoss.

(** ** What every method keeps *)

Section Frames.

Context `{Builtins}.

Lemma frame_refl (m : V1_5.NetworkMonitor) : frame m m.
Proof. unfold frame. repeat split; auto. Qed.

Lemma frame_trans (m1 m2 m3 : V1_5.NetworkMonitor) :
  frame m1 m2 -> frame m2 m3 -> frame m1 m3.
Proof.
  unfold frame.
  intros (R1 & T1 & A1 & C1 & S1 & L1 & BS1 & BL1)
         (R2 & T2 & A2 & C2 & S2 & L2 & BS2 & BL2).
  repeat split; try congruence; auto.
Qed.

Lemma forallb_weaken (P Q : event -> bool) (out : list event) :
  (forall ev, P ev = true -> Q ev = true) ->
  forallb P out = true -> forallb Q out = true.
Proof.
  intros HPQ. rewrite !forallb_forall. auto.
Qed.

Lemma respects_weaken {A} (P Q : event -> bool) (c : M V1_5.NetworkMonitor A) :
  (forall ev, P ev = true -> Q ev = true) -> respects P c -> respects Q c.
Proof.
  intros HPQ Hc m. destruct (Hc m) as [Hf Hout].
  split; [exact Hf | exact (forallb_weaken P Q _ HPQ Hout)].
Qed.

Lemma respects_ret {A} (P : event -> bool) (a : A) : respects P (ret a).
Proof. intros m. split; [apply frame_refl | reflexivity]. Qed.

Lemma respects_raise {A} (P : event -> bool) (e : exn) :
  respects P (@raise _ A e).
Proof. intros m. split; [apply frame_refl | reflexivity]. Qed.

Lemma respects_lift {A} (P : event -> bool) (r : res A) :
  respects P (lift r).
Proof. intros m. split; [apply frame_refl | reflexivity]. Qed.

Lemma respects_gets {A} (P : event -> bool) (f : V1_5.NetworkMonitor -> A) :
  respects P (gets f).
Proof. intros m. split; [apply frame_refl | reflexivity]. Qed.

Lemma respects_emit (P : event -> bool) (ev : event) :
  P ev = true -> respects P (emit ev).
Proof.
  intros HP m. split; [apply frame_refl|].
  unfold emit, events_of. cbn. now rewrite HP.
Qed.

Lemma respects_modify (P : event -> bool)
  (f : V1_5.NetworkMonitor -> V1_5.NetworkMonitor) :
  (forall m, frame m (f m)) -> respects P (modify f).
Proof. intros Hf m. split; [apply Hf | reflexivity]. Qed.

Lemma respects_bind {A B} (P : event -> bool)
  (c : M V1_5.NetworkMonitor A) (k : A -> M V1_5.NetworkMonitor B) :
  respects P c -> (forall a, respects P (k a)) -> respects P (bind c k).
Proof.
  intros Hc Hk m. specialize (Hc m). unfold bind, state_of, events_of in *.
  destruct (c m) as [[[a|e] m1] out1]; cbn [fst snd] in *.
  - specialize (Hk a m1). unfold state_of, events_of in Hk.
    destruct (k a m1) as [[r m2] out2]; cbn [fst snd] in *.
    destruct Hc as [Hf1 Ho1], Hk as [Hf2 Ho2]. split.
    + exact (frame_trans _ _ _ Hf1 Hf2).
    + rewrite forallb_app, Ho1, Ho2. reflexivity.
  - exact Hc.
Qed.

Lemma respects_try_except {A} (P : event -> bool)
  (body : M V1_5.NetworkMonitor A)
  (clauses : exn -> option (M V1_5.NetworkMonitor A)) :
  respects P body -> clauses_respect P clauses ->
  respects P (try_except body clauses).
Proof.
  intros Hb Hc m. specialize (Hb m).
  unfold try_except, state_of, events_of in *.
  destruct (body m) as [[[a|e] m1] out1]; cbn [fst snd] in *;
    [exact Hb|].
  destruct (clauses e) as [h|] eqn:E; [|exact Hb].
  specialize (Hc e h E m1). unfold state_of, events_of in Hc.
  destruct (h m1) as [[r m2] out2]; cbn [fst snd] in *.
  destruct Hb as [Hf1 Ho1], Hc as [Hf2 Ho2]. split.
  - exact (frame_trans _ _ _ Hf1 Hf2).
  - rewrite forallb_app, Ho1, Ho2. reflexivity.
Qed.

Lemma clauses_except {A} (P : event -> bool) (cls : exn)
  (h : M V1_5.NetworkMonitor A) :
  respects P h -> clauses_respect P (except cls h).
Proof.
  intros Hh e h' E. unfold except in E.
  destruct (exn_eqb e cls); [|discriminate]. now injection E as <-.
Qed.

Lemma clauses_except_as {A} (P : event -> bool) (cls : exn)
  (h : exn -> M V1_5.NetworkMonitor A) :
  (forall e, respects P (h e)) -> clauses_respect P (except_as cls h).
Proof.
  intros Hh e h' E. unfold except_as in E.
  destruct (exn_eqb e cls); [|discriminate]. injection E as <-. apply Hh.
Qed.

Lemma clauses_except_Exception {A} (P : event -> bool)
  (h : exn -> M V1_5.NetworkMonitor A) :
  (forall e, respects P (h e)) -> clauses_respect P (except_Exception h).
Proof.
  intros Hh e h' E. unfold except_Exception in E.
  destruct (is_Exception e); [|discriminate]. injection E as <-. apply Hh.
Qed.

Lemma clauses_orelse {A} (P : event -> bool)
  (c1 c2 : exn -> option (M V1_5.NetworkMonitor A)) :
  clauses_respect P c1 -> clauses_respect P c2 ->
  clauses_respect P (orelse c1 c2).
Proof.
  intros H1 H2 e h E. unfold orelse in E.
  destruct (c1 e) as [h1|] eqn:E1.
  - injection E as <-. exact (H1 e h1 E1).
  - exact (H2 e h E).
Qed.

Lemma frame_set_previous_bytes_sent (v : Z) (m : V1_5.NetworkMonitor) :
  frame m (V1_5.set_previous_bytes_sent v m).
Proof. unfold frame. cbn. repeat split; auto. Qed.

Lemma frame_set_previous_bytes_recv (v : Z) (m : V1_5.NetworkMonitor) :
  frame m (V1_5.set_previous_bytes_recv v m).
Proof. unfold frame. cbn. repeat split; auto. Qed.

Lemma frame_append_speed (x : Z) (m : V1_5.NetworkMonitor) :
  frame m (V1_5.set_speed_history (Py.append (V1_5.speed_history m) x) m).
Proof.
  unfold frame. cbn [V1_5.set_speed_history V1_5.running V1_5.target_ip
    V1_5.anomaly_threshold V1_5.check_interval V1_5.speed_history
    V1_5.connection_history].
  rewrite append_maxlen. repeat split; auto.
  apply append_within_maxlen.
Qed.

Lemma frame_append_latency (x : float) (m : V1_5.NetworkMonitor) :
  frame m (V1_5.set_connection_history
             (Py.append (V1_5.connection_history m) x) m).
Proof.
  unfold frame. cbn [V1_5.set_connection_history V1_5.running V1_5.target_ip
    V1_5.anomaly_threshold V1_5.check_interval V1_5.speed_history
    V1_5.connection_history].
  rewrite append_maxlen. repeat split; auto.
  apply append_within_maxlen.
Qed.

(** One step of a proof that a method body keeps the frame: the combinator
    at the head of the body decides the lemma. *)
Ltac respects_step :=
  match goal with
  | |- respects _ (bind _ _) => apply respects_bind; [|intros ?]
  | |- respects _ (ret _) => apply respects_ret
  | |- respects _ (raise _) => apply respects_raise
  | |- respects _ (lift _) => apply respects_lift
  | |- respects _ (gets _) => apply respects_gets
  | |- respects _ (emit _) => apply respects_emit; reflexivity
  | |- respects _ (try_except _ _) => apply respects_try_except
  | |- respects _ (modify (V1_5.set_previous_bytes_sent _)) =>
      apply respects_modify; apply frame_set_previous_bytes_sent
  | |- respects _ (modify (V1_5.set_previous_bytes_recv _)) =>
      apply respects_modify; apply frame_set_previous_bytes_recv
  | |- respects _ (modify _) =>
      apply respects_modify; intros ?;
      first [apply frame_append_speed | apply frame_append_latency]
  | |- clauses_respect _ (orelse _ _) => apply clauses_orelse
  | |- clauses_respect _ (except _ _) => apply clauses_except
  | |- clauses_respect _ (except_as _ _) => apply clauses_except_as; intros ?
  | |- clauses_respect _ (except_Exception _) =>
      apply clauses_except_Exception; intros ?
  | |- respects _ (if ?b then _ else _) => destruct b
  | |- respects _ (match ?x with _ => _ end) => destruct x
  | |- respects _ (let _ := _ in _) => cbv zeta
  end.

Ltac respects_all := repeat respects_step.

Lemma respects_get_network_speed (P : event -> bool) (w : world) :
  respects P (V1_5.get_network_speed w).
Proof. unfold V1_5.get_network_speed. respects_all. Qed.

Lemma respects_detect_anomalies (P : event -> bool) (x : Z) :
  respects P (V1_5.detect_anomalies x).
Proof. unfold V1_5.detect_anomalies. respects_all. Qed.

Lemma respects_check_dns_resolution (w : world) :
  respects off_tick (V1_5.check_dns_resolution w).
Proof. unfold V1_5.check_dns_resolution. respects_all. Qed.

Lemma respects_check_latency (w : world) :
  respects off_tick (V1_5.check_latency w).
Proof. unfold V1_5.check_latency. respects_all. Qed.

Lemma respects_check_packet_loss (w : world) :
  respects off_tick (V1_5.check_packet_loss w).
Proof. unfold V1_5.check_packet_loss. respects_all. Qed.

Lemma respects_check_http_response (w : world) :
  respects off_tick (V1_5.check_http_response w).
Proof. unfold V1_5.check_http_response. respects_all. Qed.

Lemma respects_check_internet_speed (w : world) :
  respects off_tick (V1_5.check_internet_speed w).
Proof. unfold V1_5.check_internet_speed. respects_all. Qed.

Lemma respects_analyze_connection_stability :
  respects off_tick V1_5.analyze_connection_stability.
Proof. unfold V1_5.analyze_connection_stability. respects_all. Qed.

Lemma respects_troubleshoot (w : world) :
  respects off_tick (V1_5.troubleshoot w).
Proof.
  unfold V1_5.troubleshoot.
  repeat (apply respects_bind; [|intros ?]);
    first [ apply respects_check_dns_resolution
          | apply respects_check_latency
          | apply respects_check_packet_loss
          | apply respects_check_http_response
          | apply respects_check_internet_speed
          | apply respects_analyze_connection_stability
          | respects_all ].
Qed.

Lemma respects_run_sample (w : world) :
  respects (fun ev => negb (is_sleep ev)) (V1_5.run_sample w).
Proof.
  unfold V1_5.run_sample.
  apply respects_bind; [apply respects_get_network_speed|intros [sent recv]].
  respects_all.
Qed.

Lemma respects_run_detect (w : world) (total : Z) :
  respects off_tick (V1_5.run_detect w total).
Proof.
  unfold V1_5.run_detect.
  apply respects_bind; [apply respects_detect_anomalies|intros [|]].
  - apply respects_bind; [respects_all|intros ?].
    apply respects_troubleshoot.
  - apply respects_ret.
Qed.

Lemma respects_run_sleep :
  respects (fun ev => negb (is_activity ev)) V1_5.run_sleep.
Proof. unfold V1_5.run_sleep. respects_all. Qed.

End Frames.

(** ** The troubleshooting step *)

Section Probes.

Context `{Builtins}.

Local Open Scope string_scope.

Lemma index_from_end_raises {A} (l : list A) (k : nat) (e : exn) :
  Py.index_from_end l k = Raise e -> e = IndexError.
Proof.
  unfold Py.index_from_end.
  destruct (List.length l <? k)%nat; [now intros [= <-]|].
  destruct (nth_error l _); [discriminate | now intros [= <-]].
Qed.

Lemma py_int_raises (s : string) (e : exn) :
  py_int s = Raise e -> e = ValueError.
Proof.
  unfold py_int. destruct (int_of_str s); [discriminate | now intros [= <-]].
Qed.

Lemma unpack_counts_raises (fields : list string) (e : exn) :
  V1_5.unpack_counts fields = Raise e -> e = ValueError.
Proof.
  unfold V1_5.unpack_counts.
  destruct fields as [|a [|b [|c rest]]]; cbn;
    try (now intros [= <-]);
    destruct (py_int a) eqn:Ea; cbn;
    try (intros [= <-]; exact (py_int_raises _ _ Ea));
    try (now intros [= <-]);
    destruct (py_int b) eqn:Eb; cbn;
    try (intros [= <-]; exact (py_int_raises _ _ Eb));
    try (now intros [= <-]); discriminate.
Qed.

Lemma scan_lines_raises (lines : list string) (e : exn) :
  V1_5.scan_lines lines = Raise e -> e = ValueError.
Proof.
  induction lines as [|line rest IH]; cbn [V1_5.scan_lines]; [discriminate|].
  destruct (Py.contains _ line); [apply unpack_counts_raises | exact IH].
Qed.

Lemma packet_loss_returns (sent received : Z) :
  exists loss, V1_5.packet_loss sent received = Ret loss.
Proof.
  unfold V1_5.packet_loss.
  destruct (Z.ltb_spec 0 sent) as [Hpos|Hle]; [|eexists; reflexivity].
  rewrite int_truediv_nonzero by lia. eexists. reflexivity.
Qed.

Lemma check_dns_resolution_reports (w : world) (m : V1_5.NetworkMonitor) :
  (forall e, gethostbyname w "www.google.com" = Raise e -> e = gaierror) ->
  exists ev, V1_5.check_dns_resolution w m = (Ret tt, m, [ev])
             /\ probe_of ev = Some DNS.
Proof.
  intros Hdns. unfold V1_5.check_dns_resolution, try_except, except.
  run_monad.
  destruct (gethostbyname w _) as [addr|e] eqn:E; cbn [fst snd].
  - eexists. split; reflexivity.
  - rewrite (Hdns e eq_refl). cbn. eexists. split; reflexivity.
Qed.

Lemma check_latency_reports (w : world) (m : V1_5.NetworkMonitor) :
  (forall e, subprocess_run w ["ping"; "-c"; "4"; V1_5.target_ip m] 10
             = Raise e -> is_Exception e = true) ->
  exists m' ev, V1_5.check_latency w m = (Ret tt, m', [ev])
                /\ probe_of ev = Some Latency
                /\ V1_5.target_ip m' = V1_5.target_ip m.
Proof.
  intros Hrun.
  unfold V1_5.check_latency, try_except, orelse, except, except_Exception,
    py_float.
  run_monad.
  destruct (subprocess_run w _ _) as [result|e] eqn:E; cbn [fst snd].
  - destruct (returncode result =? 0)%Z; cbn [fst snd].
    + destruct (Py.index_from_end _ _) as [field|e] eqn:Ei; cbn [fst snd].
      * destruct (float_of_str field) as [latency|]; cbn [fst snd];
          do 2 eexists; repeat split; reflexivity.
      * rewrite (index_from_end_raises _ _ _ Ei). cbn.
        do 2 eexists; repeat split; reflexivity.
    + do 2 eexists; repeat split; reflexivity.
  - specialize (Hrun e eq_refl).
    destruct e; try discriminate Hrun; cbn;
      do 2 eexists; repeat split; reflexivity.
Qed.

Lemma check_packet_loss_reports (w : world) (m : V1_5.NetworkMonitor) :
  (forall e, subprocess_run w ["ping"; "-c"; "10"; V1_5.target_ip m] 15
             = Raise e -> is_Exception e = true) ->
  exists ev, V1_5.check_packet_loss w m = (Ret tt, m, [ev])
             /\ probe_of ev = Some PacketLoss.
Proof.
  intros Hrun.
  unfold V1_5.check_packet_loss, try_except, orelse, except, except_Exception.
  run_monad.
  destruct (subprocess_run w _ _) as [result|e] eqn:E; cbn [fst snd].
  - destruct (returncode result =? 0)%Z; cbn [fst snd].
    + destruct (V1_5.scan_lines _) as [[sent received]|e] eqn:Es;
        cbn [fst snd].
      * destruct (packet_loss_returns sent received) as [loss ->].
        cbn. eexists. split; reflexivity.
      * rewrite (scan_lines_raises _ _ Es). cbn.
        eexists. split; reflexivity.
    + eexists. split; reflexivity.
  - specialize (Hrun e eq_refl).
    destruct e; try discriminate Hrun; cbn;
      eexists; split; reflexivity.
Qed.

Lemma check_http_response_reports (w : world) (m : V1_5.NetworkMonitor) :
  (forall e, requests_get w "http://www.google.com" 5 = Raise e ->
             e = RequestException) ->
  exists ev, V1_5.check_http_response w m = (Ret tt, m, [ev])
             /\ probe_of ev = Some HTTP.
Proof.
  intros Hget. unfold V1_5.check_http_response, try_except, except_as.
  run_monad.
  destruct (requests_get w _ _) as [status|e] eqn:E; cbn [fst snd].
  - eexists. split; reflexivity.
  - rewrite (Hget e eq_refl). cbn. eexists. split; reflexivity.
Qed.

Lemma check_internet_speed_reports (w : world) (m : V1_5.NetworkMonitor) :
  (forall e, Speedtest w = Raise e -> is_Exception e = true) ->
  (forall e, st_download w = Raise e -> is_Exception e = true) ->
  (forall e, st_upload w = Raise e -> is_Exception e = true) ->
  exists speeds out n,
    V1_5.check_internet_speed w m = (Ret speeds, m, out)
    /\ (n = 1 \/ n = 2)
    /\ map probe_of out = repeat (Some Bandwidth) n.
Proof.
  intros Hnew Hdown Hup.
  unfold V1_5.check_internet_speed, try_except, except_Exception.
  run_monad.
  destruct (Speedtest w) as [[]|e] eqn:E0; cbn [fst snd].
  2:{ rewrite (Hnew e eq_refl). cbn.
      do 2 eexists. exists 1. repeat split; auto. }
  destruct (st_download w) as [down|e] eqn:E1; cbn [fst snd].
  2:{ rewrite (Hdown e eq_refl). cbn.
      do 2 eexists. exists 1. repeat split; auto. }
  rewrite float_truediv_int_nonzero by discriminate. cbn [fst snd].
  destruct (st_upload w) as [up|e] eqn:E2; cbn [fst snd].
  2:{ rewrite (Hup e eq_refl). cbn.
      do 2 eexists. exists 1. repeat split; auto. }
  rewrite float_truediv_int_nonzero by discriminate. cbn [fst snd].
  do 2 eexists. exists 2. repeat split; auto.
Qed.

(** In a world whose failures are the anticipated ones, a troubleshooting
    step runs all five probes, in order, each reporting its outcome, and
    ends with the stability verdict. *)
Theorem troubleshoot_runs_every_probe (w : world) (m : V1_5.NetworkMonitor) :
  anticipated w (V1_5.target_ip m) ->
  result_of (V1_5.troubleshoot w m) = Ret tt
  /\ exists n,
      (n = 1 \/ n = 2)
      /\ map probe_of (events_of (V1_5.troubleshoot w m))
         = ([Some DNS; Some Latency; Some PacketLoss; Some HTTP]
             ++ repeat (Some Bandwidth) n ++ [Some StabilityReport])%list.
Proof.
  intros (Hdns & Hp4 & Hp10 & Hget & Hnew & Hdown & Hup).
  destruct (check_dns_resolution_reports w m Hdns) as (e1 & R1 & K1).
  destruct (check_latency_reports w m Hp4) as (m1 & e2 & R2 & K2 & Hip).
  rewrite <- Hip in Hp10.
  destruct (check_packet_loss_reports w m1 Hp10) as (e3 & R3 & K3).
  destruct (check_http_response_reports w m1 Hget) as (e4 & R4 & K4).
  destruct (check_internet_speed_reports w m1 Hnew Hdown Hup)
    as (speeds & out5 & n & R5 & Hn & K5).
  pose proof (analyze_connection_stability_run m1) as R6. cbv zeta in R6.
  unfold V1_5.troubleshoot, bind.
  rewrite R1, R2, R3, R4, R5, R6.
  unfold result_of, events_of, emit. cbn [fst snd].
  split; [reflexivity|].
  exists n. split; [exact Hn|].
  cbn [app map]. rewrite K1, K2, K3, K4.
  rewrite map_app, K5. reflexivity.
Qed.

(** An exception of the resolver that is not a [gaierror] leaves the DNS
    probe as it came, with nothing reported. *)
Lemma check_dns_resolution_lets_through
  (w : world) (m : V1_5.NetworkMonitor) (e : exn) :
  gethostbyname w "www.google.com" = Raise e ->
  exn_eqb e gaierror = false ->
  V1_5.check_dns_resolution w m = (Raise e, m, []).
Proof.
  intros Hraise Hother.
  unfold V1_5.check_dns_resolution, try_except, except. run_monad.
  rewrite Hraise. cbn [fst snd]. now rewrite Hother.
Qed.

(** C6, where the code departs from it.  When the resolver fails with a
    system error, which [socket] raises as an [OSError] that is not a
    [gaierror], the DNS probe lets the exception through: the step ends
    there, no other probe runs and no verdict is computed. *)
Theorem troubleshoot_stops_at_dns_system_error (m : V1_5.NetworkMonitor) :
  V1_5.check_dns_resolution Scenario.dns_system_error m
  = (Raise OSError, m, [])
  /\ V1_5.troubleshoot Scenario.dns_system_error m = (Raise OSError, m, [])
  /\ map probe_of (events_of (V1_5.troubleshoot Scenario.dns_system_error m))
     = [].
Proof.
  assert (Hdns : V1_5.check_dns_resolution Scenario.dns_system_error m
                 = (Raise OSError, m, []))
    by (apply check_dns_resolution_lets_through; reflexivity).
  assert (Hstep : V1_5.troubleshoot Scenario.dns_system_error m
                  = (Raise OSError, m, [])).
  { unfold V1_5.troubleshoot. unfold bind at 1. now rewrite Hdns. }
  split; [exact Hdns|]. split; [exact Hstep|]. now rewrite Hstep.
Qed.

End Probes.

(** ** The sampler when the counters cannot be read *)

Section Sampler.

Context `{Builtins}.

(** C7, where the code departs from it.  In v1.5 the sampler has no
    [try]: a failed counter read leaves [get_network_speed] as the
    exception it is, nothing is logged, [run] ends with it and the thread
    is dead, so no later tick happens. *)
Theorem sampler_v1_5_read_failure_ends_run
  (m : V1_5.NetworkMonitor) (ws : list world) (sched : list V1_5.action) :
  V1_5.get_network_speed Scenario.counters_unreadable m
  = (Raise OSError, m, [])
  /\ V1_5.run (Scenario.counters_unreadable :: ws) (V1_5.set_running true m)
     = (Raise OSError, V1_5.set_running true m, [])
  /\ V1_5.thread_step Scenario.counters_unreadable
       (V1_5.mkthread m V1_5.at_sample)
     = (V1_5.mkthread m (V1_5.died OSError), [])
  /\ snd (V1_5.exec sched (V1_5.mkthread m (V1_5.died OSError))) = [].
Proof.
  repeat split.
  revert m. induction sched as [|a rest IH]; intros m; [reflexivity|].
  cbn [V1_5.exec].
  destruct a as [w|]; cbn [V1_5.step V1_5.thread_step V1_5.at_pc V1_5.self].
  - specialize (IH m). destruct (V1_5.exec rest _) as [t2 out2].
    cbn [snd] in *. now rewrite IH.
  - unfold V1_5.stop, modify, state_of, events_of. cbn [fst snd].
    specialize (IH (V1_5.set_running false m)).
    destruct (V1_5.exec rest _) as [t2 out2]. cbn [snd] in *. now rewrite IH.
Qed.

(** The sampler of v1.0 to v1.2 does what C7 says: whichever of the two
    counter reads fails, it logs the error, leaves the previous readings
    as they were and returns [(0, 0)]; the loop body goes on to log the
    activity of 0 bytes, and when that sample is no anomaly it reaches its
    sleep and [monitor]'s loop goes on with the next tick. *)
Theorem sampler_v1_0_returns_zero_sample
  (w : world) (m : V1_0.NetworkMonitor) (e : exn) :
  is_Exception e = true ->
  net_io_counters_1 w = Raise e
  \/ (exists c, net_io_counters_1 w = Ret c /\ net_io_counters_2 w = Raise e) ->
  V1_0.get_network_speed w m
  = (Ret (0, 0)%Z, m, [logging_error (Error_getting_network_speed e)])
  /\ (exists rest,
        events_of (V1_0.monitor_body w m)
        = logging_error (Error_getting_network_speed e)
            :: logging_info (Network_activity 0) :: rest)
  /\ (result_of (V1_0.detect_anomalies 0 m) = Ret false ->
      V1_0.monitor_body w m
      = (Ret tt,
         V1_0.set_speed_history (Py.append (V1_0.speed_history m) 0%Z) m,
         [logging_error (Error_getting_network_speed e);
          logging_info (Network_activity 0);
          time_sleep 1])
      /\ forall ws,
          V1_0.monitor_loop (w :: ws) m
          = bind (V1_0.monitor_body w) (fun _ => V1_0.monitor_loop ws) m
          /\ exists out,
              events_of (V1_0.monitor_loop (w :: ws) m)
              = [logging_error (Error_getting_network_speed e);
                 logging_info (Network_activity 0);
                 time_sleep 1]
                  ++ out
              /\ out
                 = events_of
                     (V1_0.monitor_loop ws
                        (V1_0.set_speed_history
                           (Py.append (V1_0.speed_history m) 0%Z) m))).
Proof.
  intros He Hfail.
  assert (Hget : V1_0.get_network_speed w m
                 = (Ret (0, 0)%Z, m,
                    [logging_error (Error_getting_network_speed e)])).
  { unfold V1_0.get_network_speed, try_except, except_Exception. run_monad.
    destruct Hfail as [E1|[c [E1 E2]]]; rewrite E1; cbn [fst snd];
      [|rewrite E2; cbn [fst snd]]; rewrite He; reflexivity. }
  assert (Hst : state_of (V1_0.detect_anomalies 0 m)
                = V1_0.set_speed_history
                    (Py.append (V1_0.speed_history m) 0%Z) m
                /\ events_of (V1_0.detect_anomalies 0 m) = []).
  { unfold V1_0.detect_anomalies. run_monad.
    cbn [V1_0.speed_history V1_0.set_speed_history].
    destruct (Py.len _ <? 10)%Z; [split; reflexivity|].
    destruct (Py.int_truediv _ _); [|split; reflexivity].
    destruct (Py.float_truediv_int _ _); split; reflexivity. }
  split; [exact Hget|]. split.
  - unfold V1_0.monitor_body, bind at 1. rewrite Hget.
    unfold bind at 1. unfold emit at 1. cbn [Z.add].
    destruct (bind (V1_0.detect_anomalies 0) _ m) as [[r m2] out2].
    unfold events_of. cbn [fst snd app]. eexists. reflexivity.
  - intros Hno. destruct Hst as [Hst Hout].
    assert (Hbody : V1_0.monitor_body w m
                    = (Ret tt,
                       V1_0.set_speed_history
                         (Py.append (V1_0.speed_history m) 0%Z) m,
                       [logging_error (Error_getting_network_speed e);
                        logging_info (Network_activity 0);
                        time_sleep 1])).
    { unfold V1_0.monitor_body, bind. rewrite Hget. unfold emit. cbn [Z.add].
      destruct (V1_0.detect_anomalies 0 m) as [[r m1] out1].
      unfold result_of, state_of, events_of in *. cbn [fst snd] in *.
      subst r m1 out1. reflexivity. }
    split; [exact Hbody|].
    intros ws. split; [reflexivity|].
    cbn [V1_0.monitor_loop]. unfold bind at 1. rewrite Hbody.
    destruct (V1_0.monitor_loop ws _) as [[r m2] out2].
    unfold events_of. cbn [fst snd]. eexists. split; reflexivity.
Qed.

End Sampler.

(** ** Stopping the loop *)

Section Stop.

Context `{Builtins}.

Lemma exec_app (s1 s2 : list V1_5.action) (t : V1_5.thread) :
  V1_5.exec (s1 ++ s2) t
  = (fst (V1_5.exec s2 (fst (V1_5.exec s1 t))),
     snd (V1_5.exec s1 t) ++ snd (V1_5.exec s2 (fst (V1_5.exec s1 t)))).
Proof.
  revert t. induction s1 as [|a rest IH]; intros t; cbn [app V1_5.exec].
  - cbn [fst snd app]. now destruct (V1_5.exec s2 t).
  - destruct (V1_5.step a t) as [t1 out1]. rewrite IH.
    destruct (V1_5.exec rest t1) as [t2 out2]. cbn [fst snd].
    now rewrite app_assoc.
Qed.

Lemma activity_count_app (l1 l2 : list event) :
  activity_count (l1 ++ l2) = activity_count l1 + activity_count l2.
Proof. unfold activity_count. now rewrite filter_app, length_app. Qed.

Lemma activity_count_none (l : list event) :
  forallb (fun ev => negb (is_activity ev)) l = true -> activity_count l = 0.
Proof.
  unfold activity_count.
  induction l as [|ev rest IH]; cbn [forallb filter]; [reflexivity|].
  intros E. apply andb_prop in E. destruct E as [E1 E2].
  destruct (is_activity ev); [discriminate E1 | exact (IH E2)].
Qed.

Lemma no_activity_exists (l : list event) :
  activity_count l = 0 -> existsb is_activity l = false.
Proof.
  unfold activity_count.
  induction l as [|ev rest IH]; cbn [existsb filter]; [reflexivity|].
  destruct (is_activity ev); cbn; [discriminate | exact IH].
Qed.

Lemma activity_after_sleep_app (l1 l2 : list event) :
  forallb (fun ev => negb (is_sleep ev)) l1 = true ->
  activity_after_sleep (l1 ++ l2) = activity_after_sleep l2.
Proof.
  induction l1 as [|ev rest IH]; cbn [forallb app activity_after_sleep];
    [reflexivity|].
  intros E. apply andb_prop in E. destruct E as [E1 E2].
  destruct (is_sleep ev); [discriminate E1 | exact (IH E2)].
Qed.

Lemma off_tick_no_activity (l : list event) :
  forallb off_tick l = true ->
  forallb (fun ev => negb (is_activity ev)) l = true.
Proof.
  apply forallb_weaken. unfold off_tick. intros ev E.
  now apply andb_prop in E.
Qed.

Lemma off_tick_no_sleep (l : list event) :
  forallb off_tick l = true ->
  forallb (fun ev => negb (is_sleep ev)) l = true.
Proof.
  apply forallb_weaken. unfold off_tick. intros ev E.
  now apply andb_prop in E.
Qed.

Lemma run_sample_activity (w : world) (m : V1_5.NetworkMonitor) :
  activity_count (events_of (V1_5.run_sample w m)) <= 1.
Proof.
  unfold V1_5.run_sample, V1_5.get_network_speed. run_monad.
  destruct (net_io_counters_1 w); cbn; [|lia].
  destruct (net_io_counters_2 w); cbn; lia.
Qed.

Lemma run_sleep_events (m : V1_5.NetworkMonitor) :
  V1_5.run_sleep m = (Ret tt, m, [time_sleep (V1_5.check_interval m)]).
Proof. reflexivity. Qed.

(** A step of a method, as the thread takes it: the frame is kept, the
    events are the method's, and the thread is at the next point or dead. *)
Lemma advance_respects {A} (P : event -> bool) (c : M V1_5.NetworkMonitor A)
  (m : V1_5.NetworkMonitor) (next : A -> V1_5.pc) :
  respects P c ->
  frame m (V1_5.self (fst (V1_5.advance (c m) next)))
  /\ snd (V1_5.advance (c m) next) = events_of (c m)
  /\ forallb P (snd (V1_5.advance (c m) next)) = true
  /\ ((exists a, V1_5.at_pc (fst (V1_5.advance (c m) next)) = next a)
      \/ (exists e, V1_5.at_pc (fst (V1_5.advance (c m) next)) = V1_5.died e)).
Proof.
  intros Hc. destruct (Hc m) as [Hf Ho].
  unfold V1_5.advance, state_of, events_of in *.
  destruct (c m) as [[[a|e] m1] out]; cbn [fst snd V1_5.self V1_5.at_pc] in *.
  - split; [exact Hf|]. split; [reflexivity|]. split; [exact Ho|].
    left. now exists a.
  - split; [exact Hf|]. split; [reflexivity|]. split; [exact Ho|].
    right. now exists e.
Qed.

Lemma frame_running (m m' : V1_5.NetworkMonitor) :
  frame m m' -> V1_5.running m' = V1_5.running m.
Proof. now intros [R _]. Qed.

(** One step taken with the flag off: it stays off, the thread is nearer
    its exit, and what is emitted fits what the point allows. *)
Lemma step_after_stop (a : V1_5.action) (t : V1_5.thread) :
  V1_5.running (V1_5.self t) = false ->
  V1_5.running (V1_5.self (fst (V1_5.step a t))) = false
  /\ activity_count (snd (V1_5.step a t))
     + activity_budget (V1_5.at_pc (fst (V1_5.step a t)))
     <= activity_budget (V1_5.at_pc t)
  /\ (forallb (fun ev => negb (is_sleep ev)) (snd (V1_5.step a t)) = true
      \/ (activity_budget (V1_5.at_pc (fst (V1_5.step a t))) = 0
          /\ exists secs, snd (V1_5.step a t) = [time_sleep secs]))
  /\ (forall w, a = V1_5.thread_runs w ->
      steps_to_exit (V1_5.at_pc (fst (V1_5.step a t)))
      <= pred (steps_to_exit (V1_5.at_pc t))).
Proof.
  intros Hoff. destruct t as [m p]. cbn [V1_5.self V1_5.at_pc] in *.
  destruct a as [w|]; cbn [V1_5.step].
  2:{ unfold V1_5.stop, modify, state_of, events_of.
      cbn [fst snd V1_5.self V1_5.at_pc V1_5.running V1_5.set_running
           activity_count filter List.length forallb].
      repeat split; auto. intros w E. discriminate E. }
  unfold V1_5.thread_step. cbn [V1_5.self V1_5.at_pc].
  destruct p as [| |total| | |e].
  - rewrite Hoff. cbn. repeat split; auto.
  - destruct (advance_respects _ _ m V1_5.at_detect (respects_run_sample w))
      as (Hf & Hev & Hns & Hpc).
    pose proof (run_sample_activity w m) as Hact. rewrite <- Hev in Hact.
    rewrite (frame_running _ _ Hf).
    destruct Hpc as [[x ->]|[x ->]]; cbn [activity_budget steps_to_exit];
      repeat split; auto; try lia.
  - destruct (advance_respects _ _ m (fun _ => V1_5.at_sleep)
                (respects_run_detect w total)) as (Hf & Hev & Hot & Hpc).
    rewrite (frame_running _ _ Hf).
    rewrite (activity_count_none _ (off_tick_no_activity _ Hot)).
    pose proof (off_tick_no_sleep _ Hot) as Hns.
    destruct Hpc as [[x ->]|[x ->]]; cbn [activity_budget steps_to_exit];
      repeat split; auto; try lia.
  - rewrite run_sleep_events.
    cbn [V1_5.advance fst snd V1_5.self V1_5.at_pc activity_budget
         steps_to_exit].
    repeat split; auto.
    right. split; [reflexivity|]. eexists. reflexivity.
  - cbn. repeat split; auto.
  - cbn. repeat split; auto.
Qed.

(** Any schedule run with the flag off. *)
Lemma exec_after_stop (sched : list V1_5.action) :
  forall t : V1_5.thread,
    V1_5.running (V1_5.self t) = false ->
    V1_5.running (V1_5.self (fst (V1_5.exec sched t))) = false
    /\ activity_count (snd (V1_5.exec sched t))
       <= activity_budget (V1_5.at_pc t)
    /\ activity_after_sleep (snd (V1_5.exec sched t)) = false.
Proof.
  induction sched as [|a rest IH]; intros t Hoff; cbn [V1_5.exec].
  - cbn. repeat split; auto. lia.
  - destruct (step_after_stop a t Hoff) as (Hoff1 & Hbud & Hshape & _).
    destruct (V1_5.step a t) as [t1 out1]. cbn [fst snd] in *.
    destruct (IH t1 Hoff1) as (Hoff2 & Hcount & Hafter).
    destruct (V1_5.exec rest t1) as [t2 out2]. cbn [fst snd] in *.
    rewrite activity_count_app.
    split; [exact Hoff2|]. split; [lia|].
    destruct Hshape as [Hns|[Hzero [secs ->]]].
    + now rewrite activity_after_sleep_app.
    + cbn [app activity_after_sleep is_sleep].
      apply no_activity_exists. lia.
Qed.

Lemma exec_steps_to_exit (ws : list world) :
  forall t : V1_5.thread,
    V1_5.running (V1_5.self t) = false ->
    steps_to_exit
      (V1_5.at_pc (fst (V1_5.exec (map V1_5.thread_runs ws) t)))
    <= steps_to_exit (V1_5.at_pc t) - List.length ws.
Proof.
  induction ws as [|w rest IH]; intros t Hoff; cbn [map V1_5.exec].
  - cbn. lia.
  - destruct (step_after_stop (V1_5.thread_runs w) t Hoff)
      as (Hoff1 & _ & _ & Hnear).
    specialize (Hnear w eq_refl).
    destruct (V1_5.step (V1_5.thread_runs w) t) as [t1 out1].
    cbn [fst snd] in *.
    specialize (IH t1 Hoff1).
    destruct (V1_5.exec (map V1_5.thread_runs rest) t1) as [t2 out2].
    cbn [fst snd List.length] in *. lia.
Qed.

Lemma steps_to_exit_zero (p : V1_5.pc) :
  steps_to_exit p = 0 -> is_over p = true.
Proof. destruct p; cbn; intros E; try discriminate E; reflexivity. Qed.

(** Once [run] is over, nothing more happens on the thread. *)
Lemma exec_when_over (sched : list V1_5.action) :
  forall t : V1_5.thread,
    is_over (V1_5.at_pc t) = true ->
    V1_5.at_pc (fst (V1_5.exec sched t)) = V1_5.at_pc t
    /\ snd (V1_5.exec sched t) = [].
Proof.
  induction sched as [|a rest IH]; intros t Hover; cbn [V1_5.exec].
  - split; reflexivity.
  - assert (Hstep : V1_5.at_pc (fst (V1_5.step a t)) = V1_5.at_pc t
                    /\ snd (V1_5.step a t) = []).
    { destruct t as [m p]. cbn [V1_5.at_pc] in Hover.
      destruct a as [w|]; cbn [V1_5.step V1_5.thread_step V1_5.at_pc];
        [|split; reflexivity].
      destruct p; try discriminate Hover; split; reflexivity. }
    destruct (V1_5.step a t) as [t1 out1]. cbn [fst snd] in Hstep.
    destruct Hstep as [Hpc ->].
    rewrite <- Hpc in Hover. destruct (IH t1 Hover) as [Hpc2 Hout2].
    destruct (V1_5.exec rest t1) as [t2 out2]. cbn [fst snd] in *.
    subst out2. split; [congruence | reflexivity].
Qed.

(** C8. After [stop()], whatever happened before and however the two
    threads are scheduled afterwards: the flag stays off; at most one more
    activity event is emitted, none at all unless the stop fell between
    the loop test and the sample, and none once a sleep has ended, that is,
    none later than the tick in progress; four steps of the thread are
    enough for [run] to be over; once it is over the thread emits nothing
    more, ever; and starting the stopped monitor's thread again emits no
    activity event either. *)
Theorem stop_ends_the_loop
  (t0 : V1_5.thread) (before after more : list V1_5.action)
  (w1 w2 w3 w4 : world) :
  let t1 := fst (V1_5.exec (before ++ [V1_5.controller_stops]) t0) in
  let t2 := fst (V1_5.exec after t1) in
  let out := snd (V1_5.exec after t1) in
  let t4 := fst (V1_5.exec (map V1_5.thread_runs [w1; w2; w3; w4]) t1) in
  V1_5.running (V1_5.self t1) = false
  /\ V1_5.running (V1_5.self t2) = false
  /\ activity_count out <= 1
  /\ (V1_5.at_pc t1 <> V1_5.at_sample -> activity_count out = 0)
  /\ activity_after_sleep out = false
  /\ is_over (V1_5.at_pc t4) = true
  /\ snd (V1_5.exec more t4) = []
  /\ V1_5.at_pc (fst (V1_5.exec more t4)) = V1_5.at_pc t4
  /\ activity_count (snd (V1_5.exec more (V1_5.start (V1_5.self t2)))) = 0.
Proof.
  intros t1 t2 out t4.
  assert (Hoff : V1_5.running (V1_5.self t1) = false).
  { subst t1. rewrite exec_app. cbn [fst snd V1_5.exec V1_5.step].
    reflexivity. }
  destruct (exec_after_stop after t1 Hoff) as (Hoff2 & Hcount & Hafter).
  fold t2 in Hoff2. fold out in Hcount, Hafter.
  assert (Hover : is_over (V1_5.at_pc t4) = true).
  { apply steps_to_exit_zero.
    pose proof (exec_steps_to_exit [w1; w2; w3; w4] t1 Hoff) as Hnear.
    fold t4 in Hnear. cbn [List.length] in Hnear.
    assert (steps_to_exit (V1_5.at_pc t1) <= 4)
      by (destruct (V1_5.at_pc t1); cbn; lia).
    lia. }
  destruct (exec_when_over more t4 Hover) as [Hpc Hnone].
  destruct (exec_after_stop more (V1_5.start (V1_5.self t2)) Hoff2)
    as (_ & Hagain & _).
  cbn [V1_5.start V1_5.at_pc activity_budget] in Hagain.
  repeat split; auto; try lia.
  - destruct (V1_5.at_pc t1); cbn [activity_budget] in Hcount; lia.
  - intros Hnot.
    destruct (V1_5.at_pc t1); cbn [activity_budget] in Hcount;
      try lia. contradiction.
Qed.

End Stop.

(** ** The windows under every schedule *)

Section Capacity.

Context `{Builtins}.

Lemma windows_kept_refl (m : V1_5.NetworkMonitor) : windows_kept m m.
Proof. unfold windows_kept. auto. Qed.

Lemma frame_windows_kept (m m' : V1_5.NetworkMonitor) :
  frame m m' -> windows_kept m m'.
Proof.
  unfold frame, windows_kept, within_capacity.
  intros (_ & _ & _ & _ & S1 & L1 & BS & BL).
  split; [exact S1|]. split; [exact L1|].
  intros [Hs Hl]. split; auto.
Qed.

Lemma step_windows_kept (a : V1_5.action) (t : V1_5.thread) :
  windows_kept (V1_5.self t) (V1_5.self (fst (V1_5.step a t))).
Proof.
  destruct t as [m p]. cbn [V1_5.self].
  destruct a as [w|]; cbn [V1_5.step];
    [|unfold V1_5.stop, modify, state_of, windows_kept, within_capacity;
      cbn; auto].
  unfold V1_5.thread_step. cbn [V1_5.self V1_5.at_pc].
  destruct p as [| |total| | |e];
    try (cbn; apply windows_kept_refl).
  - destruct (V1_5.running m); cbn; apply windows_kept_refl.
  - apply frame_windows_kept.
    apply (advance_respects _ _ m V1_5.at_detect (respects_run_sample w)).
  - apply frame_windows_kept.
    apply (advance_respects _ _ m (fun _ => V1_5.at_sleep)
             (respects_run_detect w total)).
Qed.

Lemma exec_windows_kept (sched : list V1_5.action) :
  forall t : V1_5.thread,
    windows_kept (V1_5.self t) (V1_5.self (fst (V1_5.exec sched t))).
Proof.
  induction sched as [|a rest IH]; intros t; cbn [V1_5.exec].
  - apply windows_kept_refl.
  - pose proof (step_windows_kept a t) as (S1 & L1 & B1).
    destruct (V1_5.step a t) as [t1 out1]. cbn [fst] in *.
    specialize (IH t1). destruct IH as (S2 & L2 & B2).
    destruct (V1_5.exec rest t1) as [t2 out2]. cbn [fst] in *.
    unfold windows_kept.
    split; [congruence|]. split; [congruence|]. auto.
Qed.

(** C3. Fed any sequence of samples, the speed window of a new monitor
    holds exactly the last [history_size] of them, in order, and so never
    more than [history_size] (60 by default); run on any sequence of
    worlds, the latency probe leaves in the latency window exactly the last
    10 latencies it reported, and so never more than 10; and however the
    monitor's thread and its controller are scheduled, neither window ever
    holds more than its capacity. *)
Theorem windows_bounded_fifo
  (ip : string) (threshold interval : float) (history_size : nat)
  (sent recv : Z) (totals : list Z) (ws : list world)
  (sched : list V1_5.action) :
  let m0 := fresh_monitor ip threshold interval history_size sent recv in
  let speed_window :=
    Py.items (V1_5.speed_history
                (snd (fst (call_each V1_5.detect_anomalies totals m0)))) in
  let latency_window :=
    Py.items (V1_5.connection_history
                (snd (fst (call_each V1_5.check_latency ws m0)))) in
  speed_window = lastn history_size totals
  /\ List.length speed_window <= history_size
  /\ latency_window
     = lastn 10 (latencies_reported
                   (snd (call_each V1_5.check_latency ws m0)))
  /\ List.length latency_window <= 10
  /\ Py.maxlen (V1_5.speed_history (fresh_monitor ip threshold interval
                                      V1_5.default_history_size sent recv))
     = 60
  /\ (let m := V1_5.self (fst (V1_5.exec sched (V1_5.start m0))) in
      List.length (Py.items (V1_5.speed_history m)) <= history_size
      /\ List.length (Py.items (V1_5.connection_history m)) <= 10).
Proof.
  intros m0 speed_window latency_window.
  assert (Hs : speed_window = lastn history_size totals).
  { subst speed_window.
    rewrite (speed_window_fifo totals m0 []); reflexivity. }
  assert (Hl : latency_window
               = lastn 10 (latencies_reported
                             (snd (call_each V1_5.check_latency ws m0)))).
  { subst latency_window.
    rewrite (latency_window_fifo ws m0 []); reflexivity. }
  assert (Hk : within_capacity
                 (V1_5.self (fst (V1_5.exec sched (V1_5.start m0))))
               /\ Py.maxlen (V1_5.speed_history
                               (V1_5.self
                                  (fst (V1_5.exec sched (V1_5.start m0)))))
                  = history_size
               /\ Py.maxlen (V1_5.connection_history
                               (V1_5.self
                                  (fst (V1_5.exec sched (V1_5.start m0)))))
                  = 10).
  { destruct (exec_windows_kept sched (V1_5.start m0)) as (S1 & L1 & B1).
    split; [|split]; [apply B1; split; cbn; lia | exact S1 | exact L1]. }
  destruct Hk as ([Bs Bl] & S1 & L1). rewrite S1 in Bs. rewrite L1 in Bl.
  repeat split; try assumption.
  - rewrite Hs, lastn_length. lia.
  - rewrite Hl, lastn_length. lia.
Qed.


End Capacity.

(** ** Concrete runs

    The theorems above at explicit inputs, run with the reference
    interpreter. *)

Section Runs.

Local Existing Instance Reference.builtins.

Local Open Scope string_scope.

(** The specification's scenario for the detector: nine samples of 100 and
    then 100000, with the default threshold. *)
Example detector_nine_quiet_then_spike :
  fst (fst (call_each V1_5.detect_anomalies
              (repeat 100%Z 9 ++ [100000%Z])%list Scenario.monitor))
  = (repeat (Ret false) 9 ++ [Ret true])%list.
Proof. vm_compute. reflexivity. Qed.

(** The specification's scenario for the probes: the latency probe
    measures 20 ms, the packet-loss probe times out; both outcomes are
    reported and the verdict is computed. *)
Example troubleshoot_latency_ok_packet_loss_timeout :
  V1_5.troubleshoot Scenario.packet_loss_times_out Scenario.monitor
  = (Ret tt,
     V1_5.set_connection_history (Py.mkdeque [20%float] 10) Scenario.monitor,
     [update_signal DNS_resolution_OK;
      update_signal (Latency_to "10.0.0.1" 20);
      update_signal (Packet_loss_test_timed_out "10.0.0.1");
      update_signal (HTTP_response_from "http://www.google.com" 200);
      update_signal (Download_speed 100);
      update_signal (Upload_speed 20);
      update_signal (Connection_stability InsufficientData)]).
Proof. vm_compute. reflexivity. Qed.

(** On the statistics line [ping] prints, [line.split()[0:3:2]] selects
    the fields ["4"] and ["transmitted,"]; the second is no integer, so the
    packet-loss probe of v1.5 reports an error instead of a loss. *)
Example check_packet_loss_on_ping_statistics :
  Py.slice_0_3_2
    (Py.split_ws
       "4 packets transmitted, 4 received, 0% packet loss, time 3004ms")
  = ["4"; "transmitted,"]
  /\ V1_5.check_packet_loss Scenario.healthy Scenario.monitor
     = (Ret tt, Scenario.monitor,
        [update_signal (Error_checking_packet_loss ValueError)]).
Proof. split; vm_compute; reflexivity. Qed.

Lemma detect_anomalies_threshold_test_at_spike :
  result_of (V1_5.detect_anomalies 100000 Scenario.warm_monitor) = Ret true
  /\ result_of (V1_5.detect_anomalies 100 Scenario.warm_monitor) = Ret false.
Proof.
  split.
  - destruct (detect_anomalies_threshold_test Scenario.warm_monitor 100000)
      as (_ & Hiff & _); [cbn; lia|].
    apply Hiff. vm_compute. reflexivity.
  - destruct (detect_anomalies_threshold_test Scenario.warm_monitor 100)
      as (_ & _ & Htie); [cbn; lia|].
    apply Htie. vm_compute. reflexivity.
Defined.

Lemma detect_anomalies_cold_start_at_spikes :
  V1_5.detect_anomalies 100000 Scenario.monitor
  = (Ret false,
     V1_5.set_speed_history (Py.mkdeque [100000%Z] 60) Scenario.monitor, [])
  /\ nth_error
       (fst (fst (call_each V1_5.detect_anomalies
                    (repeat 100000%Z 12) Scenario.monitor))) 8
     = Some (Ret false).
Proof.
  destruct (detect_anomalies_cold_start Scenario.monitor 100000
              (repeat 100000%Z 12)) as [Hone Hseq].
  split.
  - apply Hone. cbn. lia.
  - apply Hseq; [reflexivity | lia | cbn; lia].
Defined.

Lemma analyze_connection_stability_at_boundaries :
  result_of (V1_5.analyze_connection_stability
               (Scenario.with_latencies [10; 15; 20; 25; 30]%float))
  = Ret Moderate
  /\ result_of (V1_5.analyze_connection_stability
                  (Scenario.with_latencies [0; 20; 40; 60; 80]%float))
     = Ret Unstable
  /\ result_of (V1_5.analyze_connection_stability
                  (Scenario.with_latencies [20; 21; 19; 20; 20]%float))
     = Ret Stable
  /\ result_of (V1_5.analyze_connection_stability
                  (Scenario.with_latencies [20; 21; 19; 20]%float))
     = Ret InsufficientData.
Proof.
  split; [|split; [|split]].
  - destruct (analyze_connection_stability_verdicts
                (Scenario.with_latencies [10; 15; 20; 25; 30]%float))
      as (_ & Hge).
    destruct Hge as (_ & _ & _ & Hfive & _); [cbn; lia|].
    apply Hfive. vm_compute. reflexivity.
  - destruct (analyze_connection_stability_verdicts
                (Scenario.with_latencies [0; 20; 40; 60; 80]%float))
      as (_ & Hge).
    destruct Hge as (_ & _ & _ & _ & Htwenty); [cbn; lia|].
    apply Htwenty. vm_compute. reflexivity.
  - destruct (analyze_connection_stability_verdicts
                (Scenario.with_latencies [20; 21; 19; 20; 20]%float))
      as (_ & Hge).
    destruct Hge as (Hstable & _); [cbn; lia|].
    apply Hstable. vm_compute. reflexivity.
  - destruct (analyze_connection_stability_verdicts
                (Scenario.with_latencies [20; 21; 19; 20]%float))
      as (Hfew & _).
    apply Hfew. cbn. lia.
Defined.

Lemma packet_loss_guarded_at_counts :
  V1_5.packet_loss 10 7 = Ret (Py.Float 30)
  /\ V1_5.packet_loss 0 0 = Ret (Py.Int 0).
Proof.
  split.
  - destruct (packet_loss_guarded 10 7) as (Hpos & _).
    rewrite Hpos by lia. vm_compute. reflexivity.
  - destruct (packet_loss_guarded 0 0) as (_ & Hzero & _).
    apply Hzero. reflexivity.
Defined.

Lemma stop_ends_the_loop_mid_tick :
  let t1 :=
    fst (V1_5.exec [V1_5.thread_runs Scenario.healthy; V1_5.controller_stops]
           (V1_5.start Scenario.monitor)) in
  let out :=
    snd (V1_5.exec (map V1_5.thread_runs (repeat Scenario.healthy 6)) t1) in
  V1_5.at_pc t1 = V1_5.at_sample
  /\ activity_count out <= 1
  /\ activity_after_sleep out = false.
Proof.
  split; [reflexivity|].
  pose proof (stop_ends_the_loop (V1_5.start Scenario.monitor)
                [V1_5.thread_runs Scenario.healthy]
                (map V1_5.thread_runs (repeat Scenario.healthy 6)) []
                Scenario.healthy Scenario.healthy Scenario.healthy
                Scenario.healthy) as Hstop.
  cbv zeta in Hstop. destruct Hstop as (_ & _ & Hcount & _ & Hafter & _).
  split; [exact Hcount | exact Hafter].
Defined.

Lemma troubleshoot_runs_every_probe_on_timeout :
  result_of (V1_5.troubleshoot Scenario.packet_loss_times_out
               Scenario.monitor) = Ret tt.
Proof.
  refine (proj1 (troubleshoot_runs_every_probe
                   Scenario.packet_loss_times_out Scenario.monitor _)).
  unfold anticipated.
  repeat split; intros e E; vm_compute in E;
    try discriminate E; injection E as <-; reflexivity.
Defined.

Lemma sampler_v1_0_returns_zero_sample_at_unreadable :
  V1_0.get_network_speed Scenario.counters_unreadable Scenario.monitor_v1_0
  = (Ret (0, 0)%Z, Scenario.monitor_v1_0,
     [logging_error (Error_getting_network_speed OSError)]).
Proof.
  refine (proj1 (sampler_v1_0_returns_zero_sample
                   Scenario.counters_unreadable Scenario.monitor_v1_0
                   OSError eq_refl (or_introl eq_refl))).
Defined.

End Runs.

(** * More of the code

    Properties of the sampler, the loops, the parsers, the probes and the
    window beyond those the specification states. *)

(** ** The sampler over a sequence of ticks *)

Section SamplerSequences.

Context `{Builtins}.

Lemma get_network_speed_v1_5_run (w : world) (m : V1_5.NetworkMonitor) :
  V1_5.get_network_speed w m
  = match net_io_counters_1 w, net_io_counters_2 w with
    | Ret c1, Ret c2 =>
        (Ret ((bytes_sent c1 - V1_5.previous_bytes_sent m)%Z,
              (bytes_recv c2 - V1_5.previous_bytes_recv m)%Z),
         V1_5.set_previous_bytes_recv (bytes_recv c2)
           (V1_5.set_previous_bytes_sent (bytes_sent c1) m),
         [])
    | Raise e, _ => (Raise e, m, [])
    | Ret _, Raise e => (Raise e, m, [])
    end.
Proof.
  unfold V1_5.get_network_speed. run_monad.
  destruct (net_io_counters_1 w) as [c1|e]; cbn [fst snd]; [|reflexivity].
  destruct (net_io_counters_2 w) as [c2|e]; reflexivity.
Qed.

Lemma get_network_speed_v1_0_run (w : world) (m : V1_0.NetworkMonitor) :
  V1_0.get_network_speed w m
  = match net_io_counters_1 w, net_io_counters_2 w with
    | Ret c1, Ret c2 =>
        (Ret ((bytes_sent c1 - V1_0.previous_bytes_sent m)%Z,
              (bytes_recv c2 - V1_0.previous_bytes_recv m)%Z),
         V1_0.set_previous_bytes_recv (bytes_recv c2)
           (V1_0.set_previous_bytes_sent (bytes_sent c1) m),
         [])
    | Raise e, _ | Ret _, Raise e =>
        if is_Exception e
        then (Ret (0, 0)%Z, m,
              [logging_error (Error_getting_network_speed e)])
        else (Raise e, m, [])
    end.
Proof.
  unfold V1_0.get_network_speed, try_except, except_Exception. run_monad.
  destruct (net_io_counters_1 w) as [c1|e]; cbn [fst snd].
  - destruct (net_io_counters_2 w) as [c2|e]; cbn [fst snd];
      [reflexivity|]. destruct (is_Exception e); reflexivity.
  - destruct (is_Exception e); reflexivity.
Qed.

Lemma telescope_v1_5 (ws : list world) :
  forall m : V1_5.NetworkMonitor,
    (V1_5.previous_bytes_sent
       (snd (fst (call_each V1_5.get_network_speed ws m)))
     = V1_5.previous_bytes_sent m
       + fst (deltas_total
                (fst (fst (call_each V1_5.get_network_speed ws m)))))%Z
    /\ (V1_5.previous_bytes_recv
          (snd (fst (call_each V1_5.get_network_speed ws m)))
        = V1_5.previous_bytes_recv m
          + snd (deltas_total
                   (fst (fst (call_each V1_5.get_network_speed ws m)))))%Z.
Proof.
  induction ws as [|w rest IH]; intros m; cbn [call_each].
  - cbn. lia.
  - rewrite get_network_speed_v1_5_run.
    destruct (net_io_counters_1 w) as [c1|e];
      [destruct (net_io_counters_2 w) as [c2|e]|];
      match goal with
      | |- context [call_each _ rest ?m1] =>
          specialize (IH m1); destruct (call_each _ rest m1) as [[rs m2] out2]
      end;
      cbn [fst snd deltas_total fold_right] in *;
      cbn [V1_5.previous_bytes_sent V1_5.previous_bytes_recv
           V1_5.set_previous_bytes_sent V1_5.set_previous_bytes_recv] in IH;
      fold (deltas_total rs) in *; lia.
Qed.

Lemma telescope_v1_0 (ws : list world) :
  forall m : V1_0.NetworkMonitor,
    (V1_0.previous_bytes_sent
       (snd (fst (call_each V1_0.get_network_speed ws m)))
     = V1_0.previous_bytes_sent m
       + fst (deltas_total
                (fst (fst (call_each V1_0.get_network_speed ws m)))))%Z
    /\ (V1_0.previous_bytes_recv
          (snd (fst (call_each V1_0.get_network_speed ws m)))
        = V1_0.previous_bytes_recv m
          + snd (deltas_total
                   (fst (fst (call_each V1_0.get_network_speed ws m)))))%Z.
Proof.
  induction ws as [|w rest IH]; intros m; cbn [call_each].
  - cbn. lia.
  - rewrite get_network_speed_v1_0_run.
    destruct (net_io_counters_1 w) as [c1|e];
      [destruct (net_io_counters_2 w) as [c2|e]|];
      try destruct (is_Exception e);
      match goal with
      | |- context [call_each _ rest ?m1] =>
          specialize (IH m1); destruct (call_each _ rest m1) as [[rs m2] out2]
      end;
      cbn [fst snd deltas_total fold_right] in *;
      cbn [V1_0.previous_bytes_sent V1_0.previous_bytes_recv
           V1_0.set_previous_bytes_sent V1_0.set_previous_bytes_recv] in IH;
      fold (deltas_total rs) in *; lia.
Qed.

(** Over any sequence of ticks, whatever the counters answer, the deltas
    the sampler reports add up to the movement of its baseline: nothing is
    counted twice and nothing is dropped.  A read that fails reports
    nothing and leaves the baseline where it was, in v1.5 (where it raises)
    as in v1.0 (where it returns [(0, 0)]), so the traffic of a failed tick
    is reported by the next tick that succeeds.  After a tick whose two
    reads succeed, the baseline is that tick's readings. *)
Theorem sampler_deltas_add_up
  (ws : list world) (m : V1_5.NetworkMonitor) (m0 : V1_0.NetworkMonitor)
  (w : world) (c1 c2 : snetio) :
  let after := call_each V1_5.get_network_speed ws m in
  let after0 := call_each V1_0.get_network_speed ws m0 in
  (V1_5.previous_bytes_sent (snd (fst after))
   = V1_5.previous_bytes_sent m + fst (deltas_total (fst (fst after))))%Z
  /\ (V1_5.previous_bytes_recv (snd (fst after))
      = V1_5.previous_bytes_recv m + snd (deltas_total (fst (fst after))))%Z
  /\ (V1_0.previous_bytes_sent (snd (fst after0))
      = V1_0.previous_bytes_sent m0
        + fst (deltas_total (fst (fst after0))))%Z
  /\ (V1_0.previous_bytes_recv (snd (fst after0))
      = V1_0.previous_bytes_recv m0
        + snd (deltas_total (fst (fst after0))))%Z
  /\ (net_io_counters_1 w = Ret c1 -> net_io_counters_2 w = Ret c2 ->
      V1_5.previous_bytes_sent (state_of (V1_5.get_network_speed w m))
      = bytes_sent c1
      /\ V1_5.previous_bytes_recv (state_of (V1_5.get_network_speed w m))
         = bytes_recv c2
      /\ V1_0.previous_bytes_sent (state_of (V1_0.get_network_speed w m0))
         = bytes_sent c1
      /\ V1_0.previous_bytes_recv (state_of (V1_0.get_network_speed w m0))
         = bytes_recv c2).
Proof.
  intros after after0.
  destruct (telescope_v1_5 ws m) as [S5 R5].
  destruct (telescope_v1_0 ws m0) as [S0 R0].
  repeat (split; [assumption|]).
  intros E1 E2.
  rewrite get_network_speed_v1_5_run, get_network_speed_v1_0_run, E1, E2.
  repeat split.
Qed.

End SamplerSequences.

(** ** The loop of [run], step by step and as a whole *)

Section LoopAgreement.

Context `{Builtins}.

Lemma respects_run_body (w : world) :
  respects (fun _ => true) (V1_5.run_body w).
Proof.
  unfold V1_5.run_body.
  apply respects_bind;
    [exact (respects_weaken _ _ _ (fun _ _ => eq_refl)
              (respects_run_sample w))|intros total].
  apply respects_bind;
    [exact (respects_weaken _ _ _ (fun _ _ => eq_refl)
              (respects_run_detect w total))|intros _].
  exact (respects_weaken _ _ _ (fun _ _ => eq_refl) respects_run_sleep).
Qed.

(** A thread that is dead stays as it is while only it is scheduled. *)
Lemma exec_ticks_when_dead (ws : list world) (m : V1_5.NetworkMonitor)
  (e : exn) :
  V1_5.exec (flat_map tick_schedule ws) (V1_5.mkthread m (V1_5.died e))
  = (V1_5.mkthread m (V1_5.died e), []).
Proof.
  induction ws as [|w rest IH]; [reflexivity|].
  cbn [flat_map tick_schedule repeat app V1_5.exec V1_5.step
       V1_5.thread_step V1_5.at_pc].
  rewrite IH. reflexivity.
Qed.

(** The four steps of one iteration, taken with the flag on, do what the
    body of the loop does. *)
Lemma exec_tick (w : world) (m : V1_5.NetworkMonitor) :
  V1_5.running m = true ->
  V1_5.exec (tick_schedule w) (V1_5.start m)
  = (V1_5.mkthread (state_of (V1_5.run_body w m))
       (pc_after (result_of (V1_5.run_body w m))),
     events_of (V1_5.run_body w m)).
Proof.
  intros Hon. unfold tick_schedule, V1_5.start, V1_5.run_body, bind.
  unfold result_of, state_of, events_of.
  cbn [repeat V1_5.exec V1_5.step].
  unfold V1_5.thread_step at 1. cbn [V1_5.at_pc V1_5.self]. rewrite Hon.
  unfold V1_5.thread_step at 1. cbn [V1_5.at_pc V1_5.self].
  destruct (V1_5.run_sample w m) as [[[total|e] m1] out1];
    cbn [V1_5.advance].
  - unfold V1_5.thread_step at 1. cbn [V1_5.at_pc V1_5.self].
    destruct (V1_5.run_detect w total m1) as [[[[]|e] m2] out2];
      cbn [V1_5.advance].
    + unfold V1_5.thread_step. cbn [V1_5.at_pc V1_5.self].
      rewrite run_sleep_events. cbn [V1_5.advance fst snd pc_after app].
      reflexivity.
    + unfold V1_5.thread_step. cbn [V1_5.at_pc V1_5.self fst snd pc_after app].
      now rewrite !app_nil_r.
  - unfold V1_5.thread_step. cbn [V1_5.at_pc V1_5.self fst snd pc_after app].
    now rewrite !app_nil_r.
Qed.

Lemma run_cons (w : world) (rest : list world) (m : V1_5.NetworkMonitor) :
  V1_5.running m = true ->
  V1_5.run (w :: rest) m
  = bind (V1_5.run_body w) (fun _ => V1_5.run rest) m.
Proof.
  intros Hon. cbn [V1_5.run]. unfold bind at 1. unfold gets.
  rewrite Hon.
  destruct (bind (V1_5.run_body w) (fun _ => V1_5.run rest) m)
    as [[r m2] out2].
  reflexivity.
Qed.

(** The two renderings of [run] agree: the step machine, scheduled alone
    from a monitor whose flag is on, goes through what [V1_5.run] does as
    a whole, with the same events in the same order and the same fields
    at the end. *)
Lemma run_step_by_step (ws : list world) (m : V1_5.NetworkMonitor) :
  V1_5.running m = true ->
  V1_5.exec (flat_map tick_schedule ws) (V1_5.start m)
  = (V1_5.mkthread (state_of (V1_5.run ws m))
       (pc_after (result_of (V1_5.run ws m))),
     events_of (V1_5.run ws m))
  /\ V1_5.running (state_of (V1_5.run ws m)) = true.
Proof.
  revert m. induction ws as [|w rest IH]; intros m Hon.
  - split; [reflexivity | exact Hon].
  - cbn [flat_map]. rewrite exec_app, (exec_tick w m Hon).
    rewrite (run_cons w rest m Hon).
    destruct (respects_run_body w m) as [Hf _].
    apply frame_running in Hf. rewrite Hon in Hf.
    unfold bind. unfold result_of, state_of, events_of in *.
    destruct (V1_5.run_body w m) as [[[[]|e] m1] out1];
      cbn [fst snd pc_after] in *.
    + destruct (IH m1 Hf) as [IHexec IHon].
      change (V1_5.mkthread m1 V1_5.at_while) with (V1_5.start m1).
      rewrite IHexec.
      destruct (V1_5.run rest m1) as [[r m2] out2]. cbn [fst snd] in *.
      split; [reflexivity | exact IHon].
    + rewrite exec_ticks_when_dead. cbn [fst snd].
      rewrite app_nil_r. split; [reflexivity | exact Hf].
Qed.

End LoopAgreement.

(** ** How [monitor] of v1.0 ends *)

Section MonitorEnds.

Context `{Builtins}.

Lemma monitor_loop_app (ws1 ws2 : list world) (m : V1_0.NetworkMonitor) :
  V1_0.monitor_loop (ws1 ++ ws2) m
  = bind (V1_0.monitor_loop ws1) (fun _ => V1_0.monitor_loop ws2) m.
Proof.
  revert m. induction ws1 as [|w rest IH]; intros m;
    cbn [app V1_0.monitor_loop].
  - unfold bind, ret. destruct (V1_0.monitor_loop ws2 m) as [[r m2] out2].
    reflexivity.
  - unfold bind at 1 2 3.
    destruct (V1_0.monitor_body w m) as [[[[]|e] m1] out1]; [|reflexivity].
    rewrite IH. unfold bind.
    destruct (V1_0.monitor_loop rest m1) as [[[[]|e] m2] out2];
      [|reflexivity].
    destruct (V1_0.monitor_loop ws2 m2) as [[r m3] out3].
    now rewrite app_assoc.
Qed.

(** [monitor] never lets an exception out, and the first one to leave an
    iteration ends the monitoring: with [KeyboardInterrupt] the last
    record says the user stopped it, with anything else it is an
    "Unexpected error"; no later tick is sampled, whatever the worlds
    after it would have answered. *)
Theorem monitor_ends_at_first_exception
  (ws1 ws2 : list world) (w : world) (m : V1_0.NetworkMonitor) (e : exn) :
  result_of (V1_0.monitor (ws1 ++ w :: ws2) m) = Ret tt
  /\ (result_of (V1_0.monitor_loop (ws1 ++ [w]) m) = Raise e ->
      V1_0.monitor (ws1 ++ w :: ws2) m
      = (Ret tt,
         state_of (V1_0.monitor_loop (ws1 ++ [w]) m),
         events_of (V1_0.monitor_loop (ws1 ++ [w]) m) ++ [last_record e])).
Proof.
  split.
  - unfold V1_0.monitor, try_except, orelse, except, except_Exception,
      result_of.
    destruct (V1_0.monitor_loop _ m) as [[[[]|e'] m1] out1];
      [reflexivity|].
    destruct e'; reflexivity.
  - intros Hraise.
    replace (ws1 ++ w :: ws2) with ((ws1 ++ [w]) ++ ws2)
      by (now rewrite <- app_assoc).
    unfold V1_0.monitor, try_except. rewrite monitor_loop_app.
    unfold bind at 1. unfold result_of, state_of, events_of in *.
    destruct (V1_0.monitor_loop (ws1 ++ [w]) m) as [[[[]|e'] m1] out1];
      cbn [fst snd] in *; [discriminate Hraise|].
    injection Hraise as ->.
    unfold orelse, except, except_Exception.
    destruct e; reflexivity.
Qed.

End MonitorEnds.

(** ** What the two [ping] parsers read *)

Section Parsers.

Context `{Builtins}.

Local Open Scope string_scope.

Lemma scan_lines_first_match (before after : list string) (line : string) :
  (forall l, In l before -> Py.contains "packets transmitted" l = false) ->
  Py.contains "packets transmitted" line = true ->
  V1_5.scan_lines (before ++ line :: after)%list
  = V1_5.unpack_counts (Py.slice_0_3_2 (Py.split_ws line)).
Proof.
  induction before as [|l rest IH]; intros Hno Hyes; cbn [app V1_5.scan_lines].
  - now rewrite Hyes.
  - rewrite (Hno l (or_introl eq_refl)). apply IH; [|exact Hyes].
    intros l' Hl'. apply Hno. now right.
Qed.

Lemma check_packet_loss_scanned
  (w : world) (m : V1_5.NetworkMonitor) (result : CompletedProcess) :
  subprocess_run w ["ping"; "-c"; "10"; V1_5.target_ip m] 15 = Ret result ->
  returncode result = 0%Z ->
  V1_5.check_packet_loss w m
  = match V1_5.scan_lines (Py.splitlines (stdout result)) with
    | Ret (sent, received) =>
        match V1_5.packet_loss sent received with
        | Ret loss =>
            (Ret tt, m,
             [update_signal (Packet_loss_to (V1_5.target_ip m) loss)])
        | Raise e =>
            (Ret tt, m, [update_signal (Error_checking_packet_loss e)])
        end
    | Raise e => (Ret tt, m, [update_signal (Error_checking_packet_loss e)])
    end.
Proof.
  intros Hrun Hcode.
  unfold V1_5.check_packet_loss, try_except, orelse, except, except_Exception.
  run_monad. rewrite Hrun. cbn [fst snd]. rewrite Hcode. cbn [Z.eqb fst snd].
  destruct (V1_5.scan_lines _) as [[sent received]|e] eqn:Es; cbn [fst snd].
  - destruct (packet_loss_returns sent received) as [loss ->]. reflexivity.
  - rewrite (scan_lines_raises _ _ Es). reflexivity.
Qed.

(** When [ping] exits with status 0, the packet-loss probe looks at the
    first line that contains ["packets transmitted"] and at nothing after
    it; it takes [sent] from the first white-space separated field of that
    line and [received] from the third, whatever the second and the later
    fields are.  When both are integers it reports the loss computed from
    them; when either is not, or the line has fewer than three fields, it
    reports a [ValueError].  In every case it returns normally and leaves
    the monitor as it was. *)
Theorem check_packet_loss_reads_fields_0_and_2
  (w : world) (m : V1_5.NetworkMonitor) (result : CompletedProcess)
  (before after : list string) (line : string) :
  subprocess_run w ["ping"; "-c"; "10"; V1_5.target_ip m] 15 = Ret result ->
  returncode result = 0%Z ->
  Py.splitlines (stdout result) = (before ++ line :: after)%list ->
  (forall l, In l before -> Py.contains "packets transmitted" l = false) ->
  Py.contains "packets transmitted" line = true ->
  (forall f0 f1 f2 rest sent received,
      Py.split_ws line = f0 :: f1 :: f2 :: rest ->
      int_of_str f0 = Some sent -> int_of_str f2 = Some received ->
      exists loss,
        V1_5.packet_loss sent received = Ret loss
        /\ V1_5.check_packet_loss w m
           = (Ret tt, m,
              [update_signal (Packet_loss_to (V1_5.target_ip m) loss)]))
  /\ (forall f0 f1 f2 rest,
         Py.split_ws line = f0 :: f1 :: f2 :: rest ->
         int_of_str f0 = None \/ int_of_str f2 = None ->
         V1_5.check_packet_loss w m
         = (Ret tt, m,
            [update_signal (Error_checking_packet_loss ValueError)]))
  /\ (List.length (Py.split_ws line) < 3 ->
      V1_5.check_packet_loss w m
      = (Ret tt, m, [update_signal (Error_checking_packet_loss ValueError)])).
Proof.
  intros Hrun Hcode Hlines Hno Hyes.
  pose proof (check_packet_loss_scanned w m result Hrun Hcode) as Hscan.
  rewrite Hlines, (scan_lines_first_match before after line Hno Hyes) in Hscan.
  split; [|split].
  - intros f0 f1 f2 rest sent received Hf H0 H2.
    rewrite Hf in Hscan. cbn [Py.slice_0_3_2 V1_5.unpack_counts] in Hscan.
    unfold py_int in Hscan. rewrite H0, H2 in Hscan. cbn [res_bind] in Hscan.
    destruct (packet_loss_returns sent received) as [loss Hloss].
    exists loss. split; [exact Hloss|]. now rewrite Hloss in Hscan.
  - intros f0 f1 f2 rest Hf Hbad.
    rewrite Hf in Hscan. cbn [Py.slice_0_3_2 V1_5.unpack_counts] in Hscan.
    unfold py_int in Hscan.
    destruct Hbad as [H0|H2].
    + now rewrite H0 in Hscan.
    + rewrite H2 in Hscan. destruct (int_of_str f0); exact Hscan.
  - intros Hshort.
    destruct (Py.split_ws line) as [|f0 [|f1 [|f2 rest]]];
      cbn [List.length] in Hshort; try lia;
      cbn [Py.slice_0_3_2 V1_5.unpack_counts] in Hscan;
      try exact Hscan;
      unfold py_int in Hscan; destruct (int_of_str f0); exact Hscan.
Qed.

Lemma string_app_nil_r (s : string) : s ++ "" = s.
Proof. induction s as [|c rest IH]; cbn; [reflexivity | now rewrite IH]. Qed.

Lemma string_app_assoc (s1 s2 s3 : string) :
  (s1 ++ s2) ++ s3 = s1 ++ (s2 ++ s3).
Proof.
  induction s1 as [|c rest IH]; cbn; [reflexivity | now rewrite IH].
Qed.

(** A string with no slash in it is a single field. *)
Lemma split_on_no_slash (a cur : string) :
  Py.contains "/" a = false ->
  Py.split_on_from "/" cur a = [cur ++ a].
Proof.
  revert cur. induction a as [|c rest IH]; intros cur Hno;
    cbn [Py.split_on_from].
  - now rewrite string_app_nil_r.
  - cbn [Py.contains] in Hno. apply orb_false_elim in Hno.
    destruct Hno as [Hpre Hrest].
    destruct (Ascii.eqb_spec c "/") as [->|Hne].
    + assert (Ht : String.prefix "/" (String "/" rest) = true).
      { simpl. destruct (ascii_dec "/" "/") as [_|Hn];
          [destruct rest; reflexivity | now contradiction Hn]. }
      congruence.
    + rewrite (IH _ Hrest). unfold Py.snoc.
      now rewrite string_app_assoc.
Qed.

(** The fields of [x/y] are those of [x] followed by those of [y]. *)
Lemma split_on_slash_between (x y cur : string) :
  Py.split_on_from "/" cur (x ++ String "/" y)
  = (Py.split_on_from "/" cur x ++ Py.split_on_from "/" "" y)%list.
Proof.
  revert cur. induction x as [|c rest IH]; intros cur;
    cbn [append Py.split_on_from].
  - reflexivity.
  - destruct (Ascii.eqb c "/"); cbn [app]; now rewrite IH.
Qed.

Lemma index_from_end_third {A} (l : list A) (a b c : A) :
  Py.index_from_end (l ++ [a; b; c]) 3 = Ret a.
Proof.
  unfold Py.index_from_end. rewrite length_app. cbn [List.length].
  destruct (Nat.ltb_spec (List.length l + 3) 3) as [Hlt|_]; [lia|].
  replace (List.length l + 3 - 3) with (List.length l + 0) by lia.
  rewrite nth_error_app2 by lia.
  replace (List.length l + 0 - List.length l) with 0 by lia.
  reflexivity.
Qed.

Lemma check_latency_parsed
  (w : world) (m : V1_5.NetworkMonitor) (result : CompletedProcess) :
  subprocess_run w ["ping"; "-c"; "4"; V1_5.target_ip m] 10 = Ret result ->
  returncode result = 0%Z ->
  V1_5.check_latency w m
  = match Py.index_from_end (Py.split_on "/" (stdout result)) 3 with
    | Ret field =>
        match float_of_str field with
        | Some latency =>
            (Ret tt,
             V1_5.set_connection_history
               (Py.append (V1_5.connection_history m) latency) m,
             [update_signal (Latency_to (V1_5.target_ip m) latency)])
        | None =>
            (Ret tt, m, [update_signal (Error_checking_latency ValueError)])
        end
    | Raise e => (Ret tt, m, [update_signal (Error_checking_latency e)])
    end.
Proof.
  intros Hrun Hcode.
  unfold V1_5.check_latency, try_except, orelse, except, except_Exception,
    py_float.
  run_monad. rewrite Hrun. cbn [fst snd]. rewrite Hcode. cbn [Z.eqb fst snd].
  destruct (Py.index_from_end _ _) as [field|e] eqn:Ei; cbn [fst snd].
  - destruct (float_of_str field); reflexivity.
  - rewrite (index_from_end_raises _ _ _ Ei). reflexivity.
Qed.

(** When [ping] exits with status 0, the latency probe reads the text
    between the third-last and the second-last slash of the output; in
    the summary [rtt min/avg/max/mdev = 19.1/20.0/21.5/0.9 ms] that is the
    average, [20.0].  If [float] accepts that text, the value is
    appended to the latency window and reported; if not, a [ValueError] is
    reported and the window is left alone.  An output with fewer than two
    slashes gives an [IndexError] report.  In every case the probe returns
    normally. *)
Theorem check_latency_reads_third_field_from_end
  (w : world) (m : V1_5.NetworkMonitor) (result : CompletedProcess)
  (pre a b c : string) :
  subprocess_run w ["ping"; "-c"; "4"; V1_5.target_ip m] 10 = Ret result ->
  returncode result = 0%Z ->
  (stdout result = pre ++ "/" ++ a ++ "/" ++ b ++ "/" ++ c ->
   Py.contains "/" a = false -> Py.contains "/" b = false ->
   Py.contains "/" c = false ->
   (forall latency, float_of_str a = Some latency ->
      V1_5.check_latency w m
      = (Ret tt,
         V1_5.set_connection_history
           (Py.append (V1_5.connection_history m) latency) m,
         [update_signal (Latency_to (V1_5.target_ip m) latency)]))
   /\ (float_of_str a = None ->
       V1_5.check_latency w m
       = (Ret tt, m, [update_signal (Error_checking_latency ValueError)])))
  /\ (List.length (Py.split_on "/" (stdout result)) < 3 ->
      V1_5.check_latency w m
      = (Ret tt, m, [update_signal (Error_checking_latency IndexError)])).
Proof.
  intros Hrun Hcode.
  pose proof (check_latency_parsed w m result Hrun Hcode) as Hparsed.
  split.
  - intros Hout Ha Hb Hc.
    assert (Hfield : Py.index_from_end (Py.split_on "/" (stdout result)) 3
                     = Ret a).
    { rewrite Hout. unfold Py.split_on.
      change (pre ++ "/" ++ a ++ "/" ++ b ++ "/" ++ c)
        with (pre ++ String "/" (a ++ String "/" (b ++ String "/" c))).
      rewrite !split_on_slash_between.
      rewrite (split_on_no_slash a "" Ha), (split_on_no_slash b "" Hb),
        (split_on_no_slash c "" Hc).
      cbn [append app]. apply index_from_end_third. }
    rewrite Hfield in Hparsed.
    split.
    + intros latency Hf. now rewrite Hf in Hparsed.
    + intros Hf. now rewrite Hf in Hparsed.
  - intros Hshort.
    unfold Py.index_from_end in Hparsed.
    apply Nat.ltb_lt in Hshort. now rewrite Hshort in Hparsed.
Qed.

(** The bandwidth probe reports both speeds or neither.  When the client
    is built and both measurements succeed, it reports the download and
    then the upload speed, each the measured bits per second divided by
    1000000, and returns them.  When any of the three steps raises an
    [Exception], it reports that error alone and returns [(None, None)]:
    a download that was measured before the upload failed is dropped.  It
    never changes the monitor. *)
Theorem check_internet_speed_both_or_neither
  (w : world) (m : V1_5.NetworkMonitor) (down up : float) (e : exn) :
  state_of (V1_5.check_internet_speed w m) = m
  /\ (Speedtest w = Ret tt -> st_download w = Ret down ->
      st_upload w = Ret up ->
      V1_5.check_internet_speed w m
      = (Ret (Some (down / 1000000)%float, Some (up / 1000000)%float), m,
         [update_signal (Download_speed (down / 1000000));
          update_signal (Upload_speed (up / 1000000))]))
  /\ (is_Exception e = true ->
      Speedtest w = Raise e
      \/ (Speedtest w = Ret tt /\ st_download w = Raise e)
      \/ (Speedtest w = Ret tt /\ st_download w = Ret down
          /\ st_upload w = Raise e) ->
      V1_5.check_internet_speed w m
      = (Ret (None, None), m,
         [update_signal (Error_checking_internet_speed e)])).
Proof.
  split; [|split].
  - unfold V1_5.check_internet_speed, try_except, except_Exception.
    run_monad.
    destruct (Speedtest w) as [[]|e0]; cbn [fst snd];
      [|destruct (is_Exception e0); reflexivity].
    destruct (st_download w) as [d|e0]; cbn [fst snd];
      [|destruct (is_Exception e0); reflexivity].
    rewrite float_truediv_int_nonzero by discriminate. cbn [fst snd].
    destruct (st_upload w) as [u|e0]; cbn [fst snd];
      [|destruct (is_Exception e0); reflexivity].
    rewrite float_truediv_int_nonzero by discriminate. reflexivity.
  - intros E0 E1 E2.
    unfold V1_5.check_internet_speed, try_except, except_Exception.
    run_monad. rewrite E0. cbn [fst snd]. rewrite E1. cbn [fst snd].
    rewrite float_truediv_int_nonzero by discriminate. cbn [fst snd].
    rewrite E2. cbn [fst snd].
    rewrite float_truediv_int_nonzero by discriminate. reflexivity.
  - intros He Hfail.
    unfold V1_5.check_internet_speed, try_except, except_Exception.
    run_monad.
    destruct Hfail as [E0|[[E0 E1]|(E0 & E1 & E2)]]; rewrite E0; cbn [fst snd].
    + now rewrite He.
    + rewrite E1. cbn [fst snd]. now rewrite He.
    + rewrite E1. cbn [fst snd].
      rewrite float_truediv_int_nonzero by discriminate. cbn [fst snd].
      rewrite E2. cbn [fst snd]. now rewrite He.
Qed.

End Parsers.

(** ** A run without statistics and a lossless run *)

Section WithoutStatistics.

Context `{Builtins}.

Local Open Scope string_scope.







End WithoutStatistics.

(** ** From v1.2 to v1.5: the probes *)

Section Port.

Context `{Builtins}.

Local Open Scope string_scope.

Lemma ported_bind {A B A' B'} (Rv : A -> B -> Prop) (Rv' : A' -> B' -> Prop)
  (c2 : M V1_2_class.NetworkMonitor A) (c5 : M V1_5.NetworkMonitor B)
  (k2 : A -> M V1_2_class.NetworkMonitor A')
  (k5 : B -> M V1_5.NetworkMonitor B') :
  ported Rv c2 c5 ->
  (forall a b, Rv a b -> ported Rv' (k2 a) (k5 b)) ->
  ported Rv' (bind c2 k2) (bind c5 k5).
Proof.
  intros Hc Hk m2 m5 Hagree. specialize (Hc m2 m5 Hagree).
  unfold bind, result_of, state_of, events_of in *.
  destruct (c2 m2) as [[[a|e2] s2] out2], (c5 m5) as [[[b|e5] s5] out5];
    cbn [fst snd alike] in *; destruct Hc as (Hr & Hs & Ho);
    try contradiction.
  - specialize (Hk a b Hr s2 s5 Hs).
    unfold result_of, state_of, events_of in Hk.
    destruct (k2 a s2) as [[r2 t2] o2], (k5 b s5) as [[r5 t5] o5].
    cbn [fst snd] in *. destruct Hk as (Hr' & Hs' & Ho').
    split; [exact Hr'|]. split; [exact Hs'|].
    now rewrite map_app, Ho, Ho'.
  - split; [exact Hr|]. split; [exact Hs | exact Ho].
Qed.

Lemma ported_check_dns_resolution (w : world) :
  ported any_value (V1_2_class.check_dns_resolution w)
    (V1_5.check_dns_resolution w).
Proof.
  intros m2 m5 Hagree.
  unfold V1_2_class.check_dns_resolution, V1_5.check_dns_resolution,
    try_except, except.
  run_monad.
  destruct (gethostbyname w _) as [addr|e]; cbn [fst snd alike map].
  - unfold any_value. auto.
  - destruct (exn_eqb e gaierror); cbn [fst snd alike map app];
      unfold any_value; auto.
Qed.

Lemma ported_check_latency (w : world) :
  ported any_value (V1_2_class.check_latency w) (V1_5.check_latency w).
Proof.
  intros m2 m5 [Hip Hwin].
  unfold V1_2_class.check_latency, V1_5.check_latency,
    try_except, orelse, except, except_Exception, py_float, probes_agree.
  run_monad. rewrite Hip.
  destruct (subprocess_run w _ _) as [result|e]; cbn [fst snd].
  - destruct (returncode result =? 0)%Z; cbn [fst snd alike map app];
      [|unfold any_value; auto].
    destruct (Py.index_from_end _ _) as [field|e]; cbn [fst snd].
    + destruct (float_of_str field) as [latency|];
        cbn [fst snd alike map app exn_eqb is_Exception
             V1_2_class.target_ip V1_2_class.connection_history
             V1_2_class.set_connection_history
             V1_5.target_ip V1_5.connection_history
             V1_5.set_connection_history];
        unfold any_value; rewrite ?Hwin; auto.
    + destruct e; cbn [fst snd alike map app exn_eqb is_Exception];
        unfold any_value; auto.
  - destruct e; cbn [fst snd alike map app exn_eqb is_Exception];
      unfold any_value; auto.
Qed.

Lemma ported_check_packet_loss (w : world) :
  ported any_value (V1_2_class.check_packet_loss w)
    (V1_5.check_packet_loss w).
Proof.
  intros m2 m5 [Hip Hwin].
  unfold V1_2_class.check_packet_loss, V1_2.check_packet_loss,
    V1_5.check_packet_loss,
    try_except, orelse, except, except_Exception, probes_agree.
  run_monad. rewrite Hip.
  destruct (subprocess_run w _ _) as [result|e]; cbn [fst snd].
  - destruct (returncode result =? 0)%Z; cbn [fst snd alike map app];
      [|unfold any_value; auto].
    destruct (V1_5.scan_lines _) as [[sent received]|e]; cbn [fst snd].
    + destruct (V1_5.packet_loss sent received) as [loss|e];
        cbn [fst snd alike map app]; [unfold any_value; auto|].
      destruct e; cbn [fst snd alike map app exn_eqb is_Exception];
        unfold any_value; auto.
    + destruct e; cbn [fst snd alike map app exn_eqb is_Exception];
        unfold any_value; auto.
  - destruct e; cbn [fst snd alike map app exn_eqb is_Exception];
      unfold any_value; auto.
Qed.

Lemma ported_check_http_response (w : world) :
  ported any_value (V1_2_class.check_http_response w)
    (V1_5.check_http_response w).
Proof.
  intros m2 m5 Hagree.
  unfold V1_2_class.check_http_response, V1_5.check_http_response,
    try_except, except_as.
  run_monad.
  destruct (requests_get w _ _) as [status|e]; cbn [fst snd alike map].
  - unfold any_value. auto.
  - destruct (exn_eqb e RequestException); cbn [fst snd alike map app];
      unfold any_value; auto.
Qed.

Lemma ported_check_internet_speed (w : world) :
  ported any_value (V1_2_class.check_internet_speed w)
    (V1_5.check_internet_speed w).
Proof.
  intros m2 m5 Hagree.
  unfold V1_2_class.check_internet_speed, V1_5.check_internet_speed,
    try_except, except_Exception.
  run_monad.
  destruct (Speedtest w) as [[]|e]; cbn [fst snd];
    [|destruct (is_Exception e); cbn [fst snd alike map app];
      unfold any_value; auto].
  destruct (st_download w) as [down|e]; cbn [fst snd];
    [|destruct (is_Exception e); cbn [fst snd alike map app];
      unfold any_value; auto].
  rewrite float_truediv_int_nonzero by discriminate. cbn [fst snd].
  destruct (st_upload w) as [up|e]; cbn [fst snd];
    [|destruct (is_Exception e); cbn [fst snd alike map app];
      unfold any_value; auto].
  rewrite float_truediv_int_nonzero by discriminate.
  cbn [fst snd alike map app]. unfold any_value. auto.
Qed.

Lemma ported_analyze_connection_stability :
  ported eq V1_2_class.analyze_connection_stability
    V1_5.analyze_connection_stability.
Proof.
  intros m2 m5 [Hip Hwin].
  pose proof (analyze_connection_stability_run m5) as H5. cbv zeta in H5.
  rewrite H5.
  unfold V1_2_class.analyze_connection_stability. run_monad.
  rewrite Hwin.
  destruct (Z.ltb_spec (Py.len (Py.items (V1_5.connection_history m5))) 5)
    as [Hlt|Hge].
  - cbn [fst snd alike map]. unfold probes_agree. auto.
  - rewrite variations_of_consecutive. cbn [fst snd].
    rewrite float_truediv_int_nonzero.
    2:{ unfold Py.len in *. rewrite consecutive_abs_diffs_length. lia. }
    cbn [fst snd].
    fold (mean_variation (Py.items (V1_5.connection_history m5))).
    destruct (mean_variation _ <? 5)%float;
      [cbn [fst snd alike map]; unfold probes_agree; auto|].
    destruct (mean_variation _ <? 20)%float;
      cbn [fst snd alike map]; unfold probes_agree; auto.
Qed.

Lemma ported_troubleshoot (w : world) :
  ported any_value (V1_2_class.troubleshoot w) (V1_5.troubleshoot w).
Proof.
  unfold V1_2_class.troubleshoot, V1_5.troubleshoot.
  eapply ported_bind; [apply ported_check_dns_resolution|intros ? ? _].
  eapply ported_bind; [apply ported_check_latency|intros ? ? _].
  eapply ported_bind; [apply ported_check_packet_loss|intros ? ? _].
  eapply ported_bind; [apply ported_check_http_response|intros ? ? _].
  eapply ported_bind; [apply ported_check_internet_speed|intros ? ? _].
  eapply ported_bind;
    [apply ported_analyze_connection_stability|intros s2 s5 <-].
  intros m2 m5 Hagree. unfold emit, result_of, state_of, events_of.
  cbn [fst snd alike map as_signal]. unfold any_value. auto.
Qed.

(** The troubleshooting step of v1.5 is that of v1.2 with signals in place
    of log records.  From a v1.2 monitor and a v1.5 monitor with the same
    target and the same latency window, in the same world: v1.5 emits
    through [update_signal] exactly the messages v1.2 logs, in the same
    order; the two end with the same latency window; and one returns when
    the other does and raises what the other raises. *)
Theorem troubleshoot_signals_what_v1_2_logs
  (w : world) (m2 : V1_2_class.NetworkMonitor) (m5 : V1_5.NetworkMonitor) :
  V1_2_class.target_ip m2 = V1_5.target_ip m5 ->
  V1_2_class.connection_history m2 = V1_5.connection_history m5 ->
  map as_signal (events_of (V1_2_class.troubleshoot w m2))
  = events_of (V1_5.troubleshoot w m5)
  /\ V1_2_class.connection_history (state_of (V1_2_class.troubleshoot w m2))
     = V1_5.connection_history (state_of (V1_5.troubleshoot w m5))
  /\ result_of (V1_2_class.troubleshoot w m2)
     = result_of (V1_5.troubleshoot w m5).
Proof.
  intros Hip Hwin.
  destruct (ported_troubleshoot w m2 m5 (conj Hip Hwin))
    as (Hr & [_ Hs] & Ho).
  split; [exact Ho|]. split; [exact Hs|].
  destruct (result_of (V1_2_class.troubleshoot w m2)) as [[]|e2],
    (result_of (V1_5.troubleshoot w m5)) as [[]|e5];
    cbn [alike] in Hr; try contradiction; congruence.
Qed.

End Port.

(** ** The window

    [MainWindow]: its slots, one by one, and whatever can happen to it
    in a session. *)

Section Window.

Context `{Builtins}.

Lemma slice_from_minus_keep {A} (h : nat) (seen : list A) (x : A) :
  let l := V1_5_gui.slice_from_minus h seen ++ [x] in
  (if h <? List.length l then V1_5_gui.slice_from_minus h l else l)
  = V1_5_gui.slice_from_minus h (seen ++ [x]).
Proof.
  destruct h as [|k]; cbn [V1_5_gui.slice_from_minus].
  - now destruct (0 <? _).
  - set (h := S k). fold (lastn h seen). fold (lastn h (seen ++ [x])).
    pose proof (append_lastn (Py.mkdeque (lastn h seen) h) seen x eq_refl)
      as Happ.
    unfold Py.append in Happ. cbn [Py.items Py.maxlen] in Happ.
    rewrite <- Happ.
    destruct (Nat.ltb_spec h (List.length (lastn h seen ++ [x])))
      as [Hlt|Hge]; [|reflexivity].
    rewrite length_app, lastn_length in Hlt. cbn [List.length] in Hlt.
    replace (List.length (lastn h seen ++ [x]) - h) with 1
      by (rewrite length_app, lastn_length; cbn [List.length]; lia).
    reflexivity.
Qed.

Lemma slice_from_minus_length {A} (h : nat) (l : list A) :
  1 <= h -> List.length (V1_5_gui.slice_from_minus h l) <= h.
Proof.
  destruct h as [|k]; [lia|]. intros _. cbn [V1_5_gui.slice_from_minus].
  rewrite length_skipn. lia.
Qed.


(** One call of [update_graph], as a whole. *)
Lemma update_graph_run (now : float) (upload download : Z)
  (win : V1_5_gui.MainWindow) :
  let h := V1_5_gui.value (V1_5_gui.history_size_input win) in
  let keep (A : Type) (l : list A) :=
    if h <? S (List.length (V1_5_gui.times win))
    then V1_5_gui.slice_from_minus h l else l in
  let ts := keep _ (V1_5_gui.times win
                    ++ [(now - V1_5_gui.start_time win)%float]) in
  let us := keep _ (V1_5_gui.upload_speeds win ++ [upload]) in
  let ds := keep _ (V1_5_gui.download_speeds win ++ [download]) in
  V1_5_gui.update_graph now upload download win
  = (Ret tt,
     V1_5_gui.set_download_curve (ts, ds)
       (V1_5_gui.set_upload_curve (ts, us)
          (V1_5_gui.set_download_speeds ds
             (V1_5_gui.set_upload_speeds us
                (V1_5_gui.set_times ts win)))),
     []).
Proof.
  destruct win. unfold V1_5_gui.update_graph. run_monad.
  cbn [V1_5_gui.start_time V1_5_gui.times V1_5_gui.upload_speeds
       V1_5_gui.download_speeds V1_5_gui.history_size_input
       V1_5_gui.set_times V1_5_gui.set_upload_speeds
       V1_5_gui.set_download_speeds V1_5_gui.set_upload_curve
       V1_5_gui.set_download_curve
       V1_5_gui.ip_input V1_5_gui.anomaly_threshold_input
       V1_5_gui.check_interval_input V1_5_gui.start_button
       V1_5_gui.stop_button V1_5_gui.upload_bar V1_5_gui.download_bar
       V1_5_gui.log_display V1_5_gui.upload_curve V1_5_gui.download_curve
       V1_5_gui.monitor_thread fst snd app].
  rewrite length_app. cbn [List.length]. rewrite Nat.add_1_r.
  destruct (_ <? _); reflexivity.
Qed.

Lemma update_graph_fields (now : float) (upload download : Z)
  (win : V1_5_gui.MainWindow) :
  let h := V1_5_gui.value (V1_5_gui.history_size_input win) in
  let keep (A : Type) (l : list A) :=
    if h <? S (List.length (V1_5_gui.times win))
    then V1_5_gui.slice_from_minus h l else l in
  let win' := state_of (V1_5_gui.update_graph now upload download win) in
  V1_5_gui.times win'
  = keep _ (V1_5_gui.times win ++ [(now - V1_5_gui.start_time win)%float])
  /\ V1_5_gui.upload_speeds win'
     = keep _ (V1_5_gui.upload_speeds win ++ [upload])
  /\ V1_5_gui.download_speeds win'
     = keep _ (V1_5_gui.download_speeds win ++ [download])
  /\ V1_5_gui.upload_curve win'
     = (V1_5_gui.times win', V1_5_gui.upload_speeds win')
  /\ V1_5_gui.download_curve win'
     = (V1_5_gui.times win', V1_5_gui.download_speeds win')
  /\ V1_5_gui.ip_input win' = V1_5_gui.ip_input win
  /\ V1_5_gui.anomaly_threshold_input win'
     = V1_5_gui.anomaly_threshold_input win
  /\ V1_5_gui.check_interval_input win' = V1_5_gui.check_interval_input win
  /\ V1_5_gui.history_size_input win' = V1_5_gui.history_size_input win
  /\ V1_5_gui.start_button win' = V1_5_gui.start_button win
  /\ V1_5_gui.stop_button win' = V1_5_gui.stop_button win
  /\ V1_5_gui.upload_bar win' = V1_5_gui.upload_bar win
  /\ V1_5_gui.download_bar win' = V1_5_gui.download_bar win
  /\ V1_5_gui.log_display win' = V1_5_gui.log_display win
  /\ V1_5_gui.start_time win' = V1_5_gui.start_time win
  /\ V1_5_gui.monitor_thread win' = V1_5_gui.monitor_thread win
  /\ result_of (V1_5_gui.update_graph now upload download win) = Ret tt
  /\ events_of (V1_5_gui.update_graph now upload download win) = [].
Proof.
  cbv zeta. rewrite update_graph_run. destruct win.
  unfold state_of, result_of, events_of. cbn. repeat split.
Qed.

Lemma slice_from_minus_same_length {A B} (h : nat) (l : list A)
  (l' : list B) :
  List.length l = List.length l' ->
  List.length (V1_5_gui.slice_from_minus h l)
  = List.length (V1_5_gui.slice_from_minus h l').
Proof.
  intros E. destruct h as [|k]; cbn [V1_5_gui.slice_from_minus];
    [exact E|].
  rewrite !length_skipn. lia.
Qed.

(** A buffer that holds the slice of what was seen holds, after one more
    call, the slice of what was seen then. *)
Lemma update_graph_buffer {A} (h : nat) (times : list float)
  (st : list float) (buffer seen : list A) (x : A) :
  List.length seen = List.length st ->
  times = V1_5_gui.slice_from_minus h st ->
  buffer = V1_5_gui.slice_from_minus h seen ->
  (if h <? S (List.length times)
   then V1_5_gui.slice_from_minus h (buffer ++ [x]) else buffer ++ [x])
  = V1_5_gui.slice_from_minus h (seen ++ [x]).
Proof.
  intros L -> ->.
  pose proof (slice_from_minus_keep h seen x) as K. cbv zeta in K.
  rewrite <- K, length_app. cbn [List.length]. rewrite Nat.add_1_r.
  now rewrite (slice_from_minus_same_length h st seen (eq_sym L)).
Qed.

Lemma update_graph_seen (xs : list (float * Z * Z)) :
  forall (win : V1_5_gui.MainWindow) (st : list float) (su sd : list Z),
    List.length su = List.length st -> List.length sd = List.length st ->
    V1_5_gui.times win
    = V1_5_gui.slice_from_minus
        (V1_5_gui.value (V1_5_gui.history_size_input win)) st ->
    V1_5_gui.upload_speeds win
    = V1_5_gui.slice_from_minus
        (V1_5_gui.value (V1_5_gui.history_size_input win)) su ->
    V1_5_gui.download_speeds win
    = V1_5_gui.slice_from_minus
        (V1_5_gui.value (V1_5_gui.history_size_input win)) sd ->
    V1_5_gui.times (snd (fst (call_each graph_call xs win)))
    = V1_5_gui.slice_from_minus
        (V1_5_gui.value (V1_5_gui.history_size_input win))
        (st ++ map (fun x => (fst (fst x) - V1_5_gui.start_time win)%float)
                 xs)
    /\ V1_5_gui.upload_speeds (snd (fst (call_each graph_call xs win)))
       = V1_5_gui.slice_from_minus
           (V1_5_gui.value (V1_5_gui.history_size_input win))
           (su ++ map (fun x => snd (fst x)) xs)
    /\ V1_5_gui.download_speeds (snd (fst (call_each graph_call xs win)))
       = V1_5_gui.slice_from_minus
           (V1_5_gui.value (V1_5_gui.history_size_input win))
           (sd ++ map snd xs)
    /\ Forall (fun r => r = Ret tt) (fst (fst (call_each graph_call xs win)))
    /\ snd (call_each graph_call xs win) = [].
Proof.
  induction xs as [|[[now u] d] rest IH]; intros win st su sd Lu Ld Et Eu Ed.
  - cbn [call_each fst snd map]. rewrite !app_nil_r.
    split; [exact Et|]. split; [exact Eu|]. split; [exact Ed|].
    split; [constructor | reflexivity].
  - cbn [call_each map].
    change (graph_call (now, u, d) win)
      with (V1_5_gui.update_graph now u d win).
    cbn [fst snd].
    pose proof (update_graph_fields now u d win) as F. cbv zeta in F.
    destruct F as (Ft & Fu & Fd & _ & _ & _ & _ & _ & Fh & _ & _ & _ & _
                   & _ & Fs & _ & Fr & Fo).
    rewrite (update_graph_buffer _ _ st _ st _ eq_refl Et Et) in Ft.
    rewrite (update_graph_buffer _ _ st _ su _ Lu Et Eu) in Fu.
    rewrite (update_graph_buffer _ _ st _ sd _ Ld Et Ed) in Fd.
    unfold state_of, result_of, events_of in *.
    destruct (V1_5_gui.update_graph now u d win) as [[r win1] out1].
    cbn [fst snd] in *. subst r out1.
    specialize (IH win1 (st ++ [(now - V1_5_gui.start_time win)%float])
                  (su ++ [u]) (sd ++ [d])).
    rewrite Fh, Fs in IH.
    destruct IH as (It & Iu & Id & Ir & Io);
      try assumption;
      try (rewrite !length_app; cbn [List.length]; lia).
    destruct (call_each graph_call rest win1) as [[rs win2] out2].
    cbn [fst snd app] in *.
    rewrite <- !app_assoc in It, Iu, Id. cbn [app] in It, Iu, Id.
    split; [exact It|]. split; [exact Iu|]. split; [exact Id|].
    split; [constructor; [reflexivity | exact Ir] | exact Io].
Qed.


Lemma thread_step_frame (w : world) (t : V1_5.thread) :
  frame (V1_5.self t) (V1_5.self (fst (V1_5.thread_step w t))).
Proof.
  destruct t as [m p]. unfold V1_5.thread_step. cbn [V1_5.self V1_5.at_pc].
  destruct p as [| |total| | |e]; try (cbn; apply frame_refl).
  - destruct (V1_5.running m); cbn; apply frame_refl.
  - apply (advance_respects _ _ m V1_5.at_detect (respects_run_sample w)).
  - apply (advance_respects _ _ m (fun _ => V1_5.at_sleep)
             (respects_run_detect w total)).
Qed.

(** What a slot does to the window. *)
Lemma update_log_consistent (msg : message) (win : V1_5_gui.MainWindow) :
  consistent win ->
  consistent (state_of (V1_5_gui.update_log msg win))
  /\ result_of (V1_5_gui.update_log msg win) = Ret tt.
Proof. destruct win. intros C. split; [exact C | reflexivity]. Qed.

Lemma update_speed_bars_consistent (upload download : Z)
  (win : V1_5_gui.MainWindow) :
  consistent win ->
  consistent (state_of (V1_5_gui.update_speed_bars upload download win))
  /\ result_of (V1_5_gui.update_speed_bars upload download win) = Ret tt.
Proof.
  destruct win. intros (C & Sh & G & _ & _).
  split; [|reflexivity].
  split; [exact C|]. split; [exact Sh|]. split; [exact G|].
  unfold bar_capped, state_of. cbn. split; apply Z.le_min_r.
Qed.

Lemma update_graph_consistent (now : float) (upload download : Z)
  (win : V1_5_gui.MainWindow) :
  consistent win ->
  consistent (state_of (V1_5_gui.update_graph now upload download win))
  /\ result_of (V1_5_gui.update_graph now upload download win) = Ret tt.
Proof.
  intros (C & Sh & G & B1 & B2).
  pose proof (update_graph_fields now upload download win) as F.
  cbv zeta in F.
  destruct F as (Ft & Fu & Fd & _ & _ & Fi & Fa & Fc & Fh & Fb1 & Fb2
                 & Fu1 & Fu2 & _ & _ & Fm & Fr & _).
  split; [|exact Fr].
  set (win' := state_of _) in *.
  split; [|split; [|split; [|split]]].
  - unfold controls_agree in *. now rewrite Fi, Fa, Fc, Fh, Fb1, Fb2, Fm.
  - unfold settings_shown in *. now rewrite Fi, Fa, Fc, Fh, Fm.
  - unfold graph_bounded in *.
    destruct G as (Lu & Ld & L300 & Hrange & _).
    rewrite Ft, Fu, Fd, Fh.
    set (h := V1_5_gui.value (V1_5_gui.history_size_input win)) in *.
    assert (Hlen : forall A (l : list A) (x : A),
               List.length l = List.length (V1_5_gui.times win) ->
               List.length
                 (if h <? S (List.length (V1_5_gui.times win))
                  then V1_5_gui.slice_from_minus h (l ++ [x])
                  else l ++ [x])
               = Nat.min h (S (List.length (V1_5_gui.times win)))).
    { intros A l x E.
      destruct (Nat.ltb_spec h (S (List.length (V1_5_gui.times win))))
        as [Hlt|Hge].
      - destruct h as [|k]; [lia|]. cbn [V1_5_gui.slice_from_minus].
        rewrite length_skipn, length_app. cbn [List.length]. lia.
      - rewrite length_app. cbn [List.length]. lia. }
    rewrite (Hlen _ _ _ eq_refl), (Hlen _ _ _ Lu), (Hlen _ _ _ Ld).
    split; [reflexivity|]. split; [reflexivity|].
    split; [lia|]. split; [exact Hrange|]. intros _. lia.
  - now rewrite Fu1.
  - now rewrite Fu2.
Qed.

Lemma deliver_consistent (now : float) (ev : event)
  (win : V1_5_gui.MainWindow) :
  consistent win ->
  consistent (state_of (V1_5_gui.deliver now ev win))
  /\ result_of (V1_5_gui.deliver now ev win) = Ret tt.
Proof.
  intros C. destruct ev; cbn [V1_5_gui.deliver];
    first [ split; [exact C | reflexivity]
          | now apply update_log_consistent
          | now apply update_speed_bars_consistent
          | now apply update_graph_consistent ].
Qed.

Lemma deliver_all_consistent (now : float) (out : list event) :
  forall win : V1_5_gui.MainWindow,
    consistent win ->
    consistent (state_of (V1_5_gui.deliver_all now out win)).
Proof.
  induction out as [|ev rest IH]; intros win C; cbn [V1_5_gui.deliver_all].
  - exact C.
  - destruct (deliver_consistent now ev win C) as [C1 R1].
    specialize (IH _ C1).
    unfold bind, state_of, result_of in *.
    destruct (V1_5_gui.deliver now ev win) as [[r win1] out1].
    cbn [fst snd] in *. subst r.
    destruct (V1_5_gui.deliver_all now rest win1) as [[r2 win2] out2].
    exact IH.
Qed.


Ltac window_facts :=
  unfold consistent, controls_agree, settings_shown, graph_bounded in *;
  cbn in *.

Ltac window_solve :=
  intuition (try discriminate; try congruence; try lia; auto).

Lemma start_monitoring_consistent (w : world) (now : float)
  (win : V1_5_gui.MainWindow) :
  consistent win ->
  consistent (state_of (V1_5_gui.start_monitoring w now win)).
Proof.
  intros C.
  unfold V1_5_gui.start_monitoring. run_monad.
  destruct (Py.is_empty (V1_5_gui.text (V1_5_gui.ip_input win))) eqn:Eip.
  - destruct win. window_facts. window_solve.
  - unfold V1_5.init.
    destruct (net_io_counters_1 w) as [c1|e]; [|exact C].
    destruct (net_io_counters_2 w) as [c2|e]; [|exact C].
    destruct win as [[ip ?] ? ? ? ? ? ? ? ? ? ? ? ? ? ? ?].
    window_facts.
    assert (Hip : ip <> EmptyString)
      by (intros E; now rewrite E in Eip).
    clear Eip.
    repeat match goal with
           | |- _ /\ _ => split
           | |- _ <-> _ => split
           | |- forall _, _ => intro
           end;
      try match goal with
          | E : Some _ = Some _ |- _ => injection E as <-; cbn
          end;
      window_solve.
Qed.

Lemma stop_monitoring_consistent (ws : list world)
  (win : V1_5_gui.MainWindow) :
  consistent win ->
  consistent (state_of (V1_5_gui.stop_monitoring ws win)).
Proof.
  intros C.
  unfold V1_5_gui.stop_monitoring. run_monad.
  destruct win. cbn [V1_5_gui.monitor_thread].
  destruct monitor_thread as [t|]; window_facts; window_solve.
Qed.

Lemma happen_consistent (h : V1_5_gui.happening)
  (win : V1_5_gui.MainWindow) :
  consistent win -> consistent (state_of (V1_5_gui.happen h win)).
Proof.
  intros C.
  destruct h as [w now|w1 w2 w3 w4|s|v|v|n|w now|now ev];
    unfold V1_5_gui.happen.
  - unfold bind at 1, gets at 1.
    destruct (V1_5_gui.button_enabled (V1_5_gui.start_button win)) eqn:E.
    + pose proof (start_monitoring_consistent w now win C) as C1.
      unfold state_of in *.
      destruct (V1_5_gui.start_monitoring w now win) as [[r win1] out1].
      exact C1.
    + exact C.
  - unfold bind at 1, gets at 1.
    destruct (V1_5_gui.button_enabled (V1_5_gui.stop_button win)) eqn:E.
    + pose proof (stop_monitoring_consistent [w1; w2; w3; w4] win C) as C1.
      unfold state_of in *.
      destruct (V1_5_gui.stop_monitoring _ win) as [[r win1] out1].
      exact C1.
    + exact C.
  - run_monad.
    destruct (V1_5_gui.line_enabled (V1_5_gui.ip_input win)) eqn:E;
      [|exact C].
    destruct win. destruct start_button as [[|]]. all: window_facts.
    all: destruct monitor_thread; window_solve.
  - run_monad.
    destruct (V1_5_gui.double_enabled
                (V1_5_gui.anomaly_threshold_input win)) eqn:E; [|exact C].
    destruct win. destruct start_button as [[|]]. all: window_facts.
    all: destruct monitor_thread; window_solve.
  - run_monad.
    destruct (V1_5_gui.double_enabled
                (V1_5_gui.check_interval_input win)) eqn:E; [|exact C].
    destruct win. destruct start_button as [[|]]. all: window_facts.
    all: destruct monitor_thread; window_solve.
  - run_monad.
    destruct (V1_5_gui.spin_enabled (V1_5_gui.history_size_input win)) eqn:E;
      [|exact C].
    pose proof (Nat.le_max_l 10 (Nat.min 300 n)) as Hlo.
    assert (Hhi : Nat.max 10 (Nat.min 300 n) <= 300) by lia.
    set (held := Nat.max 10 (Nat.min 300 n)) in *. clearbody held.
    destruct win. destruct start_button as [[|]]. all: window_facts.
    all: destruct monitor_thread; window_solve.
  - unfold bind at 1, gets at 1.
    destruct (V1_5_gui.monitor_thread win) as [t|] eqn:Et; [|exact C].
    unfold bind, modify. cbn [fst snd].
    set (win1 := V1_5_gui.set_monitor_thread _ win).
    assert (C1 : consistent win1).
    { destruct C as (Ca & Sh & G & B1 & B2). specialize (Sh t Et).
      pose proof (thread_step_frame w t)
        as (_ & Fip & Fth & Fint & Fmax & _).
      subst win1. destruct win. window_facts. subst.
      split; [|split; [|split; [|split]]]; try assumption.
      - window_solve.
      - intros t' Et'. injection Et' as <-.
        rewrite Fip, Fth, Fint, Fmax. exact Sh.
      - window_solve. }
    pose proof (deliver_all_consistent now
                  (snd (V1_5.thread_step w t)) win1 C1) as C2.
    unfold state_of in *.
    destruct (V1_5_gui.deliver_all now _ win1) as [[r win2] out2].
    exact C2.
  - now apply deliver_consistent.
Qed.

Lemma session_consistent (hs : list V1_5_gui.happening) :
  forall win : V1_5_gui.MainWindow,
    consistent win -> consistent (state_of (V1_5_gui.session hs win)).
Proof.
  induction hs as [|h rest IH]; intros win C; cbn [V1_5_gui.session].
  - exact C.
  - pose proof (happen_consistent h win C) as C1.
    unfold bind, state_of in *.
    destruct (V1_5_gui.happen h win) as [[[[]|e] win1] out1];
      cbn [fst snd] in *; [|exact C1].
    specialize (IH win1 C1).
    destruct (V1_5_gui.session rest win1) as [[r win2] out2].
    exact IH.
Qed.

Lemma init_consistent (now : float) : consistent (V1_5_gui.init now).
Proof. window_facts. window_solve. Qed.


(** [update_speed_bars] gives each bar the whole kilobytes of its
    delta, capped at 100: never more than 100, exactly 100 from 100 KiB
    on.  There is no lower cap: a negative delta, as after a reset of the
    system's counters, gives the bar a negative number.  Nothing else in
    the window changes. *)
Theorem update_speed_bars_caps_at_100 (upload download : Z)
  (win : V1_5_gui.MainWindow) :
  exists up down : Z,
    V1_5_gui.update_speed_bars upload download win
    = (Ret tt,
       V1_5_gui.set_download_bar (V1_5_gui.mkQProgressBar (Some down))
         (V1_5_gui.set_upload_bar (V1_5_gui.mkQProgressBar (Some up)) win),
       [])
    /\ bar_shows upload up /\ bar_shows download down.
Proof.
  exists (Z.min (upload / 1024) 100), (Z.min (download / 1024) 100).
  split; [reflexivity|].
  assert (Hshow : forall x, bar_shows x (Z.min (x / 1024) 100)).
  { intros x. unfold bar_shows.
    pose proof (Z.div_mod x 1024 ltac:(lia)) as Hdm.
    pose proof (Z.mod_pos_bound x 1024 ltac:(lia)) as Hmod.
    split; [lia|]. split; [|split]; intros Hx.
    - assert (x / 1024 < 100)%Z by (apply Z.div_lt_upper_bound; lia).
      rewrite Z.min_l by lia. lia.
    - assert (100 <= x / 1024)%Z by (apply Z.div_le_lower_bound; lia).
      lia.
    - assert (x / 1024 < 0)%Z by (apply Z.div_lt_upper_bound; lia).
      lia. }
  split; apply Hshow.
Qed.

(** From empty lists, as [start_monitoring] leaves them, the three
    lists behind the graph hold after any number of [update_graph] calls
    the slice [[-history_size:]] of everything received: the times since
    the start, the uploads and the downloads, index by index.  For a
    history size of at least 1 these are the last [history_size] points;
    for a history size of 0 the slice is the whole list and nothing is
    ever dropped.  Every call returns normally and emits nothing. *)
Theorem update_graph_keeps_last_history_size
  (win : V1_5_gui.MainWindow) (xs : list (float * Z * Z)) :
  V1_5_gui.times win = [] ->
  V1_5_gui.upload_speeds win = [] ->
  V1_5_gui.download_speeds win = [] ->
  let h := V1_5_gui.value (V1_5_gui.history_size_input win) in
  let win' := snd (fst (call_each graph_call xs win)) in
  V1_5_gui.times win'
  = V1_5_gui.slice_from_minus h
      (map (fun x => (fst (fst x) - V1_5_gui.start_time win)%float) xs)
  /\ V1_5_gui.upload_speeds win'
     = V1_5_gui.slice_from_minus h (map (fun x => snd (fst x)) xs)
  /\ V1_5_gui.download_speeds win'
     = V1_5_gui.slice_from_minus h (map snd xs)
  /\ (1 <= h ->
      V1_5_gui.upload_speeds win' = lastn h (map (fun x => snd (fst x)) xs)
      /\ List.length (V1_5_gui.times win') = Nat.min h (List.length xs))
  /\ (h = 0 -> List.length (V1_5_gui.times win') = List.length xs)
  /\ Forall (fun r => r = Ret tt) (fst (fst (call_each graph_call xs win)))
  /\ snd (call_each graph_call xs win) = [].
Proof.
  intros Et Eu Ed h win'.
  assert (Hnil : forall A, @nil A = V1_5_gui.slice_from_minus h (@nil A))
    by (intros A; now destruct h).
  destruct (update_graph_seen xs win [] [] [] eq_refl eq_refl)
    as (It & Iu & Id & Ir & Io);
    try (rewrite Et; apply Hnil); try (rewrite Eu; apply Hnil);
    try (rewrite Ed; apply Hnil).
  cbn [app] in It, Iu, Id. fold h in It, Iu, Id. fold win' in It, Iu, Id.
  split; [exact It|]. split; [exact Iu|]. split; [exact Id|].
  split; [|split; [|split; [exact Ir | exact Io]]].
  - intros Hh. rewrite Iu, It.
    destruct h as [|k]; [lia|]. cbn [V1_5_gui.slice_from_minus].
    split; [reflexivity|]. rewrite length_skipn, length_map. lia.
  - intros Hz. rewrite It, Hz. cbn [V1_5_gui.slice_from_minus].
    apply length_map.
Qed.

(** Whatever happens to the window, in whatever order (clicks on
    either button, edits of the inputs, steps of the monitor's thread with
    its signals delivered, signals arriving late), from the window as it
    is constructed: exactly one of the two buttons is enabled; the inputs
    are enabled with the start button; the window holds a monitor thread
    exactly while the start button is disabled; that monitor has the
    target, threshold, interval and history size the inputs show, and its
    target is not empty; the three lists behind the graph have the same
    length, at most 300 and, while a monitor runs, at most the history
    size; and no bar was given more than 100. *)
Theorem session_keeps_window_consistent
  (now : float) (hs : list V1_5_gui.happening) :
  consistent (state_of (V1_5_gui.session hs (V1_5_gui.init now))).
Proof. apply session_consistent, init_consistent. Qed.

(** [stop_monitoring] on a window that holds a monitor thread: when
    [wait()] returns, [run] is over and the flag is off, the thread has
    emitted at most one more activity record and none after a sleep; the
    window holds no thread any more and the start button is enabled. *)
Theorem stop_monitoring_waits_for_the_thread
  (win : V1_5_gui.MainWindow) (t : V1_5.thread) (w1 w2 w3 w4 : world) :
  V1_5_gui.monitor_thread win = Some t ->
  let ended := V1_5_gui.stop_and_wait [w1; w2; w3; w4] t in
  let after := V1_5_gui.stop_monitoring [w1; w2; w3; w4] win in
  is_over (V1_5.at_pc (fst ended)) = true
  /\ V1_5.running (V1_5.self (fst ended)) = false
  /\ activity_count (snd ended) <= 1
  /\ activity_after_sleep (snd ended) = false
  /\ result_of after = Ret tt
  /\ events_of after = snd ended
  /\ V1_5_gui.monitor_thread (state_of after) = None
  /\ V1_5_gui.button_enabled (V1_5_gui.start_button (state_of after)) = true
  /\ V1_5_gui.button_enabled (V1_5_gui.stop_button (state_of after)) = false.
Proof.
  intros Et ended after.
  set (t1 := V1_5.mkthread (V1_5.set_running false (V1_5.self t))
               (V1_5.at_pc t)).
  assert (Hoff : V1_5.running (V1_5.self t1) = false)
    by (destruct t as [[] p]; reflexivity).
  assert (Hended : ended
                   = V1_5.exec (map V1_5.thread_runs [w1; w2; w3; w4]) t1).
  { subst ended. unfold V1_5_gui.stop_and_wait.
    change (V1_5.exec (V1_5.controller_stops :: ?s) t)
      with (let (t2, out2) := V1_5.exec s t1 in (t2, [] ++ out2)).
    now destruct (V1_5.exec _ t1). }
  pose proof (exec_steps_to_exit [w1; w2; w3; w4] t1 Hoff) as Hexit.
  destruct (exec_after_stop (map V1_5.thread_runs [w1; w2; w3; w4]) t1 Hoff)
    as (Hflag & Hcount & Hafter).
  rewrite <- Hended in Hexit, Hflag, Hcount, Hafter.
  split; [|split; [exact Hflag|split; [|split; [exact Hafter|]]]].
  - apply steps_to_exit_zero.
    assert (steps_to_exit (V1_5.at_pc t1) <= 4)
      by (destruct (V1_5.at_pc t1); cbn; lia).
    cbn [List.length] in Hexit. lia.
  - assert (activity_budget (V1_5.at_pc t1) <= 1)
      by (destruct (V1_5.at_pc t1); cbn; lia).
    lia.
  - subst after. unfold V1_5_gui.stop_monitoring. run_monad.
    rewrite Et. cbn [fst snd]. fold ended.
    clear Hended Hexit Hflag Hcount Hafter. clearbody ended.
    destruct win. cbn. rewrite !app_nil_r. repeat split.
Qed.

End Window.

(** ** The detector from version to version *)

Section Detectors.

Context `{Builtins}.

Lemma detect_anomalies_v1_0_as_v1_5 (x : Z) (m0 : V1_0.NetworkMonitor)
  (m5 : V1_5.NetworkMonitor) :
  V1_0.speed_history m0 = V1_5.speed_history m5 ->
  Py.float_of_int (V1_0.anomaly_threshold m0) = V1_5.anomaly_threshold m5 ->
  result_of (V1_0.detect_anomalies x m0)
  = result_of (V1_5.detect_anomalies x m5)
  /\ V1_0.speed_history (state_of (V1_0.detect_anomalies x m0))
     = V1_5.speed_history (state_of (V1_5.detect_anomalies x m5))
  /\ V1_0.anomaly_threshold (state_of (V1_0.detect_anomalies x m0))
     = V1_0.anomaly_threshold m0
  /\ V1_5.anomaly_threshold (state_of (V1_5.detect_anomalies x m5))
     = V1_5.anomaly_threshold m5.
Proof.
  intros Eh Et.
  unfold V1_0.detect_anomalies, V1_5.detect_anomalies. run_monad.
  destruct m0, m5. cbn in *. subst.
  destruct (Py.len _ <? 10)%Z; cbn [fst snd]; [repeat split|].
  destruct (Py.int_truediv _ _) as [mean|e]; cbn [fst snd];
    [|repeat split].
  destruct (Py.float_truediv_int _ _) as [variance|e]; cbn [fst snd];
    repeat split.
Qed.


Lemma detect_anomalies_v1_2_as_v1_5 (x : Z)
  (m2 : V1_2_class.NetworkMonitor) (m5 : V1_5.NetworkMonitor) :
  V1_2_class.speed_history m2 = V1_5.speed_history m5 ->
  Py.float_of_int (V1_2_class.anomaly_threshold m2)
  = V1_5.anomaly_threshold m5 ->
  result_of (V1_2_class.detect_anomalies x m2)
  = result_of (V1_5.detect_anomalies x m5)
  /\ V1_2_class.speed_history (state_of (V1_2_class.detect_anomalies x m2))
     = V1_5.speed_history (state_of (V1_5.detect_anomalies x m5))
  /\ V1_2_class.anomaly_threshold
       (state_of (V1_2_class.detect_anomalies x m2))
     = V1_2_class.anomaly_threshold m2
  /\ V1_5.anomaly_threshold (state_of (V1_5.detect_anomalies x m5))
     = V1_5.anomaly_threshold m5.
Proof.
  intros Eh Et.
  unfold V1_2_class.detect_anomalies, V1_5.detect_anomalies. run_monad.
  destruct m2, m5. cbn in *. subst.
  destruct (Py.len _ <? 10)%Z; cbn [fst snd]; [repeat split|].
  destruct (Py.int_truediv _ _) as [mean|e]; cbn [fst snd];
    [|repeat split].
  destruct (Py.float_truediv_int _ _) as [variance|e]; cbn [fst snd];
    repeat split.
Qed.

(** The detector is the same in every version: fed the same samples from
    the same window, with the threshold of v1.5 at the value v1.0 and
    v1.2 have built in, the three give the same verdicts, call by call,
    and end with the same window. *)
Theorem detect_anomalies_same_verdicts_in_every_version (xs : list Z) :
  forall (m0 : V1_0.NetworkMonitor) (m2 : V1_2_class.NetworkMonitor)
    (m5 : V1_5.NetworkMonitor),
    V1_0.speed_history m0 = V1_5.speed_history m5 ->
    V1_2_class.speed_history m2 = V1_5.speed_history m5 ->
    Py.float_of_int (V1_0.anomaly_threshold m0)
    = V1_5.anomaly_threshold m5 ->
    Py.float_of_int (V1_2_class.anomaly_threshold m2)
    = V1_5.anomaly_threshold m5 ->
    fst (fst (call_each V1_0.detect_anomalies xs m0))
    = fst (fst (call_each V1_5.detect_anomalies xs m5))
    /\ fst (fst (call_each V1_2_class.detect_anomalies xs m2))
       = fst (fst (call_each V1_5.detect_anomalies xs m5))
    /\ V1_0.speed_history
         (snd (fst (call_each V1_0.detect_anomalies xs m0)))
       = V1_5.speed_history
           (snd (fst (call_each V1_5.detect_anomalies xs m5)))
    /\ V1_2_class.speed_history
         (snd (fst (call_each V1_2_class.detect_anomalies xs m2)))
       = V1_5.speed_history
           (snd (fst (call_each V1_5.detect_anomalies xs m5))).
Proof.
  induction xs as [|x rest IH]; intros m0 m2 m5 E0 E2 T0 T2;
    cbn [call_each].
  - cbn [fst snd]. split; [reflexivity|]. split; [reflexivity|].
    split; [exact E0 | exact E2].
  - destruct (detect_anomalies_v1_0_as_v1_5 x m0 m5 E0 T0)
      as (R0 & H0 & K0 & K5).
    destruct (detect_anomalies_v1_2_as_v1_5 x m2 m5 E2 T2)
      as (R2 & H2 & K2 & _).
    unfold result_of, state_of in *.
    destruct (V1_0.detect_anomalies x m0) as [[r0 m0'] out0].
    destruct (V1_2_class.detect_anomalies x m2) as [[r2 m2'] out2].
    destruct (V1_5.detect_anomalies x m5) as [[r5 m5'] out5].
    cbn [fst snd] in *. subst r0 r2.
    rewrite <- K0 in T0. rewrite <- K2 in T2. rewrite <- K5 in T0, T2.
    destruct (IH m0' m2' m5' H0 H2 T0 T2) as (I0 & I2 & W0 & W2).
    destruct (call_each V1_0.detect_anomalies rest m0') as [[rs0 n0] o0].
    destruct (call_each V1_2_class.detect_anomalies rest m2')
      as [[rs2 n2] o2].
    destruct (call_each V1_5.detect_anomalies rest m5') as [[rs5 n5] o5].
    cbn [fst snd] in *. subst rs0 rs2.
    split; [reflexivity|]. split; [reflexivity|].
    split; [exact W0 | exact W2].
Qed.

End Detectors.

(** ** Troubleshooting in v1.0 *)

Section Troubleshooting_v1_0.

Context `{Builtins}.

Local Open Scope string_scope.

Lemma troubleshoot_v1_0_run (w : world) (m : V1_0.NetworkMonitor) :
  V1_0.troubleshoot w m
  = match gethostbyname w "www.google.com" with
    | Raise e =>
        match dns_record (Raise e) with
        | None => (Raise e, m, [])
        | Some d =>
            match subprocess_check_call w ["ping"; "-c"; "1"; "8.8.8.8"] with
            | Raise e' =>
                match connectivity_record (Raise e') with
                | None => (Raise e', m, [d])
                | Some c => (Ret tt, m, [d; c])
                end
            | Ret _ => (Ret tt, m, [d; logging_info Internet_connectivity_OK])
            end
        end
    | Ret _ =>
        match subprocess_check_call w ["ping"; "-c"; "1"; "8.8.8.8"] with
        | Raise e' =>
            match connectivity_record (Raise e') with
            | None => (Raise e', m, [logging_info DNS_resolution_OK])
            | Some c => (Ret tt, m, [logging_info DNS_resolution_OK; c])
            end
        | Ret _ =>
            (Ret tt, m,
             [logging_info DNS_resolution_OK;
              logging_info Internet_connectivity_OK])
        end
    end.
Proof.
  unfold V1_0.troubleshoot, try_except, except. run_monad.
  destruct (gethostbyname w _) as [a|e]; cbn [fst snd];
    destruct (subprocess_check_call w _) as [[]|e']; cbn [fst snd];
    try destruct e; try destruct e'; reflexivity.
Qed.


Lemma detect_anomalies_v1_0_silent (x : Z) (m : V1_0.NetworkMonitor) :
  events_of (V1_0.detect_anomalies x m) = [].
Proof.
  unfold V1_0.detect_anomalies. run_monad.
  destruct (Py.len _ <? 10)%Z; cbn [fst snd]; [reflexivity|].
  destruct (Py.int_truediv _ _) as [mean|e]; cbn [fst snd]; [|reflexivity].
  destruct (Py.float_truediv_int _ _) as [variance|e]; reflexivity.
Qed.

(** In v1.0 a probe failure that [troubleshoot] does not catch ends the
    monitoring.  On a tick whose sample is an anomaly, a DNS lookup that
    raises anything but [socket.gaierror], or a [ping] that raises
    anything but [CalledProcessError] (a missing [ping] binary, say),
    leaves [troubleshoot] and the loop; [monitor] records it as its last
    line and returns: the tick does not reach its sleep and no later tick
    is sampled.  A failure of the class its probe catches is a record
    like any other. *)
Theorem monitor_v1_0_ends_when_a_probe_lets_through
  (w : world) (ws : list world) (m m1 : V1_0.NetworkMonitor)
  (sent recv : Z) (out1 seen : list event) (e : exn) :
  V1_0.get_network_speed w m = (Ret (sent, recv), m1, out1) ->
  result_of (V1_0.detect_anomalies (sent + recv) m1) = Ret true ->
  (gethostbyname w "www.google.com" = Raise e
   /\ dns_record (Raise e) = None /\ seen = [])
  \/ (exists d,
         dns_record (gethostbyname w "www.google.com") = Some d
         /\ subprocess_check_call w ["ping"; "-c"; "1"; "8.8.8.8"] = Raise e
         /\ connectivity_record (Raise e) = None /\ seen = [d]) ->
  V1_0.monitor (w :: ws) m
  = (Ret tt,
     state_of (V1_0.detect_anomalies (sent + recv) m1),
     out1
     ++ [logging_info (Network_activity (sent + recv));
         logging_warning Anomaly_detected]
     ++ seen ++ [last_record e])%list.
Proof.
  intros Hsample Hanomaly Hprobe.
  pose proof (detect_anomalies_v1_0_silent (sent + recv) m1) as Hsilent.
  unfold V1_0.monitor, try_except. cbn [V1_0.monitor_loop].
  unfold V1_0.monitor_body. unfold bind, emit. rewrite Hsample.
  unfold result_of, events_of, state_of in *.
  destruct (V1_0.detect_anomalies (sent + recv) m1) as [[r m2] out2].
  cbn [fst snd] in *. subst r out2.
  rewrite troubleshoot_v1_0_run.
  destruct Hprobe as [(Edns & Hnone & ->)|(d & Hd & Eping & Hnone & ->)].
  - rewrite Edns, Hnone. cbn [fst snd app].
    unfold orelse, except, except_Exception.
    destruct e; cbn in Hnone; try discriminate Hnone;
      cbn; rewrite ?app_nil_r, <- ?app_assoc; reflexivity.
  - rewrite Eping.
    destruct (gethostbyname w "www.google.com") as [a|e0]; cbn in Hd.
    + injection Hd as <-. rewrite Hnone. cbn [fst snd app].
      unfold orelse, except, except_Exception.
      destruct e; cbn in Hnone; try discriminate Hnone;
        cbn; rewrite ?app_nil_r, <- ?app_assoc; reflexivity.
    + destruct e0; try discriminate Hd. injection Hd as <-.
      cbn [dns_record]. rewrite Hnone. cbn [fst snd app].
      unfold orelse, except, except_Exception.
      destruct e; cbn in Hnone; try discriminate Hnone;
        cbn; rewrite ?app_nil_r, <- ?app_assoc; reflexivity.
Qed.

End Troubleshooting_v1_0.

(** ** More runs

    The properties above, at concrete monitors, windows and worlds. *)

Section MoreRuns.

Local Existing Instance Reference.builtins.

Local Open Scope string_scope.

Lemma sampler_deltas_add_up_at_healthy :
  V1_5.previous_bytes_sent
    (state_of (V1_5.get_network_speed Scenario.healthy Scenario.monitor))
  = 1000%Z
  /\ V1_0.previous_bytes_recv
       (state_of (V1_0.get_network_speed Scenario.healthy
                    Scenario.monitor_v1_0))
     = 2000%Z.
Proof.
  pose proof (sampler_deltas_add_up
                [Scenario.healthy; Scenario.counters_unreadable]
                Scenario.monitor Scenario.monitor_v1_0 Scenario.healthy
                (mksnetio 1000 2000) (mksnetio 1000 2000)) as Hsum.
  cbv zeta in Hsum. destruct Hsum as (_ & _ & _ & _ & Hlast).
  destruct (Hlast eq_refl eq_refl) as (H5 & _ & _ & H0).
  split; [exact H5 | exact H0].
Defined.

Lemma monitor_ends_at_first_exception_on_interrupt :
  V1_0.monitor
    ([Scenario.healthy] ++ Scenario.user_interrupts :: [Scenario.healthy])
    Scenario.monitor_v1_0
  = (Ret tt,
     state_of (V1_0.monitor_loop
                 ([Scenario.healthy] ++ [Scenario.user_interrupts])
                 Scenario.monitor_v1_0),
     (events_of (V1_0.monitor_loop
                   ([Scenario.healthy] ++ [Scenario.user_interrupts])
                   Scenario.monitor_v1_0)
      ++ [logging_info Monitoring_stopped_by_user])%list).
Proof.
  apply (proj2 (monitor_ends_at_first_exception
                  [Scenario.healthy] [Scenario.healthy]
                  Scenario.user_interrupts Scenario.monitor_v1_0
                  KeyboardInterrupt)).
  vm_compute. reflexivity.
Defined.

Lemma check_packet_loss_reads_fields_0_and_2_at_10_7 :
  exists loss,
    V1_5.packet_loss 10 7 = Ret loss
    /\ V1_5.check_packet_loss Scenario.ping_counts_first_and_third
         Scenario.monitor
       = (Ret tt, Scenario.monitor,
          [update_signal (Packet_loss_to "10.0.0.1" loss)]).
Proof.
  destruct (check_packet_loss_reads_fields_0_and_2
              Scenario.ping_counts_first_and_third Scenario.monitor
              (mkCompletedProcess 0 "10 / 7 packets transmitted")
              [] [] "10 / 7 packets transmitted"
              eq_refl eq_refl eq_refl
              (fun l (Hin : In l []) => match Hin with end) eq_refl)
    as (Hcounts & _).
  exact (Hcounts "10" "/" "7" ["packets"; "transmitted"] 10%Z 7%Z
           eq_refl eq_refl eq_refl).
Defined.

Lemma check_latency_reads_third_field_from_end_at_rtt_summary :
  V1_5.check_latency Scenario.healthy Scenario.monitor
  = (Ret tt,
     V1_5.set_connection_history
       (Py.append (V1_5.connection_history Scenario.monitor) 20%float)
       Scenario.monitor,
     [update_signal (Latency_to "10.0.0.1" 20%float)]).
Proof.
  destruct (check_latency_reads_third_field_from_end
              Scenario.healthy Scenario.monitor
              (mkCompletedProcess 0 Scenario.ping_output)
              ("PING 10.0.0.1 (10.0.0.1) 56(84) bytes of data."
               ++ Scenario.newline
               ++ "64 bytes from 10.0.0.1: icmp_seq=1 ttl=64 time=19.1 ms"
               ++ Scenario.newline ++ Scenario.newline
               ++ "--- 10.0.0.1 ping statistics ---" ++ Scenario.newline
               ++ "4 packets transmitted, 4 received, 0% packet loss, "
               ++ "time 3004ms" ++ Scenario.newline
               ++ "rtt min/avg/max/mdev = 19.1")
              "20.0" "21.5" ("0.9 ms" ++ Scenario.newline)
              eq_refl eq_refl) as (Hfield & _).
  destruct Hfield as (Hok & _);
    [vm_compute; reflexivity | reflexivity | reflexivity | reflexivity|].
  apply Hok. vm_compute. reflexivity.
Defined.

Lemma check_internet_speed_both_or_neither_at_upload_failure :
  V1_5.check_internet_speed Scenario.healthy Scenario.monitor
  = (Ret (Some (100000000 / 1000000)%float,
          Some (20000000 / 1000000)%float),
     Scenario.monitor,
     [update_signal (Download_speed (100000000 / 1000000));
      update_signal (Upload_speed (20000000 / 1000000))])
  /\ V1_5.check_internet_speed Scenario.upload_fails Scenario.monitor
     = (Ret (None, None), Scenario.monitor,
        [update_signal (Error_checking_internet_speed SpeedtestException)]).
Proof.
  split.
  - destruct (check_internet_speed_both_or_neither
                Scenario.healthy Scenario.monitor
                100000000%float 20000000%float SpeedtestException)
      as (_ & Hboth & _).
    exact (Hboth eq_refl eq_refl eq_refl).
  - destruct (check_internet_speed_both_or_neither
                Scenario.upload_fails Scenario.monitor
                100000000%float 20000000%float SpeedtestException)
      as (_ & _ & Hneither).
    apply Hneither; [reflexivity|].
    right. right. split; [reflexivity|]. split; reflexivity.
Defined.

Lemma troubleshoot_signals_what_v1_2_logs_when_healthy :
  map as_signal
    (events_of (V1_2_class.troubleshoot Scenario.healthy
                  Scenario.monitor_v1_2))
  = events_of (V1_5.troubleshoot Scenario.healthy Scenario.monitor).
Proof.
  exact (proj1 (troubleshoot_signals_what_v1_2_logs
                  Scenario.healthy Scenario.monitor_v1_2 Scenario.monitor
                  eq_refl eq_refl)).
Defined.

Lemma update_graph_keeps_last_history_size_at_three_points :
  V1_5_gui.upload_speeds
    (snd (fst (call_each graph_call
                 [(1%float, 100%Z, 200%Z); (2%float, 300%Z, 400%Z);
                  (3%float, 500%Z, 600%Z)]
                 (V1_5_gui.init 0))))
  = lastn 60 [100%Z; 300%Z; 500%Z].
Proof.
  pose proof (update_graph_keeps_last_history_size
                (V1_5_gui.init 0)
                [(1%float, 100%Z, 200%Z); (2%float, 300%Z, 400%Z);
                 (3%float, 500%Z, 600%Z)]
                eq_refl eq_refl eq_refl) as Hgraph.
  cbv zeta in Hgraph. destruct Hgraph as (_ & _ & _ & Hlast & _).
  destruct Hlast as (Hup & _); [cbn; lia|]. exact Hup.
Defined.

Lemma stop_monitoring_waits_for_the_thread_mid_tick :
  V1_5.at_pc Scenario.thread_monitoring = V1_5.at_sample
  /\ is_over
       (V1_5.at_pc
          (fst (V1_5_gui.stop_and_wait
                  [Scenario.healthy; Scenario.healthy; Scenario.healthy;
                   Scenario.healthy] Scenario.thread_monitoring))) = true
  /\ V1_5_gui.monitor_thread
       (state_of (V1_5_gui.stop_monitoring
                    [Scenario.healthy; Scenario.healthy; Scenario.healthy;
                     Scenario.healthy] Scenario.window_monitoring)) = None.
Proof.
  split; [vm_compute; reflexivity|].
  pose proof (stop_monitoring_waits_for_the_thread
                Scenario.window_monitoring Scenario.thread_monitoring
                Scenario.healthy Scenario.healthy Scenario.healthy
                Scenario.healthy) as Hstop.
  cbv zeta in Hstop.
  destruct Hstop as (Hover & _ & _ & _ & _ & _ & Hnone & _);
    [vm_compute; reflexivity|].
  split; [exact Hover | exact Hnone].
Defined.

Lemma detect_anomalies_same_verdicts_in_every_version_at_spike :
  fst (fst (call_each V1_0.detect_anomalies
              (repeat 100%Z 9 ++ [100000%Z])%list Scenario.monitor_v1_0))
  = fst (fst (call_each V1_5.detect_anomalies
                (repeat 100%Z 9 ++ [100000%Z])%list Scenario.monitor))
  /\ fst (fst (call_each V1_2_class.detect_anomalies
                 (repeat 100%Z 9 ++ [100000%Z])%list Scenario.monitor_v1_2))
     = fst (fst (call_each V1_5.detect_anomalies
                   (repeat 100%Z 9 ++ [100000%Z])%list Scenario.monitor)).
Proof.
  destruct (detect_anomalies_same_verdicts_in_every_version
              (repeat 100%Z 9 ++ [100000%Z])%list
              Scenario.monitor_v1_0 Scenario.monitor_v1_2 Scenario.monitor)
    as (H0 & H2 & _);
    [reflexivity | reflexivity | vm_compute; reflexivity
     | vm_compute; reflexivity |].
  split; [exact H0 | exact H2].
Defined.

Lemma monitor_v1_0_ends_when_a_probe_lets_through_at_dns_system_error :
  V1_0.monitor
    [Scenario.spike_with_dns_system_error; Scenario.healthy]
    Scenario.warm_monitor_v1_0
  = (Ret tt,
     state_of
       (V1_0.detect_anomalies (50000 + 50000)
          (V1_0.mkNetworkMonitor 51000 52000
             (Py.mkdeque (repeat 100%Z 9) 60) 2)),
     ([]
      ++ [logging_info (Network_activity (50000 + 50000));
          logging_warning Anomaly_detected]
      ++ [] ++ [last_record OSError])%list).
Proof.
  apply (monitor_v1_0_ends_when_a_probe_lets_through
           Scenario.spike_with_dns_system_error [Scenario.healthy]
           Scenario.warm_monitor_v1_0
           (V1_0.mkNetworkMonitor 51000 52000
              (Py.mkdeque (repeat 100%Z 9) 60) 2)
           50000%Z 50000%Z [] [] OSError).
  - vm_compute. reflexivity.
  - vm_compute. reflexivity.
  - left. split; [reflexivity|]. split; reflexivity.
Defined.



End MoreRuns.
